(** * MediRemind: reminder lifecycle, delivery fan-out and push subscriptions

    A shallow embedding of the reminder core of the MediRemind backend:

    - [backend/models.py]            the rows ([Models])
    - [backend/exceptions.py]        the exception values ([Exceptions])
    - [backend/notifications.py]     e-mail delivery ([Notifications])
    - [backend/push_notifications.py] Web Push delivery ([PushNotifications])
    - [backend/worker.py]            the poller ([Worker])
    - [backend/auth.py], [backend/routers/notifications.py]
                                     the live stream and the subscription
                                     endpoints ([Router])
    - [backend/routers/auth.py]      registration and login ([Auth])
    - [backend/routers/medications.py]
                                     creating medications and test
                                     reminders ([Medications])
    - [backend/routers/users.py]     the history endpoints ([History])

    Conventions of the embedding.

    - A table is the list of its rows in table order, the order of the
      integer primary key.  [query.filter(..).all()] is [filter],
      [.first()] is [head].
    - An ORM relationship that the code dereferences without a test
      ([reminder.medication]) is a field holding the related row; one that
      the code tests ([medication.user]) is an [option].
    - An attribute write on a loaded row followed by [db.commit()] is the
      UPDATE of the row with that primary key; [db.delete(row)] is the
      DELETE of the row with that primary key.  The engine itself is taken
      to succeed, so the [except Exception] arms that only a failing engine
      can reach are not part of the model.
    - What a function does to the outside world is the list of [Effect]s it
      returns: logger calls, the SMTP session, the Web Push request and the
      events yielded on a stream.  What the outside world answers (SMTP
      server, push service, JWT library) is a function given in the
      environment.
    - The store is the repository's default, SQLite.  A query without
      ORDER BY that the engine answers by a table scan returns the rows in
      table order; the poller's query restricts [scheduled_time], the one
      indexed column of [reminders] besides the key, and is answered
      through that index, in the order of the index.
    - A Python [str] is a sequence of code points; a [string] here is its
      UTF-8 encoding.  [len(s)] and [s[:n]] count code points, not bytes
      ([PyStr.len], [PyStr.take]).  The code uses [s.lower()] only to
      compare the result with ASCII text; [PyStr.lower] lowers the ASCII
      letters and the two code points whose lower case contains an ASCII
      letter, and leaves every other code point as it is, which no such
      comparison can tell from Python's result. *)

From Stdlib Require Import ZArith Lia String Ascii DecimalString Sorted.
From stdpp Require Import base list strings gmap sorting.

Open Scope string_scope.
Open Scope list_scope.
Open Scope Z_scope.

(** ** Python strings *)

Module PyStr.

(** [bool(s)] *)
Definition truthy (s : string) : bool :=
  match s with EmptyString => false | String _ _ => true end.

(** [a or b] on strings *)
Definition or_else (a b : string) : string := if truthy a then a else b.

(** [str(n)] for an [int] *)
Definition of_Z (n : Z) : string := NilZero.string_of_int (Z.to_int n).

(** [str(n)] for a [len(..)] *)
Definition of_nat (n : nat) : string := of_Z (Z.of_nat n).

(** A byte [10xxxxxx] continues the code point that the bytes before it
    began; every other byte begins one. *)
Definition is_continuation (c : ascii) : bool :=
  let n := nat_of_ascii c in (Nat.leb 128 n && Nat.ltb n 192)%bool.

(** [len(s)]: the number of code points. *)
Fixpoint len (s : string) : nat :=
  match s with
  | EmptyString => O
  | String c s' => if is_continuation c then len s' else S (len s')
  end.

(** [s[:n]]: the first [n] code points. *)
Fixpoint take (n : nat) (s : string) : string :=
  match s with
  | EmptyString => EmptyString
  | String c s' =>
      if is_continuation c then String c (take n s')
      else match n with
           | O => EmptyString
           | S n' => String c (take n' s')
           end
  end.

(** [c * n] *)
Fixpoint repeat (c : ascii) (n : nat) : string :=
  match n with O => EmptyString | S n' => String c (repeat c n') end.

Definition lower_ascii (c : ascii) : ascii :=
  let n := nat_of_ascii c in
  if (Nat.leb 65 n && Nat.leb n 90)%bool then ascii_of_nat (n + 32) else c.

Fixpoint lower_bytes (s : string) : string :=
  match s with
  | EmptyString => EmptyString
  | String c s' => String (lower_ascii c) (lower_bytes s')
  end.

Definition starts_continued (s : string) : bool :=
  match s with
  | EmptyString => false
  | String c _ => is_continuation c
  end.

(** The code points of [s], each as its bytes. *)
Fixpoint chars (s : string) : list string :=
  match s with
  | EmptyString => []
  | String c s' =>
      if starts_continued s' then
        match chars s' with
        | ch :: rest => String c ch :: rest
        | [] => [String c EmptyString]
        end
      else String c EmptyString :: chars s'
  end.

(** U+212A KELVIN SIGN, U+0130 LATIN CAPITAL LETTER I WITH DOT ABOVE and
    U+0307 COMBINING DOT ABOVE, in UTF-8. *)
Definition kelvin_sign : string :=
  String (ascii_of_nat 226) (String (ascii_of_nat 132)
    (String (ascii_of_nat 170) EmptyString)).
Definition capital_i_dot : string :=
  String (ascii_of_nat 196) (String (ascii_of_nat 176) EmptyString).
Definition combining_dot : string :=
  String (ascii_of_nat 204) (String (ascii_of_nat 135) EmptyString).

(** The lower case of one code point: the Kelvin sign gives [k], the
    dotted capital I gives [i] followed by the combining dot, an ASCII
    capital gives its small letter. *)
Definition lower_char (ch : string) : string :=
  if String.eqb ch kelvin_sign then "k"
  else if String.eqb ch capital_i_dot then "i" +:+ combining_dot
  else lower_bytes ch.

(** [s.lower()].  A cased code point other than those above is left as
    it is, where Python gives another code point outside ASCII: the
    result differs from Python's only in code points outside ASCII, so
    [contains] with an ASCII needle and [in_list] with ASCII texts, the
    only uses the code makes of it, give Python's answer. *)
Definition lower (s : string) : string :=
  String.concat EmptyString (lower_char <$> chars s).

(** [needle in hay] *)
Fixpoint contains (needle hay : string) : bool :=
  (String.prefix needle hay
   || match hay with
      | EmptyString => false
      | String _ hay' => contains needle hay'
      end)%bool.

(** [s in [a, b, ...]] *)
Definition in_list (s : string) (l : list string) : bool :=
  existsb (String.eqb s) l.

End PyStr.

(** ** models.py *)

Module Models.

Inductive ReminderStatus := PENDING | DUE | SENT | TAKEN | SKIPPED.

#[export] Instance ReminderStatus_eq_dec : EqDecision ReminderStatus.
Proof. solve_decision. Defined.

(** [MedicationPriority]: the column is a string, the enum's members are
    the strings below. *)
Definition NORMAL : string := "NORMAL".
Definition HIGH : string := "HIGH".

Record User := {
  user_id : Z;
  user_email : string;
  hashed_password : string;
  is_active : bool;
  full_name : option string;
  phone_number : option string;
  email_notifications : bool
}.

Record Medication := {
  med_id : Z;
  med_name : string;
  dosage : string;
  frequency : string;
  instructions : string;
  priority : string;
  med_user : option User
}.

Record Reminder := {
  rem_id : Z;
  medication : Medication;
  scheduled_time : Z;
  status : ReminderStatus
}.

Record PushSubscription := {
  sub_id : Z;
  sub_user_id : Z;
  endpoint : string;
  p256dh_key : string;
  auth_key : string;
  created_at : Z
}.

(** The database: the three tables the core reads and writes. *)
Record Session := {
  users : list User;
  reminders : list Reminder;
  push_subscriptions : list PushSubscription
}.

Definition set_status (st : ReminderStatus) (r : Reminder) : Reminder :=
  {| rem_id := rem_id r; medication := medication r;
     scheduled_time := scheduled_time r; status := st |}.

(** [row.status = st] on the loaded row [r], as the flush writes it:
    UPDATE reminders SET status = st WHERE id = r.id *)
Definition update_status (r : Reminder) (st : ReminderStatus) (db : Session)
  : Session :=
  {| users := users db;
     reminders :=
       fmap (fun x => if decide (rem_id x = rem_id r) then set_status st x else x)
           (reminders db);
     push_subscriptions := push_subscriptions db |}.

(** The table after the rows whose id is in [ids] were given status [st]. *)
Definition mark (st : ReminderStatus) (ids : list Z) (rs : list Reminder)
  : list Reminder :=
  (fun x => if decide (rem_id x ∈ ids) then set_status st x else x) <$> rs.

(** [db.delete(sub)]: DELETE FROM push_subscriptions WHERE id = sub.id *)
Definition delete_subscription (sub : PushSubscription) (db : Session)
  : Session :=
  {| users := users db;
     reminders := reminders db;
     push_subscriptions :=
       filter (fun x => sub_id x <> sub_id sub) (push_subscriptions db) |}.

Definition with_subscriptions (subs : list PushSubscription) (db : Session)
  : Session :=
  {| users := users db; reminders := reminders db;
     push_subscriptions := subs |}.

Definition with_reminders (rs : list Reminder) (db : Session) : Session :=
  {| users := users db; reminders := rs;
     push_subscriptions := push_subscriptions db |}.

(** Primary keys and the UNIQUE constraint on [endpoint]. *)
Definition reminder_pk (db : Session) : Prop :=
  NoDup (fmap rem_id (reminders db)).
Definition subscription_pk (db : Session) : Prop :=
  NoDup (fmap sub_id (push_subscriptions db)).
Definition endpoint_unique (db : Session) : Prop :=
  NoDup (fmap endpoint (push_subscriptions db)).

End Models.

(** ** Effects and results *)

Module Effects.

Inductive Logger := WorkerLog | NotificationLog | ApiLog | AuthLog.
Inductive Level := LvDebug | LvInfo | LvWarning | LvError.

(** The dictionaries that [json.dumps] puts on the wire.  A dictionary
    keeps its entries in insertion order; [JIso t] is the text that
    [isoformat()] gives the time [t]. *)
#[local] Set Warnings "-register-all".
Inductive Json :=
| JNull
| JBool (b : bool)
| JInt (n : Z)
| JStr (s : string)
| JIso (t : Z)
| JObj (entries : list (string * Json)).

(** [d.get(k)] on a dictionary. *)
Fixpoint assoc_get (k : string) (entries : list (string * Json))
  : option Json :=
  match entries with
  | [] => None
  | (k', v) :: rest => if String.eqb k k' then Some v else assoc_get k rest
  end.

Definition dict_get (k : string) (d : Json) : option Json :=
  match d with
  | JObj entries => assoc_get k entries
  | _ => None
  end.

(** A payload carries a disclaimer when it has a [disclaimer] entry that
    is a non-empty text. *)
Definition carries_disclaimer (d : Json) : bool :=
  match dict_get "disclaimer" d with
  | Some (JStr text) => PyStr.truthy text
  | _ => false
  end.

Inductive Effect :=
| Log (who : Logger) (lvl : Level) (msg : string)
| SmtpSession (server : string) (port : Z) (username password : string)
              (from_email to_email subject body content_type : string)
| WebPush (ep p256dh auth : string) (payload : Json)
          (vapid_private_key vapid_sub : string)
| Yield (data : Json).          (* one [data: ...] frame of a stream *)

Definition Trace := list Effect.

(** [part] is a run of consecutive effects of [whole]. *)
Definition occurs_in (part whole : Trace) : Prop :=
  exists pre post, whole = pre ++ part ++ post.

Inductive Result (E A : Type) :=
| Return (a : A)
| Raise (e : E).
Arguments Return {E A} a.
Arguments Raise {E A} e.

End Effects.

(** ** exceptions.py *)

Module Exceptions.

(** [MediRemindException]: message and optional details. *)
Record MediRemindException := {
  exc_message : string;
  exc_details : option string
}.

(** [__str__] *)
Definition exc_str (e : MediRemindException) : string :=
  match exc_details e with
  | Some d => if PyStr.truthy d
              then exc_message e +:+ " | Details: " +:+ d
              else exc_message e
  | None => exc_message e
  end.

Definition EmailDeliveryError (recipient : string) (details : option string)
  : MediRemindException :=
  {| exc_message := "Failed to deliver email to " +:+ recipient;
     exc_details := details |}.

End Exceptions.

(** ** notifications.py *)

Module Notifications.
Import Effects Exceptions.

Record SMTPConfig := {
  server : string;
  port : Z;
  username : string;
  password : string;
  from_email : string
}.

Definition is_configured (c : SMTPConfig) : bool :=
  (PyStr.truthy (username c) && PyStr.truthy (password c))%bool.

(** What the [with smtplib.SMTP(..)] block of [_send_smtp_email] does. *)
Inductive SmtpOutcome :=
| SmtpSent
| SMTPAuthenticationError (str_e : string)
| SMTPRecipientsRefused (str_e : string)
| SMTPException (str_e : string)
| SmtpOtherException (str_e : string).

(** The mail relay: recipient, subject, body, content type. *)
Definition SmtpServer := string -> string -> string -> string -> SmtpOutcome.

Definition _mock_send_email (to_email subject body : string) : Trace :=
  [ Log NotificationLog LvInfo (PyStr.repeat "=" 50);
    Log NotificationLog LvInfo ("[MOCK EMAIL] To: " +:+ to_email);
    Log NotificationLog LvInfo ("Subject: " +:+ subject);
    Log NotificationLog LvInfo
      (if Nat.ltb 200 (PyStr.len body)
       then "Body: " +:+ PyStr.take 200 body +:+ "..."
       else "Body: " +:+ body);
    Log NotificationLog LvInfo (PyStr.repeat "=" 50) ].

Definition _send_smtp_email (c : SMTPConfig) (smtp : SmtpServer)
    (to_email subject body : string) (html : bool)
  : Result MediRemindException bool * Trace :=
  let content_type := if html then "html" else "plain" in
  let session :=
    SmtpSession (server c) (port c) (username c) (password c)
                (from_email c) to_email subject body content_type in
  match smtp to_email subject body content_type with
  | SmtpSent =>
      (Return true,
       [session;
        Log NotificationLog LvInfo ("Email sent successfully to " +:+ to_email)])
  | SMTPAuthenticationError e =>
      (Raise (EmailDeliveryError to_email (Some "Authentication failed")),
       [session;
        Log NotificationLog LvError ("SMTP authentication failed: " +:+ e)])
  | SMTPRecipientsRefused e =>
      (Raise (EmailDeliveryError to_email (Some "Recipient refused")),
       [session;
        Log NotificationLog LvError ("Recipient refused: " +:+ e)])
  | SMTPException e =>
      (Raise (EmailDeliveryError to_email (Some e)),
       [session; Log NotificationLog LvError ("SMTP error: " +:+ e)])
  | SmtpOtherException e =>
      (Raise (EmailDeliveryError to_email (Some e)),
       [session;
        Log NotificationLog LvError ("Unexpected email error: " +:+ e)])
  end.

Definition send_email (c : SMTPConfig) (smtp : SmtpServer)
    (to_email subject body : string) (html : bool)
  : Result MediRemindException bool * Trace :=
  if negb (is_configured c)
  then (Return true, _mock_send_email to_email subject body)
  else _send_smtp_email c smtp to_email subject body html.

End Notifications.

(** ** push_notifications.py *)

Module PushNotifications.
Import Effects Exceptions.

Record VAPIDConfig := {
  public_key : string;
  private_key : string;
  mailto : string;
  private_key_path : string
}.

Definition is_configured (c : VAPIDConfig) : bool :=
  ((PyStr.truthy (public_key c) && PyStr.truthy (private_key c))
   || PyStr.truthy (private_key_path c))%bool.

Definition PushNotificationError (ep : string) (details : option string)
  : MediRemindException :=
  {| exc_message := "Failed to send push to " +:+ PyStr.take 50 ep +:+ "...";
     exc_details := details |}.

Definition get_vapid_public_key (c : VAPIDConfig) : string := public_key c.

(** The [response] attribute of a [WebPushException]: the truth value
    Python gives the object in [e.response and ...], and its status code. *)
Record Response := {
  resp_bool : bool;
  status_code : Z
}.

(** What the call of [webpush(..)] does. *)
Inductive WebPushOutcome :=
| PushDelivered
| WebPushException (response : option Response) (str_e : string)
| PushOtherException (str_e : string).

(** The push service: endpoint, client keys, message. *)
Definition PushService :=
  string -> string -> string -> Json -> WebPushOutcome.

(** [e.response and e.response.status_code == code] *)
Definition response_is (response : option Response) (code : Z) : bool :=
  match response with
  | None => false
  | Some r => (resp_bool r && Z.eqb (status_code r) code)%bool
  end.

(** [o or d] for an optional string argument. *)
Definition opt_or (o : option string) (d : string) : string :=
  match o with
  | Some s => PyStr.or_else s d
  | None => d
  end.

Definition send_push_notification (c : VAPIDConfig) (svc : PushService)
    (ep p256dh auth title body : string) (icon url tag : option string)
  : Result MediRemindException bool * Trace :=
  if negb (is_configured c) then
    (Return false,
     [Log NotificationLog LvWarning
          "VAPID keys not configured - skipping push notification";
      Log NotificationLog LvInfo
          ("[MOCK PUSH] Title: " +:+ title +:+ ", Body: " +:+ body)])
  else
    let payload :=
      JObj [ ("title", JStr title);
             ("body", JStr body);
             ("icon", JStr (opt_or icon "/icons/pill-icon.png"));
             ("badge", JStr "/icons/badge.png");
             ("tag", JStr (opt_or tag "medication-reminder"));
             ("data", JObj [ ("url", JStr (opt_or url "/")) ]) ] in
    let request := WebPush ep p256dh auth payload (private_key c) (mailto c) in
    match svc ep p256dh auth payload with
    | PushDelivered =>
        (Return true,
         [request;
          Log NotificationLog LvInfo ("Push notification sent: " +:+ title)])
    | WebPushException response e =>
        if response_is response 410 then
          (Raise (PushNotificationError ep (Some "Subscription expired")),
           [request;
            Log NotificationLog LvWarning
                ("Push subscription expired (410): "
                 +:+ PyStr.take 50 ep +:+ "...")])
        else if response_is response 404 then
          (Raise (PushNotificationError ep (Some "Subscription not found")),
           [request;
            Log NotificationLog LvWarning
                ("Push subscription not found (404): "
                 +:+ PyStr.take 50 ep +:+ "...")])
        else
          (Raise (PushNotificationError ep (Some e)),
           [request;
            Log NotificationLog LvError ("Push notification failed: " +:+ e)])
    | PushOtherException e =>
        (Raise (PushNotificationError ep (Some e)),
         [request;
          Log NotificationLog LvError ("Unexpected push error: " +:+ e)])
    end.

End PushNotifications.

(** ** worker.py *)

Module Worker.
Import Models Effects Exceptions.

(** The module-level state of the two delivery modules and the services
    behind them. *)
Record Env := {
  smtp_config : Notifications.SMTPConfig;
  smtp_server : Notifications.SmtpServer;
  vapid_config : PushNotifications.VAPIDConfig;
  push_service : PushNotifications.PushService
}.

(** The same process with another mail configuration and relay. *)
Definition with_smtp (c : Notifications.SMTPConfig)
    (smtp : Notifications.SmtpServer) (env : Env) : Env :=
  {| smtp_config := c; smtp_server := smtp;
     vapid_config := vapid_config env; push_service := push_service env |}.

Definition _get_user_push_subscriptions (db : Session) (uid : Z)
  : list PushSubscription :=
  filter (fun s => sub_user_id s = uid) (push_subscriptions db).

Definition push_title (m : Medication) : string := "💊 " +:+ med_name m.

Definition push_body (m : Medication) : string :=
  "Time to take " +:+ dosage m +:+ " - "
  +:+ PyStr.or_else (instructions m) "Take as directed".

Definition push_tag (m : Medication) : string := "med-" +:+ PyStr.of_Z (med_id m).

Definition send_push_to (env : Env) (m : Medication) (sub : PushSubscription)
  : Result MediRemindException bool * Trace :=
  PushNotifications.send_push_notification
    (vapid_config env) (push_service env)
    (endpoint sub) (p256dh_key sub) (auth_key sub)
    (push_title m) (push_body m)
    None (Some "/medications") (Some (push_tag m)).

(** The test of the [except PushNotificationError] arm. *)
Definition looks_expired (e : MediRemindException) : bool :=
  (PyStr.contains "expired" (PyStr.lower (exc_str e))
   || PyStr.contains "not found" (PyStr.lower (exc_str e)))%bool.

(** The [for sub in subscriptions] loop of [_send_push_to_user]:
    [success_count], [expired_subscriptions] and what it did. *)
Fixpoint push_loop (env : Env) (m : Medication) (subs : list PushSubscription)
  : Z * list PushSubscription * Trace :=
  match subs with
  | [] => (0, [], [])
  | sub :: rest =>
      let '(n, expired, tr_rest) := push_loop env m rest in
      match send_push_to env m sub with
      | (Return _, tr) => (1 + n, expired, tr ++ tr_rest)
      | (Raise e, tr) =>
          (n,
           (if looks_expired e then sub :: expired else expired),
           tr ++ Log WorkerLog LvWarning
                     ("Push notification failed: " +:+ exc_str e)
              :: tr_rest)
      end
  end.

(** The [for expired_sub in expired_subscriptions] loop. *)
Fixpoint delete_expired (u : User) (expired : list PushSubscription)
    (db : Session) : Session * Trace :=
  match expired with
  | [] => (db, [])
  | sub :: rest =>
      let '(db', tr) := delete_expired u rest (delete_subscription sub db) in
      (db',
       Log WorkerLog LvInfo
           ("Removed expired subscription for user " +:+ user_email u) :: tr)
  end.

Definition _send_push_to_user (env : Env) (db : Session) (u : User)
    (m : Medication) : Z * Session * Trace :=
  let subscriptions := _get_user_push_subscriptions db (user_id u) in
  match subscriptions with
  | [] =>
      (0, db,
       [Log WorkerLog LvDebug ("No push subscriptions for user " +:+ user_email u)])
  | _ :: _ =>
      let '(success_count, expired, tr) := push_loop env m subscriptions in
      let '(db', tr_del) := delete_expired u expired db in
      (success_count, db', tr ++ tr_del)
  end.

Definition dq : string := String (ascii_of_nat 34) EmptyString.
Definition nl : string := String (ascii_of_nat 10) EmptyString.

Definition _build_email_body (m : Medication) : string :=
  String.concat nl
    [ EmptyString;
      "    <div style=" +:+ dq
        +:+ "font-family: Arial, sans-serif; max-width: 600px; margin: 0 auto;"
        +:+ dq +:+ ">";
      "        <h2 style=" +:+ dq +:+ "color: #2563eb;" +:+ dq
        +:+ ">⏰ Time to take your medication</h2>";
      "        <div style=" +:+ dq
        +:+ "background: #f3f4f6; padding: 20px; border-radius: 8px;"
        +:+ dq +:+ ">";
      "            <p style=" +:+ dq +:+ "font-size: 18px; margin: 0;"
        +:+ dq +:+ ">";
      "                <strong>" +:+ med_name m +:+ "</strong> ("
        +:+ dosage m +:+ ")";
      "            </p>";
      "            <p style=" +:+ dq +:+ "color: #6b7280; margin-top: 10px;"
        +:+ dq +:+ ">";
      "                " +:+ PyStr.or_else (instructions m) "Take as directed";
      "            </p>";
      "        </div>";
      "        <p style=" +:+ dq
        +:+ "color: #9ca3af; font-size: 12px; margin-top: 20px;" +:+ dq +:+ ">";
      "            This is an automated reminder from MediRemind.";
      "        </p>";
      "    </div>";
      "    " ].

Definition email_subject (m : Medication) : string :=
  "Medication Reminder: " +:+ med_name m.

(** [user.email_notifications and user.email] *)
Definition email_enabled (u : User) : bool :=
  (email_notifications u && PyStr.truthy (user_email u))%bool.

(** The e-mail step of [_process_reminder]: the [try] with its
    [except EmailDeliveryError]. *)
Definition email_step (env : Env) (u : User) (m : Medication) : Trace :=
  if email_enabled u then
    match Notifications.send_email (smtp_config env) (smtp_server env)
            (user_email u) (email_subject m) (_build_email_body m) true with
    | (Return _, tr) =>
        tr ++ [Log WorkerLog LvInfo
                   ("Email notification sent to " +:+ user_email u)]
    | (Raise e, tr) =>
        tr ++ [Log WorkerLog LvError ("Failed to send email: " +:+ exc_str e)]
    end
  else [].

(** The push step of [_process_reminder]. *)
Definition push_step (env : Env) (db : Session) (u : User) (m : Medication)
  : Session * Trace :=
  let '(push_count, db', tr) := _send_push_to_user env db u m in
  (db',
   tr ++ (if 0 <? push_count
          then [Log WorkerLog LvInfo
                    ("Sent " +:+ PyStr.of_Z push_count
                     +:+ " push notification(s) to " +:+ user_email u)]
          else [])).

Definition _process_reminder (env : Env) (reminder : Reminder) (db : Session)
  : Session * Trace :=
  let m := medication reminder in
  let user := med_user m in
  let tr0 :=
    [Log WorkerLog LvInfo
         ("Processing reminder " +:+ PyStr.of_Z (rem_id reminder)
          +:+ " for " +:+ med_name m)] in
  let db1 := update_status reminder DUE db in
  match user with
  | None =>
      (db1,
       tr0 ++ [Log WorkerLog LvWarning
                   ("No user associated with medication "
                    +:+ PyStr.of_Z (med_id m))])
  | Some u =>
      let tr_email := email_step env u m in
      let '(db2, tr_push) := push_step env db1 u m in
      (db2, tr0 ++ tr_email ++ tr_push)
  end.

(** The query of [check_reminders]. *)
Definition pending_due (now : Z) (r : Reminder) : Prop :=
  status r = PENDING /\ scheduled_time r <= now.

#[export] Instance pending_due_dec now r : Decision (pending_due now r).
Proof. unfold pending_due. apply _. Defined.

(** The index that [index=True] puts on [Reminder.scheduled_time]: the
    rows by scheduled time, rows of equal time in table order. *)
Fixpoint index_insert (r : Reminder) (ix : list Reminder) : list Reminder :=
  match ix with
  | [] => [r]
  | x :: rest =>
      if decide (scheduled_time r <= scheduled_time x) then r :: x :: rest
      else x :: index_insert r rest
  end.

Definition ix_reminders_scheduled_time (rs : list Reminder) : list Reminder :=
  foldr index_insert [] rs.

(** The query has no [order_by]; the engine answers the test on
    [scheduled_time] by walking the index, and keeps the PENDING rows. *)
Definition query_pending_due (now : Z) (db : Session) : list Reminder :=
  filter (pending_due now) (ix_reminders_scheduled_time (reminders db)).

(** The [for reminder in due_reminders] loop: [processed_count], the
    session and what was done. *)
Fixpoint process_all (env : Env) (due : list Reminder) (db : Session)
  : Z * Session * Trace :=
  match due with
  | [] => (0, db, [])
  | reminder :: rest =>
      let '(db1, tr1) := _process_reminder env reminder db in
      let '(n, db2, tr2) := process_all env rest db1 in
      (1 + n, db2, tr1 ++ tr2)
  end.

Definition check_reminders (env : Env) (now : Z) (db : Session)
  : Z * Session * Trace :=
  let due_reminders := query_pending_due now db in
  match due_reminders with
  | [] => (0, db, [Log WorkerLog LvDebug "No due reminders found"])
  | _ :: _ =>
      let '(n, db', tr) := process_all env due_reminders db in
      (n, db',
       Log WorkerLog LvInfo
           ("Found " +:+ PyStr.of_nat (length due_reminders)
            +:+ " due reminder(s)") :: tr)
  end.

End Worker.

(** ** auth.py (token validation) and routers/notifications.py *)

Module Router.
Import Models Effects.

Record HTTPException := {
  http_status : Z;
  http_detail : string
}.

(** What [jwt.decode(token, SECRET_KEY, ..)] does: the payload's [sub]
    entry, or a [JWTError]. *)
Inductive JwtOutcome :=
| JwtPayload (sub : option string)
| JWTError (str_e : string).

Definition JwtDecode := string -> JwtOutcome.

Definition credentials_exception : HTTPException :=
  {| http_status := 401; http_detail := "Could not validate credentials" |}.

Definition _decode_jwt_token (decode : JwtDecode) (token : string)
  : Result HTTPException string * Trace :=
  match decode token with
  | JwtPayload (Some email) => (Return email, [])
  | JwtPayload None =>
      (Raise credentials_exception,
       [Log AuthLog LvWarning "Token missing 'sub' claim"])
  | JWTError e =>
      (Raise credentials_exception,
       [Log AuthLog LvWarning ("JWT decode error: " +:+ e)])
  end.

Definition get_user_by_email (db : Session) (email : string) : option User :=
  head (filter (fun u => user_email u = email) (users db)).

Definition get_current_user_from_token (decode : JwtDecode) (token : string)
    (db : Session) : Result HTTPException User * Trace :=
  match _decode_jwt_token decode token with
  | (Raise e, tr) => (Raise e, tr)
  | (Return email, tr) =>
      match get_user_by_email db email with
      | None =>
          (Raise credentials_exception,
           tr ++ [Log AuthLog LvWarning
                      ("SSE auth failed: user not found for " +:+ email)])
      | Some user => (Return user, tr)
      end
  end.

Definition disclaimer_text : string :=
  "This is an important medication. If you've missed this dose, please consult your healthcare provider before adjusting your schedule.".

(** The [data] dictionary built for one reminder. *)
Definition stream_data (reminder : Reminder) : Json :=
  let med := medication reminder in
  let is_high_risk := String.eqb (priority med) "HIGH" in
  let friendly_message :=
    "It's time for your " +:+ med_name med +:+ " (" +:+ dosage med +:+ ")" in
  let friendly_message :=
    if (PyStr.truthy (instructions med)
        && negb (PyStr.in_list (PyStr.lower (instructions med))
                               ["test"; "take as directed"]))%bool
    then friendly_message +:+ " — " +:+ instructions med
    else friendly_message in
  let disclaimer := if is_high_risk then Some disclaimer_text else None in
  JObj [ ("id", JInt (rem_id reminder));
         ("medicationName", JStr (med_name med));
         ("dosage", JStr (dosage med));
         ("instructions",
          JStr (PyStr.or_else (instructions med) "Take as directed"));
         ("scheduledTime", JIso (scheduled_time reminder));
         ("message", JStr friendly_message);
         ("isHighRisk", JBool is_high_risk);
         ("disclaimer",
          match disclaimer with Some text => JStr text | None => JNull end);
         ("actionLabel", JStr "Mark as Taken") ].

(** The query of the stream loop; every loaded reminder has its
    medication, so the join keeps every row. *)
Definition query_due (db : Session) : list Reminder :=
  filter (fun r => status r = DUE) (reminders db).

(** The [for reminder in due_reminders] loop of the generator. *)
Fixpoint stream_loop (due : list Reminder) (db : Session) : Session * Trace :=
  match due with
  | [] => (db, [])
  | reminder :: rest =>
      let '(db', tr) := stream_loop rest (update_status reminder SENT db) in
      (db', Yield (stream_data reminder) :: tr)
  end.

(** One pass of the [while True] body. *)
Definition stream_pass (db : Session) : Session * Trace :=
  stream_loop (query_due db) db.

(** The first [n] passes of the [while True] loop. *)
Fixpoint stream_passes (n : nat) (db : Session) : Session * Trace :=
  match n with
  | O => (db, [])
  | S n' =>
      let '(db1, tr1) := stream_pass db in
      let '(db2, tr2) := stream_passes n' db1 in
      (db2, tr1 ++ tr2)
  end.

(** [notification_generator(token)], observed for [n] passes of its loop. *)
Definition notification_generator (decode : JwtDecode) (token : string)
    (n : nat) (db : Session) : Session * Trace :=
  match get_current_user_from_token decode token db with
  | (Raise _, tr) =>
      (db, tr ++ [Yield (JObj [ ("error", JStr "Unauthorized") ])])
  | (Return _, tr) =>
      let '(db', tr') := stream_passes n db in
      (db', tr ++ tr')
  end.

Record SubscriptionRequest := {
  req_endpoint : string;
  req_keys : gmap string string
}.

(** [keys.get(k, EmptyString)] *)
Definition keys_get (keys : gmap string string) (k : string) : string :=
  default EmptyString (keys !! k).

(** The id the engine gives a new row. *)
Definition next_sub_id (subs : list PushSubscription) : Z :=
  1 + foldr Z.max 0 (fmap sub_id subs).

Definition subscribe (subscription : SubscriptionRequest) (current_user : User)
    (now : Z) (db : Session) : string * Session * Trace :=
  let existing :=
    head (filter (fun s => endpoint s = req_endpoint subscription)
                 (push_subscriptions db)) in
  let p256dh := keys_get (req_keys subscription) "p256dh" in
  let auth := keys_get (req_keys subscription) "auth" in
  match existing with
  | Some ex =>
      ("Subscribed successfully",
       with_subscriptions
         (fmap (fun s =>
                 if decide (sub_id s = sub_id ex)
                 then {| sub_id := sub_id s;
                         sub_user_id := user_id current_user;
                         endpoint := endpoint s;
                         p256dh_key := p256dh;
                         auth_key := auth;
                         created_at := created_at s |}
                 else s)
              (push_subscriptions db))
         db,
       [Log ApiLog LvInfo
            ("Updated push subscription for " +:+ user_email current_user)])
  | None =>
      ("Subscribed successfully",
       with_subscriptions
         (push_subscriptions db
          ++ [{| sub_id := next_sub_id (push_subscriptions db);
                 sub_user_id := user_id current_user;
                 endpoint := req_endpoint subscription;
                 p256dh_key := p256dh;
                 auth_key := auth;
                 created_at := now |}])
         db,
       [Log ApiLog LvInfo
            ("Created push subscription for " +:+ user_email current_user)])
  end.

Definition unsubscribe (ep : string) (current_user : User) (db : Session)
  : string * Session * Trace :=
  let sub :=
    head (filter (fun s => endpoint s = ep /\ sub_user_id s = user_id current_user)
                 (push_subscriptions db)) in
  match sub with
  | Some s =>
      ("Unsubscribed successfully",
       delete_subscription s db,
       [Log ApiLog LvInfo
            ("Removed push subscription for " +:+ user_email current_user)])
  | None => ("Unsubscribed successfully", db, [])
  end.

End Router.

(** ** The operations of the core on the reminder table *)

Module Core.
Import Models.

Inductive CoreOp :=
| PollerTick (env : Worker.Env) (now : Z)     (* one [check_reminders()] *)
| StreamPass.                                 (* one pass of a stream loop *)

Definition run_op (op : CoreOp) (db : Session) : Session :=
  match op with
  | PollerTick env now => (Worker.check_reminders env now db).1.2
  | StreamPass => (Router.stream_pass db).1
  end.

Definition run_ops (ops : list CoreOp) (db : Session) : Session :=
  foldl (fun acc op => run_op op acc) db ops.

(** The move an operation may make on one status. *)
Definition may_move (op : CoreOp) (before after : ReminderStatus) : Prop :=
  before = after
  \/ match op with
     | PollerTick _ _ => before = PENDING /\ after = DUE
     | StreamPass => before = DUE /\ after = SENT
     end.

(** Forward along PENDING, DUE, SENT; TAKEN and SKIPPED only stay. *)
Definition forward (before after : ReminderStatus) : Prop :=
  before = after
  \/ (before = PENDING /\ (after = DUE \/ after = SENT))
  \/ (before = DUE /\ after = SENT).

(** The same row but for its status. *)
Definition same_row (x y : Reminder) : Prop :=
  rem_id y = rem_id x /\ medication y = medication x
  /\ scheduled_time y = scheduled_time x.

End Core.

(** ** Sample data *)

Module Sample.
Import Models Effects Exceptions.

Definition alice : User :=
  {| user_id := 1; user_email := "alice@example.com";
     hashed_password := "x"; is_active := true;
     full_name := None; phone_number := None;
     email_notifications := true |}.

Definition bob : User :=
  {| user_id := 2; user_email := "bob@example.com";
     hashed_password := "y"; is_active := true;
     full_name := None; phone_number := None;
     email_notifications := false |}.

(** The two medications of the [test-trigger] endpoint. *)
Definition warfarin : Medication :=
  {| med_id := 7; med_name := "Warfarin"; dosage := "5mg";
     frequency := "Once daily";
     instructions := "Take at the same time each day. Do not skip doses.";
     priority := HIGH; med_user := Some alice |}.

Definition vitamin_d : Medication :=
  {| med_id := 8; med_name := "Vitamin D"; dosage := "1000 IU";
     frequency := "Once daily"; instructions := "Take with food.";
     priority := NORMAL; med_user := Some bob |}.

Definition reminder (i : Z) (m : Medication) (t : Z) (st : ReminderStatus)
  : Reminder :=
  {| rem_id := i; medication := m; scheduled_time := t; status := st |}.

Definition subscription (i uid : Z) (ep : string) : PushSubscription :=
  {| sub_id := i; sub_user_id := uid; endpoint := ep;
     p256dh_key := "A"; auth_key := "B"; created_at := 0 |}.

Definition sub_a : PushSubscription := subscription 1 1 "https://push.example/a".
Definition sub_b : PushSubscription := subscription 2 1 "https://push.example/b".

(** One pending reminder of alice, who has two registered browsers. *)
Definition db_one_pending : Session :=
  {| users := [alice; bob];
     reminders := [reminder 1 warfarin 10 PENDING];
     push_subscriptions := [sub_a; sub_b] |}.

(** Two reminders whose ids and scheduled times run in opposite order. *)
Definition db_two (st : ReminderStatus) : Session :=
  {| users := [alice; bob];
     reminders := [reminder 1 warfarin 10 st; reminder 2 vitamin_d 5 st];
     push_subscriptions := [sub_a] |}.

Definition smtp_off : Notifications.SMTPConfig :=
  {| Notifications.server := "smtp.gmail.com"; Notifications.port := 587;
     Notifications.username := EmptyString;
     Notifications.password := EmptyString;
     Notifications.from_email := "noreply@mediremind.app" |}.

Definition smtp_on : Notifications.SMTPConfig :=
  {| Notifications.server := "smtp.gmail.com"; Notifications.port := 587;
     Notifications.username := "reminders";
     Notifications.password := "secret";
     Notifications.from_email := "noreply@mediremind.app" |}.

Definition vapid_on : PushNotifications.VAPIDConfig :=
  {| PushNotifications.public_key := "pub";
     PushNotifications.private_key := "priv";
     PushNotifications.mailto := "mailto:admin@mediremind.app";
     PushNotifications.private_key_path := EmptyString |}.

Definition smtp_up : Notifications.SmtpServer :=
  fun _ _ _ _ => Notifications.SmtpSent.

Definition smtp_down : Notifications.SmtpServer :=
  fun _ _ _ _ => Notifications.SMTPException "Connection unexpectedly closed".

Definition push_up : PushNotifications.PushService :=
  fun _ _ _ _ => PushNotifications.PushDelivered.

(** The push service answers 404 Not Found for the endpoint of [sub_a].
    The response object of an answer with a status of 400 or more counts
    as false in [e.response and ...], so what reaches the worker is the
    text of the exception. *)
Definition push_a_not_found : PushNotifications.PushService :=
  fun ep _ _ _ =>
    if String.eqb ep (endpoint sub_a)
    then PushNotifications.WebPushException
           (Some {| PushNotifications.resp_bool := false;
                    PushNotifications.status_code := 404 |})
           "WebPushException: Push failed: 404 Not Found"
    else PushNotifications.PushDelivered.

(** The push service answers 410 Gone for the endpoint of [sub_a], with a
    response object that counts as false likewise. *)
Definition push_a_gone_falsy : PushNotifications.PushService :=
  fun ep _ _ _ =>
    if String.eqb ep (endpoint sub_a)
    then PushNotifications.WebPushException
           (Some {| PushNotifications.resp_bool := false;
                    PushNotifications.status_code := 410 |})
           "Push failed: 410 Gone"
    else PushNotifications.PushDelivered.

(** The TLS handshake with the push service of [sub_a] fails: the request
    never reaches the service, the endpoint is as valid as before. *)
Definition push_a_tls_failure : PushNotifications.PushService :=
  fun ep _ _ _ =>
    if String.eqb ep (endpoint sub_a)
    then PushNotifications.PushOtherException
           "certificate verify failed: certificate has expired"
    else PushNotifications.PushDelivered.

Definition env_of (smtp : Notifications.SmtpServer)
    (push : PushNotifications.PushService) : Worker.Env :=
  {| Worker.smtp_config := smtp_on; Worker.smtp_server := smtp;
     Worker.vapid_config := vapid_on; Worker.push_service := push |}.

Definition env_live : Worker.Env := env_of smtp_up push_up.

(** The keys of a browser's subscription request, and those it sends
    when it subscribes again. *)
Definition keys_AB : gmap string string :=
  {[ "p256dh" := "A"; "auth" := "B" ]}.
Definition keys_CD : gmap string string :=
  {[ "p256dh" := "C"; "auth" := "D" ]}.

(** The token is the e-mail address it was issued for. *)
Definition decode_plain : Router.JwtDecode :=
  fun token => Router.JwtPayload (Some token).

End Sample.

(** ** Observations on traces *)

Module Observe.
Import Effects.

Definition is_smtp_session (e : Effect) : bool :=
  match e with SmtpSession _ _ _ _ _ _ _ _ _ => true | _ => false end.

Definition is_web_push (e : Effect) : bool :=
  match e with WebPush _ _ _ _ _ _ => true | _ => false end.

Definition is_yield (e : Effect) : bool :=
  match e with Yield _ => true | _ => false end.

(** A stream frame whose [id] entry is [i]. *)
Definition yields_id (i : Z) (e : Effect) : bool :=
  match e with
  | Yield d =>
      match dict_get "id" d with
      | Some (JInt n) => Z.eqb n i
      | _ => false
      end
  | _ => false
  end.

(** How a send to one subscription ends. *)
Definition push_returns (env : Worker.Env) (m : Models.Medication)
    (sub : Models.PushSubscription) : Prop :=
  exists ok, (Worker.send_push_to env m sub).1 = Return ok.

Definition push_raises_expired (env : Worker.Env) (m : Models.Medication)
    (sub : Models.PushSubscription) : Prop :=
  exists e, (Worker.send_push_to env m sub).1 = Raise e
            /\ Worker.looks_expired e = true.

#[export] Instance push_returns_dec env m sub : Decision (push_returns env m sub).
Proof.
  unfold push_returns.
  destruct (Worker.send_push_to env m sub).1 as [ok|e].
  - left. by exists ok.
  - right. by intros [ok ?].
Defined.

#[export] Instance push_raises_expired_dec env m sub :
  Decision (push_raises_expired env m sub).
Proof.
  unfold push_raises_expired.
  destruct (Worker.send_push_to env m sub).1 as [ok|e].
  - right. by intros (e & ? & _).
  - destruct (Worker.looks_expired e) eqn:Hexp.
    + left. by exists e.
    + right. intros (e' & [= <-] & Hexp'). congruence.
Defined.

End Observe.

(** ** worker.py: the main loop *)

Module WorkerLoop.
Import Models Effects.

(** The [while not _shutdown_requested] loop of [run_worker].  A run is
    given by the clock readings of its iterations, one for each
    [check_reminders()] that starts before the shutdown flag is seen; the
    value each call returns, which the loop drops, is kept here. *)
Fixpoint worker_loop (env : Worker.Env) (nows : list Z) (db : Session)
  : list Z * Session * Trace :=
  match nows with
  | [] => ([], db, [])
  | now :: rest =>
      let '(n, db1, tr1) := Worker.check_reminders env now db in
      let '(ns, db2, tr2) := worker_loop env rest db1 in
      (n :: ns, db2, tr1 ++ tr2)
  end.

(** The second line that [run_worker] logs. *)
Definition banner (c : PushNotifications.VAPIDConfig) : string :=
  "Push notifications: "
  +:+ (if PyStr.truthy (PushNotifications.get_vapid_public_key c)
       then "ENABLED" else "DISABLED (no VAPID keys)").

Definition run_worker (env : Worker.Env) (poll_interval : Z) (nows : list Z)
    (db : Session) : list Z * Session * Trace :=
  let '(ns, db', tr) := worker_loop env nows db in
  (ns, db',
   [ Log WorkerLog LvInfo
         ("Starting Reminder Worker (poll interval: "
          +:+ PyStr.of_Z poll_interval +:+ "s)");
     Log WorkerLog LvInfo (banner (Worker.vapid_config env)) ]
   ++ tr ++ [ Log WorkerLog LvInfo "Worker shutdown complete" ]).

(** A reminder that some iteration of the run finds due. *)
Definition due_in_run (nows : list Z) (r : Reminder) : Prop :=
  status r = PENDING /\ Exists (fun now => scheduled_time r <= now) nows.

#[export] Instance due_in_run_dec nows r : Decision (due_in_run nows r).
Proof. unfold due_in_run. apply _. Defined.

End WorkerLoop.

(** ** The history endpoints (routers/users.py, routers/notifications.py) *)

Module History.
Import Models.

(** [status.in_([TAKEN, SKIPPED])] *)
Definition acknowledged (r : Reminder) : Prop :=
  status r = TAKEN \/ status r = SKIPPED.

(** [Medication.user_id == current_user.id] *)
Definition owned_by (u : User) (r : Reminder) : Prop :=
  match med_user (medication r) with
  | Some owner => user_id owner = user_id u
  | None => False
  end.

#[export] Instance owned_by_dec u r : Decision (owned_by u r).
Proof. unfold owned_by. destruct (med_user (medication r)); apply _. Defined.

(** [order_by(scheduled_time.desc())]: the later reminder first. *)
Definition later_first (x y : Reminder) : Prop :=
  scheduled_time y <= scheduled_time x.

#[export] Instance later_first_dec x y : Decision (later_first x y).
Proof. unfold later_first. apply _. Defined.

(** [GET /users/me/reminders/history] *)
Definition get_medication_history (current_user : User) (db : Session)
  : list Reminder :=
  take 50
    (merge_sort later_first
       (filter (fun r => owned_by current_user r /\ acknowledged r)
               (reminders db))).

(** [GET /reminders/history]: the query has no filter on the user. *)
Definition get_medication_history_legacy (current_user : User) (db : Session)
  : list Reminder :=
  take 50 (merge_sort later_first (filter acknowledged (reminders db))).

End History.

(** ** auth.py and routers/auth.py *)

Module Auth.
Import Models Effects.

(** [pwd_context.verify(plain, hashed)] and [pwd_context.hash(password)] *)
Definition PasswordVerify := string -> string -> bool.
Definition PasswordHash := string -> string.

(** [jwt.encode(to_encode, SECRET_KEY, ALGORITHM)]: the claims other than
    [exp], and the [exp] claim. *)
Definition JwtEncode := gmap string string -> Z -> string.

Definition ACCESS_TOKEN_EXPIRE_MINUTES : Z := 30.

Definition authenticate_user (verify : PasswordVerify) (db : Session)
    (email password : string) : option User * Trace :=
  match Router.get_user_by_email db email with
  | None =>
      (None,
       [Log AuthLog LvWarning
            ("Authentication failed: user not found for " +:+ email)])
  | Some user =>
      if negb (verify password (hashed_password user)) then
        (None,
         [Log AuthLog LvWarning
              ("Authentication failed: invalid password for " +:+ email)])
      else
        (Some user,
         [Log AuthLog LvInfo ("User authenticated successfully: " +:+ email)])
  end.

(** [expires_delta or timedelta(minutes=ACCESS_TOKEN_EXPIRE_MINUTES)], in
    seconds: a missing and a zero delta are both false. *)
Definition effective_delta (expires_delta : option Z) : Z :=
  match expires_delta with
  | Some d => if Z.eqb d 0 then ACCESS_TOKEN_EXPIRE_MINUTES * 60 else d
  | None => ACCESS_TOKEN_EXPIRE_MINUTES * 60
  end.

(** The dictionary after [to_encode.update] has put [exp]: the entries of
    [data] but for [exp], and the expiry. *)
Definition create_access_token (encode : JwtEncode)
    (data : gmap string string) (expires_delta : option Z) (utcnow : Z)
  : string * Trace :=
  let expire := utcnow + effective_delta expires_delta in
  (encode (delete "exp" data) expire,
   [Log AuthLog LvDebug
        ("Created access token for " +:+ default "unknown" (data !! "sub"))]).

(** [POST /auth/token] *)
Definition login (verify : PasswordVerify) (encode : JwtEncode)
    (username password : string) (utcnow : Z) (db : Session)
  : Result Router.HTTPException (string * string) * Trace :=
  match authenticate_user verify db username password with
  | (None, tr) =>
      (Raise {| Router.http_status := 401;
                Router.http_detail := "Incorrect email or password" |},
       tr)
  | (Some user, tr) =>
      let '(access_token, tr') :=
        create_access_token encode {[ "sub" := user_email user ]}
          (Some (ACCESS_TOKEN_EXPIRE_MINUTES * 60)) utcnow in
      (Return (access_token, "bearer"),
       tr ++ tr' ++ [Log ApiLog LvInfo ("User logged in: " +:+ user_email user)])
  end.

(** The id the engine gives a new user. *)
Definition next_user_id (us : list User) : Z :=
  1 + foldr Z.max 0 (user_id <$> us).

(** [POST /auth/signup] *)
Definition signup (hash : PasswordHash) (email password : string)
    (db : Session) : Result Router.HTTPException User * Session * Trace :=
  match Router.get_user_by_email db email with
  | Some _ =>
      (Raise {| Router.http_status := 400;
                Router.http_detail := "Email already registered" |},
       db, [])
  | None =>
      let db_user :=
        {| user_id := next_user_id (users db);
           user_email := email;
           hashed_password := hash password;
           is_active := true;
           full_name := None;
           phone_number := None;
           email_notifications := false |} in
      (Return db_user,
       {| users := users db ++ [db_user];
          reminders := reminders db;
          push_subscriptions := push_subscriptions db |},
       [Log ApiLog LvInfo ("New user registered: " +:+ email)])
  end.

End Auth.

(** ** routers/medications.py *)

Module Medications.
Import Models Effects.

(** The request body of [POST /medications]. *)
Record MedicationCreate := {
  mc_name : string;
  mc_dosage : string;
  mc_frequency : string;
  mc_instructions : string;
  mc_start_date : string;
  mc_end_date : option string;
  mc_reminders : list string
}.

(** [int(s)] on a string: the number, or [None] for [ValueError]. *)
Definition PyInt := string -> option Z.

(** [s.split(sep)] for a one-character separator. *)
Fixpoint split_on (sep : ascii) (s : string) : list string :=
  match s with
  | EmptyString => [EmptyString]
  | String c s' =>
      if Ascii.eqb c sep then EmptyString :: split_on sep s'
      else match split_on sep s' with
           | part :: parts => String c part :: parts
           | [] => [String c EmptyString]
           end
  end.

(** What the body of the [try] does with one time string. *)
Inductive TimeOutcome :=
| TimeOk (hour minute : Z)
| TimeValueError            (* caught: the string is skipped *)
| TimeOverflowError.        (* not caught: the request fails *)

(** The range of a C [int], to which [datetime.time] converts its
    arguments before it checks them. *)
Definition c_int (n : Z) : bool := ((- 2147483648 <=? n) && (n <=? 2147483647))%bool.

(** [hour, minute = map(int, time_str.split(":"))] followed by
    [datetime.time(hour=hour, minute=minute)]. *)
Definition parse_time (py_int : PyInt) (time_str : string) : TimeOutcome :=
  match split_on ":" time_str with
  | [a; b] =>
      match py_int a, py_int b with
      | Some hour, Some minute =>
          if negb (c_int hour && c_int minute) then TimeOverflowError
          else if ((0 <=? hour) && (hour <? 24)
                   && (0 <=? minute) && (minute <? 60))%bool
               then TimeOk hour minute
               else TimeValueError
      | _, _ => TimeValueError
      end
  | _ => TimeValueError
  end.

(** [datetime.datetime.utcnow().date()], as the first second of the day. *)
Definition today (utcnow : Z) : Z := utcnow - utcnow mod 86400.

(** [datetime.datetime.combine(today, datetime.time(hour, minute))] *)
Definition combine (day hour minute : Z) : Z := day + hour * 3600 + minute * 60.

(** The id the engine gives a new reminder. *)
Definition next_rem_id (rs : list Reminder) : Z :=
  1 + foldr Z.max 0 (rem_id <$> rs).

(** The [for time_str in med.reminders] loop: the reminders added to the
    session, or the error that leaves the loop. *)
Fixpoint add_reminders (py_int : PyInt) (db_med : Medication) (day : Z)
    (times : list string) (rs : list Reminder) : option (list Reminder) :=
  match times with
  | [] => Some rs
  | time_str :: rest =>
      match parse_time py_int time_str with
      | TimeOk hour minute =>
          add_reminders py_int db_med day rest
            (rs ++ [{| rem_id := next_rem_id rs;
                       medication := db_med;
                       scheduled_time := combine day hour minute;
                       status := PENDING |}])
      | TimeValueError => add_reminders py_int db_med day rest rs
      | TimeOverflowError => None
      end
  end.

(** [POST /medications].  [new_med_id] is the id the engine gives the
    medication.  When the loop is left by an error the second commit does
    not happen and the reminders added so far are lost. *)
Definition create_medication (py_int : PyInt) (med : MedicationCreate)
    (current_user : User) (utcnow : Z) (new_med_id : Z) (db : Session)
  : option (string * Z) * Session * Trace :=
  let db_med :=
    {| med_id := new_med_id;
       med_name := mc_name med;
       dosage := mc_dosage med;
       frequency := mc_frequency med;
       instructions := mc_instructions med;
       priority := NORMAL;
       med_user := Some current_user |} in
  match add_reminders py_int db_med (today utcnow) (mc_reminders med)
          (reminders db) with
  | Some rs =>
      (Some ("Medication created successfully", new_med_id),
       with_reminders rs db,
       [Log ApiLog LvInfo
            ("Created medication '" +:+ mc_name med +:+ "' for "
             +:+ user_email current_user)])
  | None => (None, db, [])
  end.

(** The range of [datetime], 0001-01-01 00:00:00 to 9999-12-31 23:59:59,
    in seconds from the epoch, and the range of [timedelta], 999999999
    days either way, in seconds. *)
Definition datetime_min : Z := -62135596800.
Definition datetime_max : Z := 253402300799.
Definition timedelta_min : Z := -999999999 * 86400.
Definition timedelta_max : Z := 999999999 * 86400 + 86399.

(** [utcnow + datetime.timedelta(minutes=minutes)]; [None] is the
    OverflowError that the constructor of the delta or the addition
    raises. *)
Definition add_minutes (utcnow minutes : Z) : option Z :=
  let delta := minutes * 60 in
  if negb ((timedelta_min <=? delta) && (delta <=? timedelta_max))%bool
  then None
  else if negb ((datetime_min <=? utcnow + delta)
                && (utcnow + delta <=? datetime_max))%bool
  then None
  else Some (utcnow + delta).

(** [POST /medications/test-trigger].  The response names the medication
    and the due time; the medication row itself is returned here.  [None]
    is the request that fails on the first line, before anything is
    added to the session. *)
Definition test_trigger (minutes : Z) (high_risk : bool)
    (current_user : User) (utcnow : Z) (new_med_id : Z) (db : Session)
  : option (Medication * Session * Trace) :=
  match add_minutes utcnow minutes with
  | None => None
  | Some due_time =>
      let med :=
        if high_risk then
          {| med_id := new_med_id; med_name := "Warfarin"; dosage := "5mg";
             frequency := "Once daily";
             instructions :=
               "Take at the same time each day. Do not skip doses.";
             priority := "HIGH"; med_user := Some current_user |}
        else
          {| med_id := new_med_id; med_name := "Vitamin D";
             dosage := "1000 IU"; frequency := "Once daily";
             instructions := "Take with food.";
             priority := "NORMAL"; med_user := Some current_user |} in
      Some
        (med,
         with_reminders
           (reminders db
            ++ [{| rem_id := next_rem_id (reminders db);
                   medication := med;
                   scheduled_time := due_time;
                   status := PENDING |}])
           db,
         [Log ApiLog LvInfo
              ("Created test reminder for " +:+ user_email current_user
               +:+ ": " +:+ med_name med)])
  end.

End Medications.

(** ** exceptions.py: the other exception classes *)

Module ExceptionClasses.
Import Exceptions.

Definition TokenExpiredError (details : option string) : MediRemindException :=
  {| exc_message := "Token has expired"; exc_details := details |}.

Definition InvalidTokenError (details : option string) : MediRemindException :=
  {| exc_message := "Invalid authentication token"; exc_details := details |}.

Definition UserNotFoundError (email : option string) : MediRemindException :=
  {| exc_message := "User not found";
     exc_details :=
       match email with
       | Some a => if PyStr.truthy a then Some ("Email: " +:+ a) else None
       | None => None
       end |}.

(** The details are the response, cut to ["Raw: " + raw_response[:200] +
    "..."] when it is longer than 200. *)
Definition AIResponseParseError (raw_response : option string)
  : MediRemindException :=
  {| exc_message := "Failed to parse AI response";
     exc_details :=
       match raw_response with
       | Some raw =>
           if (PyStr.truthy raw && Nat.ltb 200 (PyStr.len raw))%bool
           then Some ("Raw: " +:+ PyStr.take 200 raw +:+ "...")
           else Some raw
       | None => None
       end |}.

Definition AIQuotaExceededError : MediRemindException :=
  {| exc_message := "AI service quota exceeded";
     exc_details := Some "Falling back to rule-based analysis" |}.

Definition RecordNotFoundError (model : string) (identifier : option string)
  : MediRemindException :=
  {| exc_message := model +:+ " not found";
     exc_details :=
       match identifier with
       | Some i => if PyStr.truthy i then Some ("ID: " +:+ i) else None
       | None => None
       end |}.

Definition DuplicateRecordError (model field value : string)
  : MediRemindException :=
  {| exc_message := model +:+ " already exists";
     exc_details := Some (field +:+ "=" +:+ value) |}.

Definition InvalidImageError (details : option string) : MediRemindException :=
  {| exc_message := "Invalid image data"; exc_details := details |}.

End ExceptionClasses.

(** * Properties *)

(** ** Status writes on the reminder table *)

Module StoreLemmas.
Import Models.

Lemma set_status_id st x : rem_id (set_status st x) = rem_id x.
Proof. reflexivity. Qed.

Lemma set_status_twice st x : set_status st (set_status st x) = set_status st x.
Proof. reflexivity. Qed.

Lemma mark_nil st rs : mark st [] rs = rs.
Proof.
  unfold mark. rewrite <- (list_fmap_id rs) at 2. apply list_fmap_ext.
  intros _ x _. case_decide as Hin; [|done]. by apply not_elem_of_nil in Hin.
Qed.

Lemma mark_update st r ids db :
  mark st ids (reminders (update_status r st db))
  = mark st (rem_id r :: ids) (reminders db).
Proof.
  unfold mark, update_status; simpl.
  rewrite <- list_fmap_compose. apply list_fmap_ext. intros _ x _; simpl.
  destruct (decide (rem_id x = rem_id r)) as [Heq|Hne].
  - rewrite set_status_id.
    rewrite (decide_True (P := rem_id x ∈ rem_id r :: ids))
      by (rewrite Heq; apply list_elem_of_here).
    by case_decide.
  - destruct (decide (rem_id x ∈ ids)) as [Hin|Hnin].
    + by rewrite decide_True by (by apply list_elem_of_further).
    + rewrite decide_False; [done|].
      intros [?|?]%elem_of_cons; contradiction.
Qed.

Lemma mark_length st ids rs : length (mark st ids rs) = length rs.
Proof. unfold mark. by rewrite length_fmap. Qed.

Lemma mark_ids st ids rs : rem_id <$> mark st ids rs = rem_id <$> rs.
Proof.
  unfold mark. rewrite <- list_fmap_compose. apply list_fmap_ext.
  intros _ x _; simpl. by case_decide.
Qed.

Lemma elem_of_mark_hit st ids rs r :
  r ∈ rs -> rem_id r ∈ ids -> set_status st r ∈ mark st ids rs.
Proof.
  intros Hr Hid. unfold mark. apply list_elem_of_fmap.
  exists r. split; [|done]. by rewrite decide_True.
Qed.


(** Under the primary key, a row is identified by its id. *)
Lemma pk_same_row (rs : list Reminder) x y :
  NoDup (rem_id <$> rs) -> x ∈ rs -> y ∈ rs -> rem_id x = rem_id y -> x = y.
Proof.
  induction rs as [|z rs IH]; simpl; intros Hnd Hx Hy Heq.
  - by apply not_elem_of_nil in Hx.
  - apply NoDup_cons in Hnd as [Hz Hnd].
    apply elem_of_cons in Hx as [->|Hx];
      apply elem_of_cons in Hy as [->|Hy]; try done.
    + exfalso. apply Hz. rewrite Heq. by apply list_elem_of_fmap_2.
    + exfalso. apply Hz. rewrite <- Heq. by apply list_elem_of_fmap_2.
    + by apply IH.
Qed.

(** A key that is unique in a table selects one row. *)
Lemma filter_key_one {A B} `{!EqDecision B} (f : A -> B) (l : list A) (k : A) :
  NoDup (f <$> l) -> k ∈ l ->
  filter (fun s => f s = f k) l = [k]
  /\ S (length (filter (fun s => f s <> f k) l)) = length l.
Proof.
  induction l as [|x l IH]; intros Hnd Hin.
  - by apply elem_of_nil in Hin.
  - rewrite fmap_cons in Hnd. apply NoDup_cons in Hnd as [Hx Hnd].
    apply elem_of_cons in Hin as [->|Hin].
    + rewrite filter_cons_True by done.
      rewrite filter_cons_False by (intros H; by apply H).
      assert (Hall : forall s, s ∈ l -> f s <> f x).
      { intros s Hs Heq. apply Hx. rewrite <- Heq. by apply list_elem_of_fmap_2. }
      split.
      * f_equal. apply elem_of_nil_inv. intros s [Hs Hsl]%list_elem_of_filter.
        by apply (Hall s).
      * cbn [length]. f_equal. f_equal.
        clear -Hall. induction l as [|y l IH]; [done|].
        rewrite filter_cons_True
          by (apply Hall, list_elem_of_here).
        cbn [length]. f_equal. apply IH. intros s Hs. apply Hall.
        by apply list_elem_of_further.
    + destruct (IH Hnd Hin) as [IH1 IH2].
      assert (Hne : f x <> f k).
      { intros Heq. apply Hx. rewrite Heq. by apply list_elem_of_fmap_2. }
      rewrite filter_cons_False by done.
      rewrite filter_cons_True by done.
      split; [done|]. cbn [length]. by rewrite IH2.
Qed.

End StoreLemmas.

(** ** E-mail delivery *)

Module EmailProofs.
Import Models Effects Exceptions.

(** C5. With no SMTP credentials configured, [send_email] returns [True]
    (so it does not raise), whatever the recipient, subject and body, and
    what it does is exactly the mock log entry, whose second line names
    the recipient. *)
Theorem send_email_unconfigured_mock
    (c : Notifications.SMTPConfig) (smtp : Notifications.SmtpServer)
    (to_email subject body : string) (html : bool) :
  Notifications.is_configured c = false ->
  Notifications.send_email c smtp to_email subject body html
  = (Return true, Notifications._mock_send_email to_email subject body)
  /\ Log NotificationLog LvInfo ("[MOCK EMAIL] To: " +:+ to_email)
     ∈ Notifications._mock_send_email to_email subject body.
Proof.
  intros Hc. split.
  - unfold Notifications.send_email. by rewrite Hc.
  - unfold Notifications._mock_send_email.
    apply list_elem_of_further, list_elem_of_here.
Qed.

Lemma send_email_unconfigured_mock_witness :
  Notifications.send_email Sample.smtp_off Sample.smtp_down
    "alice@example.com" "Medication Reminder: Warfarin" "body" true
  = (Return true,
     Notifications._mock_send_email
       "alice@example.com" "Medication Reminder: Warfarin" "body")
  /\ Log NotificationLog LvInfo ("[MOCK EMAIL] To: " +:+ "alice@example.com")
     ∈ Notifications._mock_send_email
         "alice@example.com" "Medication Reminder: Warfarin" "body".
Proof.
  apply (send_email_unconfigured_mock Sample.smtp_off Sample.smtp_down).
  reflexivity.
Defined.

(** With credentials configured the result is the relay's: every failure
    of the SMTP session is an [EmailDeliveryError]. *)
Lemma send_email_configured c smtp to_email subject body html :
  Notifications.is_configured c = true ->
  Notifications.send_email c smtp to_email subject body html
  = Notifications._send_smtp_email c smtp to_email subject body html.
Proof. intros Hc. unfold Notifications.send_email. by rewrite Hc. Qed.

End EmailProofs.

(** ** Payloads *)

Module PayloadProofs.
Import Models Effects Exceptions.

Lemma send_push_payload_keys c svc ep k1 k2 title body icon url tag
    ep' k1' k2' payload key claim :
  WebPush ep' k1' k2' payload key claim
  ∈ (PushNotifications.send_push_notification
       c svc ep k1 k2 title body icon url tag).2 ->
  exists t b i g u,
    payload = JObj [ ("title", JStr t); ("body", JStr b); ("icon", JStr i);
                     ("badge", JStr "/icons/badge.png"); ("tag", JStr g);
                     ("data", JObj [ ("url", JStr u) ]) ].
Proof.
  unfold PushNotifications.send_push_notification.
  destruct (negb (PushNotifications.is_configured c)); simpl.
  - intros Hin. repeat (apply elem_of_cons in Hin as [Hin|Hin]; [discriminate|]).
    by apply elem_of_nil in Hin.
  - match goal with
    | |- context [svc ?a ?b ?c ?d] => destruct (svc a b c d) as [|resp e|e]
    end;
    repeat match goal with
           | |- context [if ?b then _ else _] => destruct b
           end; simpl;
    (intros Hin; apply elem_of_cons in Hin as [Hin|Hin];
     [ injection Hin as -> -> -> -> -> ->; eauto 10
     | apply elem_of_cons in Hin as [Hin|Hin];
       [discriminate | by apply elem_of_nil in Hin] ]).
Qed.

(** C9, as stated, fails on the push channel: the push message built for
    the high-risk medication of the sample carries no disclaimer. *)
Lemma push_payload_high_risk_disclaimer_counterexample :
  ~ (forall (env : Worker.Env) (m : Medication) (sub : PushSubscription)
       ep k1 k2 payload key claim,
       priority m = HIGH ->
       WebPush ep k1 k2 payload key claim ∈ (Worker.send_push_to env m sub).2 ->
       carries_disclaimer payload = true).
Proof.
  intros H.
  assert (Hin : exists ep k1 k2 payload key claim tl,
             (Worker.send_push_to Sample.env_live Sample.warfarin Sample.sub_a).2
             = WebPush ep k1 k2 payload key claim :: tl
             /\ carries_disclaimer payload = false).
  { vm_compute. eauto 10. }
  destruct Hin as (ep & k1 & k2 & payload & key & claim & tl & Htr & Hno).
  specialize (H Sample.env_live Sample.warfarin Sample.sub_a
                ep k1 k2 payload key claim eq_refl).
  rewrite Htr, Hno in H. discriminate H. apply list_elem_of_here.
Qed.

(** C9, amended.  The stream payload of a reminder carries a non-empty
    disclaimer when the medication's priority is HIGH and a null
    disclaimer when it is NORMAL; the push payload has no disclaimer entry
    at all, whatever the priority. *)
Theorem disclaimer_by_channel :
  (forall r : Reminder,
     priority (medication r) = HIGH ->
     carries_disclaimer (Router.stream_data r) = true)
  /\ (forall r : Reminder,
        priority (medication r) = NORMAL ->
        dict_get "disclaimer" (Router.stream_data r) = Some JNull)
  /\ (forall (env : Worker.Env) (m : Medication) (sub : PushSubscription)
        ep k1 k2 payload key claim,
        WebPush ep k1 k2 payload key claim ∈ (Worker.send_push_to env m sub).2 ->
        dict_get "disclaimer" payload = None).
Proof.
  split; [|split].
  - intros r Hp. unfold Router.stream_data. rewrite Hp. reflexivity.
  - intros r Hp. unfold Router.stream_data. rewrite Hp. reflexivity.
  - intros env m sub ep k1 k2 payload key claim Hin.
    apply send_push_payload_keys in Hin as (t & b & i & g & u & ->).
    reflexivity.
Qed.

Lemma disclaimer_by_channel_witness :
  carries_disclaimer
    (Router.stream_data (Sample.reminder 1 Sample.warfarin 10 DUE)) = true
  /\ dict_get "disclaimer"
       (Router.stream_data (Sample.reminder 2 Sample.vitamin_d 5 DUE))
     = Some JNull.
Proof.
  split.
  - apply (proj1 disclaimer_by_channel). reflexivity.
  - apply (proj1 (proj2 disclaimer_by_channel)). reflexivity.
Defined.

End PayloadProofs.

(** ** The live stream *)

Module StreamProofs.
Import Models Effects Exceptions StoreLemmas.

Lemma stream_loop_spec due db :
  Router.stream_loop due db
  = (with_reminders (mark SENT (rem_id <$> due) (reminders db)) db,
     (fun r => Yield (Router.stream_data r)) <$> due).
Proof.
  revert db. induction due as [|r rest IH]; intros db.
  - simpl. rewrite mark_nil. by destruct db.
  - cbn [Router.stream_loop]. rewrite IH, mark_update. reflexivity.
Qed.

Lemma stream_pass_spec db :
  Router.stream_pass db
  = (with_reminders
       (mark SENT (rem_id <$> Router.query_due db) (reminders db)) db,
     (fun r => Yield (Router.stream_data r)) <$> Router.query_due db).
Proof. apply stream_loop_spec. Qed.

(** A pass leaves no reminder with status DUE behind. *)
Lemma stream_pass_drains db :
  Router.query_due (Router.stream_pass db).1 = [].
Proof.
  rewrite stream_pass_spec. unfold Router.query_due at 1; simpl.
  apply elem_of_nil_inv. intros x [Hst Hx]%list_elem_of_filter.
  unfold mark in Hx. apply list_elem_of_fmap in Hx as (y & -> & Hy).
  case_decide as Hin; simpl in Hst; [discriminate|].
  apply Hin, list_elem_of_fmap_2. unfold Router.query_due.
  by apply list_elem_of_filter.
Qed.

Lemma stream_passes_idle n db :
  Router.query_due db = [] -> Router.stream_passes n db = (db, []).
Proof.
  intros Hq. induction n as [|n IH]; [done|].
  cbn [Router.stream_passes]. unfold Router.stream_pass.
  rewrite Hq. cbn [Router.stream_loop]. by rewrite IH.
Qed.

(** The first pass does all the work of the first [S n] passes. *)
Lemma stream_passes_first n db :
  Router.stream_passes (S n) db = Router.stream_pass db.
Proof.
  cbn [Router.stream_passes].
  destruct (Router.stream_pass db) as [db1 tr1] eqn:Hp.
  rewrite (stream_passes_idle n db1).
  - by rewrite app_nil_r.
  - change db1 with (db1, tr1).1. rewrite <- Hp. apply stream_pass_drains.
Qed.

(** A token that validates leaves no trace of the validation. *)
Lemma validated_silent decode token db u tr :
  Router.get_current_user_from_token decode token db = (Return u, tr) ->
  tr = [].
Proof.
  unfold Router.get_current_user_from_token, Router._decode_jwt_token.
  destruct (decode token) as [[email|]|e]; try discriminate.
  destruct (Router.get_user_by_email db email); [|discriminate].
  by intros [= _ <-].
Qed.

Lemma generator_validated decode token db u n :
  (Router.get_current_user_from_token decode token db).1 = Return u ->
  Router.notification_generator decode token n db = Router.stream_passes n db.
Proof.
  unfold Router.notification_generator.
  destruct (Router.get_current_user_from_token decode token db)
    as [res tr] eqn:Hv.
  simpl. intros ->. apply validated_silent in Hv as ->.
  by destruct (Router.stream_passes n db).
Qed.

(** C10. The feed does not depend on the user who opened it: for two
    tokens that pass the validation, the generator yields the same events
    and leaves the same store; the validated user is not used after the
    validation, so the events are those of the unfiltered passes: every
    reminder with status DUE, of whatever user, is yielded and is set to
    SENT as soon as one pass has run. *)
Theorem stream_feed_ignores_user
    (decode : Router.JwtDecode) (t1 t2 : string) (u1 u2 : User)
    (n : nat) (db : Session) :
  (Router.get_current_user_from_token decode t1 db).1 = Return u1 ->
  (Router.get_current_user_from_token decode t2 db).1 = Return u2 ->
  Router.notification_generator decode t1 n db
  = Router.notification_generator decode t2 n db
  /\ Router.notification_generator decode t1 n db = Router.stream_passes n db
  /\ (n <> 0%nat ->
      forall r, r ∈ reminders db -> status r = DUE ->
        Yield (Router.stream_data r)
        ∈ (Router.notification_generator decode t1 n db).2
        /\ set_status SENT r
           ∈ reminders (Router.notification_generator decode t1 n db).1).
Proof.
  intros H1 H2.
  rewrite (generator_validated _ _ _ _ _ H1), (generator_validated _ _ _ _ _ H2).
  split; [done|]. split; [done|].
  intros Hn r Hr Hst. destruct n as [|n]; [done|].
  rewrite stream_passes_first, stream_pass_spec; simpl.
  assert (Hq : r ∈ Router.query_due db)
    by (unfold Router.query_due; by apply list_elem_of_filter).
  split.
  - by apply (list_elem_of_fmap_2 (fun r => Yield (Router.stream_data r))).
  - apply elem_of_mark_hit; [done|]. by apply list_elem_of_fmap_2.
Qed.

Lemma stream_feed_ignores_user_witness :
  Router.notification_generator Sample.decode_plain "alice@example.com" 1
    (Sample.db_two DUE)
  = Router.notification_generator Sample.decode_plain "bob@example.com" 1
      (Sample.db_two DUE).
Proof.
  apply (proj1 (stream_feed_ignores_user Sample.decode_plain
                  "alice@example.com" "bob@example.com"
                  Sample.alice Sample.bob 1 (Sample.db_two DUE)
                  eq_refl eq_refl)).
Defined.

End StreamProofs.

(** ** The poller *)

Module WorkerLemmas.
Import Models Effects Exceptions StoreLemmas.

Lemma occurs_in_refl (tr : Trace) : occurs_in tr tr.
Proof. exists [], []. by rewrite app_nil_r. Qed.

Lemma occurs_in_app_l (part a b : Trace) :
  occurs_in part a -> occurs_in part (a ++ b).
Proof.
  intros (pre & post & ->). exists pre, (post ++ b).
  by rewrite <- !app_assoc.
Qed.

Lemma occurs_in_app_r (part a b : Trace) :
  occurs_in part b -> occurs_in part (a ++ b).
Proof.
  intros (pre & post & ->). exists (a ++ pre), post.
  by rewrite <- !app_assoc.
Qed.

Lemma occurs_in_cons (part : Trace) e b :
  occurs_in part b -> occurs_in part (e :: b).
Proof. apply (occurs_in_app_r part [e] b). Qed.

(** *** The poller's query *)

Lemma index_insert_perm r ix : Worker.index_insert r ix ≡ₚ r :: ix.
Proof.
  induction ix as [|x ix IH]; [done|]. cbn [Worker.index_insert].
  case_decide; [done|]. rewrite IH. apply Permutation_swap.
Qed.

Lemma ix_perm rs : Worker.ix_reminders_scheduled_time rs ≡ₚ rs.
Proof.
  induction rs as [|r rs IH]; [done|].
  unfold Worker.ix_reminders_scheduled_time in *. cbn [foldr].
  by rewrite index_insert_perm, IH.
Qed.




(** The query returns the PENDING reminders that are due, each once. *)
Lemma query_pending_due_perm now db :
  Worker.query_pending_due now db
  ≡ₚ filter (Worker.pending_due now) (reminders db).
Proof. unfold Worker.query_pending_due. by rewrite ix_perm. Qed.

Lemma elem_of_query_pending_due now db r :
  r ∈ Worker.query_pending_due now db
  <-> Worker.pending_due now r /\ r ∈ reminders db.
Proof. by rewrite query_pending_due_perm, list_elem_of_filter. Qed.

Lemma query_pending_due_length now db :
  length (Worker.query_pending_due now db)
  = length (filter (Worker.pending_due now) (reminders db)).
Proof. by rewrite query_pending_due_perm. Qed.

(** A status write by id depends on the ids only as a set. *)
Lemma mark_ext st ids ids' rs :
  (forall i, i ∈ ids <-> i ∈ ids') -> mark st ids rs = mark st ids' rs.
Proof.
  intros Hids. unfold mark. apply list_fmap_ext. intros _ x _.
  destruct (decide (rem_id x ∈ ids)) as [Hin|Hin].
  - by rewrite decide_True by (by apply Hids).
  - by rewrite decide_False by (by rewrite <- Hids).
Qed.

Lemma mark_query_pending_due st now db :
  mark st (rem_id <$> Worker.query_pending_due now db) (reminders db)
  = mark st (rem_id <$> filter (Worker.pending_due now) (reminders db))
      (reminders db).
Proof.
  apply mark_ext. intros i. by rewrite query_pending_due_perm.
Qed.

(** *** What the fan-out does to the store *)

Lemma delete_expired_frame u expired db :
  users (Worker.delete_expired u expired db).1 = users db
  /\ reminders (Worker.delete_expired u expired db).1 = reminders db
  /\ push_subscriptions (Worker.delete_expired u expired db).1
     `sublist_of` push_subscriptions db.
Proof.
  revert db. induction expired as [|sub rest IH]; intros db; [done|].
  cbn [Worker.delete_expired].
  specialize (IH (delete_subscription sub db)).
  destruct (Worker.delete_expired u rest (delete_subscription sub db))
    as [db' tr]; simpl in *.
  destruct IH as (-> & -> & Hs). split; [done|]. split; [done|].
  etrans; [exact Hs|]. apply sublist_filter.
Qed.

Lemma send_push_to_user_frame env db u m :
  users (Worker._send_push_to_user env db u m).1.2 = users db
  /\ reminders (Worker._send_push_to_user env db u m).1.2 = reminders db
  /\ push_subscriptions (Worker._send_push_to_user env db u m).1.2
     `sublist_of` push_subscriptions db.
Proof.
  unfold Worker._send_push_to_user.
  destruct (Worker._get_user_push_subscriptions db (user_id u)) as [|s subs];
    [done|].
  destruct (Worker.push_loop env m (s :: subs)) as [[n expired] tr].
  pose proof (delete_expired_frame u expired db) as H.
  by destruct (Worker.delete_expired u expired db).
Qed.

Lemma push_step_frame env db u m :
  users (Worker.push_step env db u m).1 = users db
  /\ reminders (Worker.push_step env db u m).1 = reminders db
  /\ push_subscriptions (Worker.push_step env db u m).1
     `sublist_of` push_subscriptions db.
Proof.
  unfold Worker.push_step.
  pose proof (send_push_to_user_frame env db u m) as H.
  by destruct (Worker._send_push_to_user env db u m) as [[n db'] tr].
Qed.

Lemma process_reminder_frame env r db :
  users (Worker._process_reminder env r db).1 = users db
  /\ reminders (Worker._process_reminder env r db).1
     = reminders (update_status r DUE db)
  /\ push_subscriptions (Worker._process_reminder env r db).1
     `sublist_of` push_subscriptions db.
Proof.
  unfold Worker._process_reminder.
  destruct (med_user (medication r)) as [u|]; [|done].
  pose proof (push_step_frame env (update_status r DUE db) u (medication r)) as H.
  by destruct (Worker.push_step env (update_status r DUE db) u (medication r)).
Qed.

Lemma process_all_frame env due db :
  users (Worker.process_all env due db).1.2 = users db
  /\ reminders (Worker.process_all env due db).1.2
     = mark DUE (rem_id <$> due) (reminders db)
  /\ push_subscriptions (Worker.process_all env due db).1.2
     `sublist_of` push_subscriptions db
  /\ (Worker.process_all env due db).1.1 = Z.of_nat (length due).
Proof.
  revert db. induction due as [|r rest IH]; intros db.
  - simpl. by rewrite mark_nil.
  - cbn [Worker.process_all].
    pose proof (process_reminder_frame env r db) as (Hu & Hr & Hs).
    destruct (Worker._process_reminder env r db) as [db1 tr1];
      cbn [fst snd] in *.
    specialize (IH db1).
    destruct (Worker.process_all env rest db1) as [[n db2] tr2];
      cbn [fst snd] in *.
    destruct IH as (-> & -> & Hs2 & ->).
    rewrite Hu, Hr, mark_update. repeat split; try done.
    + by etrans.
    + cbn [length]. lia.
Qed.

Lemma check_reminders_unfold env now db :
  Worker.check_reminders env now db
  = match Worker.query_pending_due now db with
    | [] => (0, db, [Log WorkerLog LvDebug "No due reminders found"])
    | _ :: _ =>
        ((Worker.process_all env (Worker.query_pending_due now db) db).1,
         Log WorkerLog LvInfo
             ("Found "
              +:+ PyStr.of_nat (length (Worker.query_pending_due now db))
              +:+ " due reminder(s)")
         :: (Worker.process_all env (Worker.query_pending_due now db) db).2)
    end.
Proof.
  unfold Worker.check_reminders.
  destruct (Worker.query_pending_due now db) as [|r due]; [done|].
  by destruct (Worker.process_all env (r :: due) db) as [[n db'] tr].
Qed.

(** The reminder table after a tick. *)
Lemma check_reminders_frame env now db :
  users (Worker.check_reminders env now db).1.2 = users db
  /\ reminders (Worker.check_reminders env now db).1.2
     = mark DUE (rem_id <$> Worker.query_pending_due now db) (reminders db)
  /\ push_subscriptions (Worker.check_reminders env now db).1.2
     `sublist_of` push_subscriptions db
  /\ (Worker.check_reminders env now db).1.1
     = Z.of_nat (length (Worker.query_pending_due now db)).
Proof.
  rewrite check_reminders_unfold.
  pose proof (process_all_frame env (Worker.query_pending_due now db) db) as H.
  destruct (Worker.query_pending_due now db) as [|r due] eqn:Hq; [|exact H].
  simpl. by rewrite mark_nil.
Qed.

End WorkerLemmas.

(** ** The reminder lifecycle *)

Module LifecycleProofs.
Import Models Effects Exceptions StoreLemmas WorkerLemmas Core.

Lemma mark_moves (P : Reminder -> Prop) `{!forall r, Decision (P r)}
    (st : ReminderStatus) (rs : list Reminder) (R : Reminder -> Reminder -> Prop) :
  NoDup (rem_id <$> rs) ->
  (forall x, R x x) ->
  (forall x, P x -> R x (set_status st x)) ->
  Forall2 R rs (mark st (rem_id <$> filter P rs) rs).
Proof.
  intros Hpk Hrefl Hset. unfold mark. apply Forall2_fmap_r.
  apply Forall_Forall2_diag, Forall_forall. intros x Hx. unfold compose; cbv beta.
  case_decide as Hin; [|apply Hrefl].
  apply Hset. apply list_elem_of_fmap in Hin as (y & Hid & Hy).
  apply list_elem_of_filter in Hy as [HPy Hy].
  by rewrite (pk_same_row rs x y Hpk Hx Hy Hid).
Qed.

Lemma run_op_reminders op db :
  reminders (run_op op db)
  = match op with
    | PollerTick env now =>
        mark DUE (rem_id <$> Worker.query_pending_due now db) (reminders db)
    | StreamPass => mark SENT (rem_id <$> Router.query_due db) (reminders db)
    end.
Proof.
  destruct op as [env now|]; simpl.
  - apply check_reminders_frame.
  - by rewrite StreamProofs.stream_pass_spec.
Qed.

Lemma run_op_pk op db : reminder_pk db -> reminder_pk (run_op op db).
Proof.
  unfold reminder_pk. rewrite run_op_reminders.
  destruct op; by rewrite mark_ids.
Qed.

(** One operation moves each status forward, row by row. *)
Lemma op_forward (op : CoreOp) (db : Session) :
  reminder_pk db ->
  Forall2 (fun x y => same_row x y /\ forward (status x) (status y))
          (reminders db) (reminders (run_op op db)).
Proof.
  intros Hpk. rewrite run_op_reminders.
  assert (Hrefl : forall x : Reminder,
            same_row x x /\ forward (status x) (status x))
    by (intros x; unfold same_row, forward; tauto).
  destruct op as [env now|].
  - rewrite mark_query_pending_due.
    apply (mark_moves (Worker.pending_due now)); [done|exact Hrefl|].
    intros x [Hst _]. unfold same_row, forward; simpl. rewrite Hst. tauto.
  - apply (mark_moves (fun r => status r = DUE)); [done|exact Hrefl|].
    intros x Hst. unfold same_row, forward; simpl. rewrite Hst. tauto.
Qed.

(** C8. Every operation of the core leaves each reminder the same row
    with a status that is unchanged or moved one step forward: a poller
    tick moves only PENDING to DUE, a stream pass only DUE to SENT.  So no
    status goes backward, and none becomes TAKEN or SKIPPED. *)
Theorem status_moves_forward (op : CoreOp) (db : Session) :
  reminder_pk db ->
  Forall2 (fun x y =>
             same_row x y
             /\ may_move op (status x) (status y)
             /\ forward (status x) (status y)
             /\ (status y = TAKEN \/ status y = SKIPPED -> status x = status y))
          (reminders db) (reminders (run_op op db)).
Proof.
  intros Hpk. rewrite run_op_reminders.
  destruct op as [env now|].
  - rewrite mark_query_pending_due.
    apply (mark_moves (Worker.pending_due now)); [done| |].
    + intros x. unfold same_row, may_move, forward. tauto.
    + intros x [Hst _]. unfold same_row, may_move, forward; simpl.
      rewrite Hst. repeat split; auto. intros [?|?]; discriminate.
  - apply (mark_moves (fun r => status r = DUE)); [done| |].
    + intros x. unfold same_row, may_move, forward. tauto.
    + intros x Hst. unfold same_row, may_move, forward; simpl.
      rewrite Hst. repeat split; auto. intros [?|?]; discriminate.
Qed.

Lemma status_moves_forward_witness :
  Forall2 (fun x y =>
             same_row x y
             /\ may_move (PollerTick Sample.env_live 20) (status x) (status y)
             /\ forward (status x) (status y)
             /\ (status y = TAKEN \/ status y = SKIPPED -> status x = status y))
          (reminders Sample.db_one_pending)
          (reminders (run_op (PollerTick Sample.env_live 20)
                             Sample.db_one_pending)).
Proof.
  apply (status_moves_forward (PollerTick Sample.env_live 20)
           Sample.db_one_pending).
  unfold reminder_pk. apply (bool_decide_unpack _). vm_compute. exact I.
Defined.

Lemma forward_trans a b c : forward a b -> forward b c -> forward a c.
Proof. unfold forward. intros H1 H2. destruct a, b, c; intuition congruence. Qed.

(** The same over any sequence of poller ticks and stream passes. *)
Theorem status_monotone_over_runs (ops : list CoreOp) (db : Session) :
  reminder_pk db ->
  Forall2 (fun x y => same_row x y /\ forward (status x) (status y))
          (reminders db) (reminders (run_ops ops db)).
Proof.
  revert db. induction ops as [|op ops IH]; intros db Hpk.
  - simpl. apply Forall_Forall2_diag, Forall_forall.
    intros x _. unfold same_row, forward. tauto.
  - simpl. pose proof (op_forward op db Hpk) as H1.
    specialize (IH (run_op op db) (run_op_pk op db Hpk)).
    eapply Forall2_trans; [|exact H1|exact IH].
    intros x y z (Hs1 & Hf1) (Hs2 & Hf2). split.
    + unfold same_row in *. intuition congruence.
    + by eapply forward_trans.
Qed.

End LifecycleProofs.

(** ** Detection of due reminders *)

Module DetectionProofs.
Import Models Effects Exceptions StoreLemmas WorkerLemmas.





(** *** Scanning twice *)

Lemma rescan_misses_processed now now' db env r' :
  r' ∈ Worker.query_pending_due now' (Worker.check_reminders env now db).1.2 ->
  (rem_id r' ∉ (rem_id <$> Worker.query_pending_due now db))
  /\ r' ∈ reminders db.
Proof.
  intros [[Hst _] Hin]%elem_of_query_pending_due.
  destruct (check_reminders_frame env now db) as (_ & Hr & _).
  rewrite Hr in Hin. unfold mark in Hin.
  apply list_elem_of_fmap in Hin as (y & -> & Hy).
  case_decide as Hid; simpl in Hst; [discriminate|done].
Qed.

Lemma rescan_same_instant now db env :
  Worker.query_pending_due now (Worker.check_reminders env now db).1.2 = [].
Proof.
  apply elem_of_nil_inv. intros r' Hr'.
  pose proof Hr' as [[Hst Ht] _]%elem_of_query_pending_due.
  apply rescan_misses_processed in Hr' as [Hid Hin].
  apply Hid, list_elem_of_fmap_2. by apply elem_of_query_pending_due.
Qed.

(** C1, as stated, fails: the transition the code makes is an
    unconditional write.  Handed the same reminder, read as PENDING, a
    second time, [_process_reminder] writes and delivers again; the same
    holds for the loop of the stream on a reminder read as DUE. *)
Lemma second_claim_counterexample :
  ~ (forall env r db,
       status r = PENDING ->
       Worker._process_reminder env r (Worker._process_reminder env r db).1
       = ((Worker._process_reminder env r db).1, []))
  /\ ~ (forall r db,
          status r = DUE ->
          Router.stream_loop [r] (Router.stream_loop [r] db).1
          = ((Router.stream_loop [r] db).1, [])).
Proof.
  split; intros H.
  - specialize (H Sample.env_live (Sample.reminder 1 Sample.warfarin 10 PENDING)
                  Sample.db_one_pending eq_refl).
    apply (f_equal (fun p => length p.2)) in H. vm_compute in H. discriminate.
  - specialize (H (Sample.reminder 1 Sample.warfarin 10 DUE)
                  (Sample.db_two DUE) eq_refl).
    apply (f_equal (fun p => length p.2)) in H. vm_compute in H. discriminate.
Qed.

(** C1, amended.  What keeps a reminder from being handled twice is the
    query, not the write: a scan that runs after a tick's writes finds
    none of the reminders that tick handled, a second tick at the same
    instant handles nothing and delivers nothing, and a stream pass that
    follows a stream pass yields nothing. *)
Theorem second_scan_finds_nothing :
  (forall env now now' db r',
     r' ∈ Worker.query_pending_due now' (Worker.check_reminders env now db).1.2 ->
     rem_id r' ∉ (rem_id <$> Worker.query_pending_due now db))
  /\ (forall env env' now db,
        Worker.check_reminders env' now (Worker.check_reminders env now db).1.2
        = (0, (Worker.check_reminders env now db).1.2,
           [Log WorkerLog LvDebug "No due reminders found"]))
  /\ (forall db,
        Router.stream_pass (Router.stream_pass db).1
        = ((Router.stream_pass db).1, [])).
Proof.
  split; [|split].
  - intros env now now' db r' Hr'.
    by apply rescan_misses_processed in Hr' as [? _].
  - intros env env' now db. rewrite (check_reminders_unfold env').
    by rewrite rescan_same_instant.
  - intros db. unfold Router.stream_pass at 1.
    by rewrite StreamProofs.stream_pass_drains.
Qed.

Lemma second_scan_finds_nothing_witness :
  Worker.check_reminders Sample.env_live 20
    (Worker.check_reminders Sample.env_live 20 Sample.db_one_pending).1.2
  = (0, (Worker.check_reminders Sample.env_live 20 Sample.db_one_pending).1.2,
     [Log WorkerLog LvDebug "No due reminders found"]).
Proof. apply (proj1 (proj2 second_scan_finds_nothing)). Defined.

End DetectionProofs.

(** ** Delivery by the poller *)

Module DeliveryProofs.
Import Models Effects Exceptions StoreLemmas WorkerLemmas.


Lemma push_loop_attempts env m subs sub :
  sub ∈ subs ->
  occurs_in (Worker.send_push_to env m sub).2 (Worker.push_loop env m subs).2.
Proof.
  induction subs as [|s rest IH]; intros Hin.
  - by apply elem_of_nil in Hin.
  - cbn [Worker.push_loop].
    destruct (Worker.push_loop env m rest) as [[n expired] tr_rest];
      cbn [snd] in IH.
    apply elem_of_cons in Hin as [->|Hin].
    + destruct (Worker.send_push_to env m s) as [[ok|e] tr]; cbn [snd];
        apply occurs_in_app_l, occurs_in_refl.
    + specialize (IH Hin).
      destruct (Worker.send_push_to env m s) as [[ok|e] tr]; cbn [snd].
      * by apply occurs_in_app_r.
      * by apply occurs_in_app_r, occurs_in_cons.
Qed.

Lemma send_push_to_user_attempts env db u m sub :
  sub ∈ Worker._get_user_push_subscriptions db (user_id u) ->
  occurs_in (Worker.send_push_to env m sub).2
            (Worker._send_push_to_user env db u m).2.
Proof.
  intros Hin. unfold Worker._send_push_to_user.
  destruct (Worker._get_user_push_subscriptions db (user_id u))
    as [|s subs] eqn:Hsubs; [by apply elem_of_nil in Hin|].
  pose proof (push_loop_attempts env m (s :: subs) sub Hin) as Hocc.
  destruct (Worker.push_loop env m (s :: subs)) as [[n expired] tr].
  destruct (Worker.delete_expired u expired db) as [db' tr_del].
  cbn [snd] in *. by apply occurs_in_app_l.
Qed.

Lemma push_step_attempts env db u m sub :
  sub ∈ Worker._get_user_push_subscriptions db (user_id u) ->
  occurs_in (Worker.send_push_to env m sub).2 (Worker.push_step env db u m).2.
Proof.
  intros Hin. unfold Worker.push_step.
  pose proof (send_push_to_user_attempts env db u m sub Hin) as Hocc.
  destruct (Worker._send_push_to_user env db u m) as [[n db'] tr].
  cbn [snd] in *. by apply occurs_in_app_l.
Qed.


Lemma process_reminder_trace env r db u :
  med_user (medication r) = Some u ->
  exists tr0,
    (Worker._process_reminder env r db).2
    = tr0 ++ Worker.email_step env u (medication r)
      ++ (Worker.push_step env (update_status r DUE db) u (medication r)).2.
Proof.
  intros Hu. unfold Worker._process_reminder. rewrite Hu.
  destruct (Worker.push_step env (update_status r DUE db) u (medication r)).
  eexists. reflexivity.
Qed.



(** Neither sender is silent: a call always leaves effects. *)
Lemma send_email_leaves_effects c smtp to_email subject body html :
  (Notifications.send_email c smtp to_email subject body html).2 <> [].
Proof.
  unfold Notifications.send_email, Notifications._send_smtp_email.
  destruct (negb (Notifications.is_configured c)); [done|].
  by destruct (smtp _ _ _ _).
Qed.

Lemma send_push_leaves_effects env m sub :
  (Worker.send_push_to env m sub).2 <> [].
Proof.
  unfold Worker.send_push_to, PushNotifications.send_push_notification.
  destruct (negb _); [done|].
  destruct (Worker.push_service env _ _ _ _) as [|resp e|e]; try done.
  by repeat case_match.
Qed.

Lemma push_loop_ignores_smtp c smtp env m subs :
  Worker.push_loop (Worker.with_smtp c smtp env) m subs
  = Worker.push_loop env m subs.
Proof.
  induction subs as [|sub rest IH]; [done|].
  cbn [Worker.push_loop]. by rewrite IH.
Qed.

Lemma push_step_ignores_smtp c smtp env db u m :
  Worker.push_step (Worker.with_smtp c smtp env) db u m
  = Worker.push_step env db u m.
Proof.
  unfold Worker.push_step, Worker._send_push_to_user.
  by rewrite push_loop_ignores_smtp.
Qed.

(** With VAPID configured, what a send does begins with the Web Push
    request to the subscription. *)
Lemma send_push_to_request env m sub :
  PushNotifications.is_configured (Worker.vapid_config env) = true ->
  exists payload rest,
    (Worker.send_push_to env m sub).2
    = WebPush (endpoint sub) (p256dh_key sub) (auth_key sub) payload
        (PushNotifications.private_key (Worker.vapid_config env))
        (PushNotifications.mailto (Worker.vapid_config env))
      :: rest.
Proof.
  intros Hcfg.
  unfold Worker.send_push_to, PushNotifications.send_push_notification.
  rewrite Hcfg. cbn [negb].
  destruct (Worker.push_service env _ _ _ _) as [|resp e|e];
    [by eexists _, _| |by eexists _, _].
  destruct (PushNotifications.response_is resp 410); [by eexists _, _|].
  destruct (PushNotifications.response_is resp 404); by eexists _, _.
Qed.

Lemma occurs_in_request env m sub (tr : Trace) :
  PushNotifications.is_configured (Worker.vapid_config env) = true ->
  occurs_in (Worker.send_push_to env m sub).2 tr ->
  exists payload,
    WebPush (endpoint sub) (p256dh_key sub) (auth_key sub) payload
      (PushNotifications.private_key (Worker.vapid_config env))
      (PushNotifications.mailto (Worker.vapid_config env)) ∈ tr.
Proof.
  intros Hcfg (before & after & ->).
  destruct (send_push_to_request env m sub Hcfg) as (payload & rest & ->).
  exists payload. apply elem_of_app. right. apply list_elem_of_here.
Qed.

(** C6. Processing one reminder with two mail set-ups, say one whose
    delivery raises [EmailDeliveryError] and one whose delivery succeeds,
    leaves the same store (the reminder's status, which is DUE, and the
    registry) and ends with the same push fan-out.  That fan-out calls
    [send_push_notification] for every subscription the registry holds
    for the user, so with VAPID configured it makes a Web Push request to
    each of them; and when [send_email] raises, the e-mail step is its
    effects followed by one error log, and the fan-out comes after that
    log. *)
Theorem email_failure_is_contained
    (env : Worker.Env)
    (c1 c2 : Notifications.SMTPConfig) (s1 s2 : Notifications.SmtpServer)
    (r : Reminder) (db : Session) :
  let env1 := Worker.with_smtp c1 s1 env in
  let env2 := Worker.with_smtp c2 s2 env in
  (Worker._process_reminder env1 r db).1 = (Worker._process_reminder env2 r db).1
  /\ (forall x,
        x ∈ reminders (Worker._process_reminder env1 r db).1 ->
        rem_id x = rem_id r -> status x = DUE)
  /\ (forall u,
        med_user (medication r) = Some u ->
        let fanout :=
          (Worker.push_step env1 (update_status r DUE db) u (medication r)).2 in
        fanout
        = (Worker.push_step env2 (update_status r DUE db) u (medication r)).2
        /\ (exists before1,
              (Worker._process_reminder env1 r db).2 = before1 ++ fanout)
        /\ (exists before2,
              (Worker._process_reminder env2 r db).2 = before2 ++ fanout)
        /\ (forall sub,
              sub ∈ push_subscriptions db ->
              sub_user_id sub = user_id u ->
              occurs_in (Worker.send_push_to env1 (medication r) sub).2 fanout
              /\ (PushNotifications.is_configured (Worker.vapid_config env)
                  = true ->
                  exists payload,
                    WebPush (endpoint sub) (p256dh_key sub) (auth_key sub)
                      payload
                      (PushNotifications.private_key (Worker.vapid_config env))
                      (PushNotifications.mailto (Worker.vapid_config env))
                    ∈ fanout))
        /\ (forall e tr,
              Worker.email_enabled u = true ->
              Notifications.send_email c1 s1 (user_email u)
                (Worker.email_subject (medication r))
                (Worker._build_email_body (medication r)) true
              = (Raise e, tr) ->
              Worker.email_step env1 u (medication r)
              = tr ++ [Log WorkerLog LvError
                           ("Failed to send email: " +:+ exc_str e)]
              /\ exists tr0,
                   (Worker._process_reminder env1 r db).2
                   = tr0 ++ tr
                     ++ [Log WorkerLog LvError
                             ("Failed to send email: " +:+ exc_str e)]
                     ++ fanout)).
Proof.
  intros env1 env2. split; [|split].
  - unfold Worker._process_reminder.
    destruct (med_user (medication r)) as [u|]; [|done].
    subst env1 env2. rewrite !push_step_ignores_smtp.
    by destruct (Worker.push_step env (update_status r DUE db) u (medication r)).
  - intros x Hx Hid.
    destruct (process_reminder_frame env1 r db) as (_ & Hr & _).
    rewrite Hr in Hx. simpl in Hx.
    apply list_elem_of_fmap in Hx as (y & -> & Hy).
    case_decide as Hd; [done|]. by rewrite Hid in Hd.
  - intros u Hu fanout.
    assert (Hstep : forall e tr,
              Worker.email_enabled u = true ->
              Notifications.send_email c1 s1 (user_email u)
                (Worker.email_subject (medication r))
                (Worker._build_email_body (medication r)) true
              = (Raise e, tr) ->
              Worker.email_step env1 u (medication r)
              = tr ++ [Log WorkerLog LvError
                           ("Failed to send email: " +:+ exc_str e)]).
    { intros e tr Hen Hsend. unfold Worker.email_step. rewrite Hen.
      subst env1. simpl. by rewrite Hsend. }
    split; [|split; [|split; [|split]]].
    + subst fanout env1 env2. by rewrite !push_step_ignores_smtp.
    + destruct (process_reminder_trace env1 r db u Hu) as (tr0 & ->).
      eexists. by rewrite app_assoc.
    + destruct (process_reminder_trace env2 r db u Hu) as (tr0 & ->).
      subst fanout env1 env2. rewrite !push_step_ignores_smtp.
      eexists. by rewrite app_assoc.
    + intros sub Hsub Huid.
      assert (Hocc : occurs_in (Worker.send_push_to env1 (medication r) sub).2
                       fanout).
      { apply push_step_attempts. by apply list_elem_of_filter. }
      split; [exact Hocc|]. intros Hcfg.
      by apply (occurs_in_request env1 (medication r) sub fanout Hcfg).
    + intros e tr Hen Hsend. split; [by apply Hstep|].
      destruct (process_reminder_trace env1 r db u Hu) as (tr0 & ->).
      rewrite (Hstep e tr Hen Hsend). exists tr0.
      by rewrite <- !app_assoc.
Qed.

Lemma email_failure_is_contained_witness :
  exists payload,
    WebPush (endpoint Sample.sub_a) (p256dh_key Sample.sub_a)
      (auth_key Sample.sub_a) payload
      (PushNotifications.private_key (Worker.vapid_config Sample.env_live))
      (PushNotifications.mailto (Worker.vapid_config Sample.env_live))
    ∈ (Worker.push_step
         (Worker.with_smtp Sample.smtp_on Sample.smtp_down Sample.env_live)
         (update_status (Sample.reminder 1 Sample.warfarin 10 PENDING) DUE
            Sample.db_one_pending)
         Sample.alice Sample.warfarin).2.
Proof.
  refine (proj2 (proj1 (proj2 (proj2 (proj2
            (proj2 (proj2 (email_failure_is_contained Sample.env_live
                             Sample.smtp_on Sample.smtp_on
                             Sample.smtp_down Sample.smtp_up
                             (Sample.reminder 1 Sample.warfarin 10 PENDING)
                             Sample.db_one_pending))
               Sample.alice eq_refl))))
            Sample.sub_a _ eq_refl) eq_refl).
  apply list_elem_of_here.
Defined.

End DeliveryProofs.

(** ** Push fan-out *)

Module FanoutProofs.
Import Models Effects Exceptions StoreLemmas WorkerLemmas.

Lemma append_nil_r (a : string) : a +:+ EmptyString = a.
Proof.
  induction a as [|c a IH]; [done|].
  change (String c (a +:+ EmptyString) = String c a). by rewrite IH.
Qed.

Lemma append_assoc (a b c : string) : (a +:+ b) +:+ c = a +:+ (b +:+ c).
Proof.
  induction a as [|x a IH]; [done|].
  change (String x ((a +:+ b) +:+ c) = String x (a +:+ (b +:+ c))).
  by rewrite IH.
Qed.

Lemma concat_cons (x : string) (xs : list string) :
  String.concat EmptyString (x :: xs) = x +:+ String.concat EmptyString xs.
Proof.
  destruct xs as [|y ys]; [|done].
  cbn [String.concat]. by rewrite append_nil_r.
Qed.

Lemma concat_app (l1 l2 : list string) :
  String.concat EmptyString (l1 ++ l2)
  = String.concat EmptyString l1 +:+ String.concat EmptyString l2.
Proof.
  induction l1 as [|x l1 IH]; [done|].
  change ((x :: l1) ++ l2) with (x :: (l1 ++ l2)).
  by rewrite !concat_cons, IH, append_assoc.
Qed.

(** Cutting a text where a code point begins cuts its code points. *)
Lemma chars_app a b :
  PyStr.starts_continued b = false ->
  PyStr.chars (a +:+ b) = PyStr.chars a ++ PyStr.chars b.
Proof.
  intros Hb. induction a as [|c a IH]; [done|].
  change (String c a +:+ b) with (String c (a +:+ b)).
  cbn [PyStr.chars]. rewrite IH.
  destruct a as [|d a].
  - change (EmptyString +:+ b) with b. by rewrite Hb.
  - change (PyStr.starts_continued (String d a +:+ b))
      with (PyStr.is_continuation d).
    change (PyStr.starts_continued (String d a))
      with (PyStr.is_continuation d).
    destruct (PyStr.is_continuation d); [|done].
    cbn [PyStr.chars].
    destruct (PyStr.starts_continued a); [destruct (PyStr.chars a)|]; done.
Qed.

Lemma lower_app a b :
  PyStr.starts_continued b = false ->
  PyStr.lower (a +:+ b) = PyStr.lower a +:+ PyStr.lower b.
Proof.
  intros Hb. unfold PyStr.lower.
  by rewrite chars_app, fmap_app, concat_app.
Qed.

Lemma contains_app_r needle a b :
  PyStr.contains needle b = true -> PyStr.contains needle (a +:+ b) = true.
Proof.
  intros Hb. induction a as [|c a IH]; [done|].
  change (String c a +:+ b) with (String c (a +:+ b)).
  cbn [PyStr.contains]. rewrite IH. apply orb_true_r.
Qed.

(** The two errors that the 410 and 404 arms of
    [send_push_notification] raise pass the worker's test, whatever the
    endpoint. *)
Lemma looks_expired_gone ep :
  Worker.looks_expired
    (PushNotifications.PushNotificationError ep (Some "Subscription expired"))
  = true
  /\ Worker.looks_expired
       (PushNotifications.PushNotificationError ep
          (Some "Subscription not found"))
     = true.
Proof.
  unfold Worker.looks_expired, exc_str, PushNotifications.PushNotificationError.
  cbn [exc_details exc_message PyStr.truthy].
  split; apply orb_true_iff; [left|right];
    rewrite lower_app by reflexivity; apply contains_app_r; vm_compute;
    reflexivity.
Qed.

Lemma filter_all {A} (P : A -> Prop) `{!forall x, Decision (P x)} (l : list A) :
  (forall x, P x) -> filter P l = l.
Proof.
  intros HP. induction l as [|x l IH]; [done|].
  rewrite filter_cons_True by apply HP. by rewrite IH.
Qed.

(** The registry after the deletions. *)
Lemma delete_expired_registry u expired db :
  push_subscriptions (Worker.delete_expired u expired db).1
  = filter (fun x => sub_id x ∉ (sub_id <$> expired)) (push_subscriptions db).
Proof.
  revert db. induction expired as [|sub rest IH]; intros db.
  - simpl. symmetry. apply filter_all. intros x. apply not_elem_of_nil.
  - cbn [Worker.delete_expired].
    specialize (IH (delete_subscription sub db)).
    destruct (Worker.delete_expired u rest (delete_subscription sub db))
      as [db' tr]; cbn [fst] in *.
    rewrite IH. unfold delete_subscription; cbn [push_subscriptions].
    rewrite list_filter_filter. apply list_filter_iff.
    intros x. rewrite fmap_cons, not_elem_of_cons. tauto.
Qed.

(** C4 is violated on its last clause.  The TLS handshake with the push
    service of the first subscription fails with a message that says that
    a certificate has expired: not an answer of the push service, and no
    404 or 410.  The fan-out still delivers to the other subscription,
    but it deletes the first one from the registry. *)
Theorem transient_failure_deletes_subscription :
  let env := Sample.env_of Sample.smtp_up Sample.push_a_tls_failure in
  (Worker.send_push_to env Sample.warfarin Sample.sub_a).1
  = Raise (PushNotifications.PushNotificationError
             (endpoint Sample.sub_a)
             (Some "certificate verify failed: certificate has expired"))
  /\ push_subscriptions Sample.db_one_pending = [Sample.sub_a; Sample.sub_b]
  /\ (Worker._send_push_to_user env Sample.db_one_pending
        Sample.alice Sample.warfarin).1.1 = 1
  /\ push_subscriptions
       (Worker._send_push_to_user env Sample.db_one_pending
          Sample.alice Sample.warfarin).1.2
     = [Sample.sub_b].
Proof. vm_compute. repeat split. Qed.

(** The 410 arm is guarded by the truth value of the response object:
    when that is false the error carries the text of the exception, and
    the subscription stays unless that text has one of the two words. *)
Lemma gone_with_falsy_response_is_kept :
  let env := Sample.env_of Sample.smtp_up Sample.push_a_gone_falsy in
  (Worker.send_push_to env Sample.warfarin Sample.sub_a).1
  = Raise (PushNotifications.PushNotificationError
             (endpoint Sample.sub_a) (Some "Push failed: 410 Gone"))
  /\ push_subscriptions
       (Worker._send_push_to_user env Sample.db_one_pending
          Sample.alice Sample.warfarin).1.2
     = [Sample.sub_a; Sample.sub_b].
Proof. vm_compute. repeat split. Qed.

(** *** The fan-out when one endpoint is gone *)

Lemma push_loop_one_gone env m (k : PushSubscription) e subs :
  (Worker.send_push_to env m k).1 = Raise e ->
  Worker.looks_expired e = true ->
  (forall s, s ∈ subs -> sub_id s = sub_id k -> s = k) ->
  (forall s, s ∈ subs -> sub_id s <> sub_id k ->
             exists ok, (Worker.send_push_to env m s).1 = Return ok) ->
  (Worker.push_loop env m subs).1.1
  = Z.of_nat (length (filter (fun s => sub_id s <> sub_id k) subs))
  /\ (Worker.push_loop env m subs).1.2
     = filter (fun s => sub_id s = sub_id k) subs.
Proof.
  intros Hk Hexp Hsame Hother.
  induction subs as [|s rest IH]; [done|].
  cbn [Worker.push_loop].
  destruct IH as [IHn IHe].
  { intros x Hx. apply Hsame. by apply list_elem_of_further. }
  { intros x Hx. apply Hother. by apply list_elem_of_further. }
  destruct (Worker.push_loop env m rest) as [[n expired] tr_rest];
    cbn [fst snd] in *.
  destruct (decide (sub_id s = sub_id k)) as [Heq|Hne].
  - assert (s = k) as -> by (apply Hsame; [apply list_elem_of_here|done]).
    destruct (Worker.send_push_to env m k) as [res tr]; cbn [fst] in Hk.
    subst res. cbn [fst snd]. rewrite Hexp.
    rewrite filter_cons_False by (intros H; by apply H).
    by rewrite filter_cons_True, IHe.
  - destruct (Hother s (list_elem_of_here _ _) Hne) as [ok Hok].
    destruct (Worker.send_push_to env m s) as [res tr]; cbn [fst] in Hok.
    subst res. cbn [fst snd].
    rewrite filter_cons_True by done.
    rewrite filter_cons_False by done.
    split; [|done]. cbn [length]. lia.
Qed.

(** The part of C4 that holds.  When, of the subscriptions of a user,
    exactly [k] fails with an error that the code takes for an expired
    endpoint (as a 404 answer is, whose text says Not Found) and the
    sends to all others return, the fan-out calls the sender for every
    subscription, counts all but one as sent, and deletes [k] and nothing
    else from the registry. *)
Theorem fanout_with_one_endpoint_gone env db u m (k : PushSubscription) e :
  subscription_pk db ->
  k ∈ Worker._get_user_push_subscriptions db (user_id u) ->
  (Worker.send_push_to env m k).1 = Raise e ->
  Worker.looks_expired e = true ->
  (forall s, s ∈ Worker._get_user_push_subscriptions db (user_id u) ->
             s <> k -> exists ok, (Worker.send_push_to env m s).1 = Return ok) ->
  let subs := Worker._get_user_push_subscriptions db (user_id u) in
  let out := Worker._send_push_to_user env db u m in
  (forall s, s ∈ subs -> occurs_in (Worker.send_push_to env m s).2 out.2)
  /\ out.1.1 = Z.of_nat (length subs) - 1
  /\ push_subscriptions out.1.2
     = filter (fun x => sub_id x <> sub_id k) (push_subscriptions db)
  /\ (k ∉ push_subscriptions out.1.2)
  /\ (forall s, s ∈ push_subscriptions db -> s <> k ->
                s ∈ push_subscriptions out.1.2)
  /\ S (length (push_subscriptions out.1.2)) = length (push_subscriptions db).
Proof.
  intros Hpk Hk He Hexp Hothers subs out. subst subs out.
  assert (Hsub_in : forall s,
            s ∈ Worker._get_user_push_subscriptions db (user_id u) ->
            s ∈ push_subscriptions db).
  { intros s Hs. by apply list_elem_of_filter in Hs as [_ ?]. }
  assert (Hkdb : k ∈ push_subscriptions db) by (by apply Hsub_in).
  assert (Hrow : forall s, s ∈ push_subscriptions db ->
                           sub_id s = sub_id k -> s = k).
  { intros s Hs Hid. revert Hpk Hs Hkdb Hid. unfold subscription_pk.
    generalize (push_subscriptions db) as l. clear.
    induction l as [|z l IH]; intros Hnd Hs Hk' Hid.
    - by apply elem_of_nil in Hs.
    - rewrite fmap_cons in Hnd. apply NoDup_cons in Hnd as [Hz Hnd].
      apply elem_of_cons in Hs as [->|Hs];
        apply elem_of_cons in Hk' as [->|Hk']; try done.
      + exfalso. apply Hz. rewrite Hid. by apply list_elem_of_fmap_2.
      + exfalso. apply Hz. rewrite <- Hid. by apply list_elem_of_fmap_2.
      + by apply IH. }
  assert (Hsubs_pk :
            NoDup (sub_id <$> Worker._get_user_push_subscriptions db (user_id u))).
  { unfold Worker._get_user_push_subscriptions.
    eapply sublist_NoDup; [exact Hpk|]. apply fmap_sublist, sublist_filter. }
  split; [intros s Hs; by apply DeliveryProofs.send_push_to_user_attempts|].
  unfold Worker._send_push_to_user.
  remember (Worker._get_user_push_subscriptions db (user_id u)) as subs
    eqn:Hsubs.
  destruct (push_loop_one_gone env m k e subs He Hexp) as [Hn Hex].
  { intros s Hs. by apply Hrow, Hsub_in. }
  { intros s Hs Hne. apply Hothers; [done|]. by intros ->. }
  destruct (filter_key_one sub_id subs k Hsubs_pk Hk) as [Hone Hlen].
  rewrite Hone in Hex.
  destruct subs as [|s0 subs0]; [by apply elem_of_nil in Hk|].
  destruct (Worker.push_loop env m (s0 :: subs0)) as [[n expired] tr];
    cbn [fst snd] in *. subst expired.
  pose proof (delete_expired_registry u [k] db) as Hdel.
  destruct (Worker.delete_expired u [k] db) as [db' tr_del];
    cbn [fst snd] in *.
  assert (Hreg : push_subscriptions db'
                 = filter (fun x => sub_id x <> sub_id k) (push_subscriptions db)).
  { rewrite Hdel. apply list_filter_iff. intros x.
    rewrite list_fmap_singleton, list_elem_of_singleton. done. }
  split; [rewrite Hn; lia|].
  split; [exact Hreg|]. rewrite Hreg. split; [|split].
  - intros [Hne _]%list_elem_of_filter. by apply Hne.
  - intros s Hs Hne. apply list_elem_of_filter. split; [|done].
    intros Hid. by apply Hne, Hrow.
  - apply (filter_key_one sub_id (push_subscriptions db) k Hpk Hkdb).
Qed.

Lemma fanout_with_one_endpoint_gone_witness :
  let env := Sample.env_of Sample.smtp_up Sample.push_a_not_found in
  push_subscriptions
    (Worker._send_push_to_user env Sample.db_one_pending
       Sample.alice Sample.warfarin).1.2
  = filter (fun x => sub_id x <> sub_id Sample.sub_a)
           (push_subscriptions Sample.db_one_pending).
Proof.
  intros env.
  refine (proj1 (proj2 (proj2
           (fanout_with_one_endpoint_gone env Sample.db_one_pending
              Sample.alice Sample.warfarin Sample.sub_a
              (PushNotifications.PushNotificationError
                 (endpoint Sample.sub_a)
                 (Some "WebPushException: Push failed: 404 Not Found"))
              _ _ _ _ _)))).
  - unfold subscription_pk. apply (bool_decide_unpack _). vm_compute. exact I.
  - apply list_elem_of_here.
  - vm_compute. reflexivity.
  - vm_compute. reflexivity.
  - intros s Hs Hne. exists true.
    apply elem_of_cons in Hs as [->|Hs]; [done|].
    apply elem_of_cons in Hs as [->|Hs]; [vm_compute; reflexivity|].
    by apply elem_of_nil in Hs.
Defined.

End FanoutProofs.

(** ** Delivery by a poller tick *)

Module PollerDelivery.
Import Models Effects Exceptions StoreLemmas WorkerLemmas DeliveryProofs Observe.










End PollerDelivery.

(** ** The subscription registry *)

Module RegistryProofs.
Import Models Effects Exceptions StoreLemmas.

Lemma filter_fmap_preserve {A} (P : A -> Prop) `{!forall x, Decision (P x)}
    (g : A -> A) (l : list A) :
  (forall x, P (g x) <-> P x) -> filter P (g <$> l) = g <$> filter P l.
Proof.
  intros Hg. induction l as [|x l IH]; [done|].
  rewrite fmap_cons. destruct (decide (P x)) as [HP|HP].
  - rewrite (filter_cons_True P (g x)) by (by apply Hg).
    rewrite (filter_cons_True P x) by done. by rewrite fmap_cons, IH.
  - rewrite (filter_cons_False P (g x)) by (by rewrite Hg).
    by rewrite (filter_cons_False P x) by done.
Qed.

(** What [subscribe] leaves in the registry for the endpoint. *)
Lemma subscribe_registry req u now db :
  endpoint_unique db ->
  let db' := (Router.subscribe req u now db).1.2 in
  endpoint_unique db'
  /\ exists s,
       filter (fun x => endpoint x = Router.req_endpoint req)
              (push_subscriptions db') = [s]
       /\ endpoint s = Router.req_endpoint req
       /\ sub_user_id s = user_id u
       /\ p256dh_key s = Router.keys_get (Router.req_keys req) "p256dh"
       /\ auth_key s = Router.keys_get (Router.req_keys req) "auth"
       /\ (forall ex,
             filter (fun x => endpoint x = Router.req_endpoint req)
                    (push_subscriptions db) = [ex] ->
             sub_id s = sub_id ex /\ created_at s = created_at ex
             /\ length (push_subscriptions db') = length (push_subscriptions db)).
Proof.
  intros Huniq db'. subst db'. unfold Router.subscribe.
  destruct (head (filter (fun s => endpoint s = Router.req_endpoint req)
                         (push_subscriptions db))) as [ex|] eqn:Hhead.
  - assert (Hex : ex ∈ filter (fun s => endpoint s = Router.req_endpoint req)
                              (push_subscriptions db)).
    { destruct (filter _ _) as [|y l]; [discriminate|].
      injection Hhead as ->. apply list_elem_of_here. }
    apply list_elem_of_filter in Hex as [Hep Hex].
    destruct (filter_key_one endpoint (push_subscriptions db) ex Huniq Hex)
      as [Hone _].
    rewrite Hep in Hone.
    cbn [fst snd]. unfold with_subscriptions, endpoint_unique.
    cbn [push_subscriptions].
    split.
    + rewrite <- list_fmap_compose.
      erewrite list_fmap_ext; [exact Huniq|].
      intros _ x _; simpl. by case_decide.
    + eexists. split; [|split; [|split; [|split; [|split]]]].
      * rewrite filter_fmap_preserve by (intros x; by case_decide).
        rewrite Hone. rewrite list_fmap_singleton.
        rewrite decide_True by done. reflexivity.
      * done.
      * done.
      * done.
      * done.
      * intros ex' Hex'. rewrite Hone in Hex'. injection Hex' as <-.
        by rewrite length_fmap.
  - assert (Hnone : filter (fun s => endpoint s = Router.req_endpoint req)
                           (push_subscriptions db) = [])
      by (by destruct (filter _ _)).
    cbn [fst snd]. unfold with_subscriptions, endpoint_unique.
    cbn [push_subscriptions].
    split.
    + rewrite fmap_app. apply NoDup_app. split; [exact Huniq|]. split.
      * intros x Hx Hx'. apply list_elem_of_singleton in Hx'. subst x.
        apply list_elem_of_fmap in Hx as (y & Hy & Hyin).
        eapply filter_nil_not_elem_of; [exact Hnone| |exact Hyin]. done.
      * apply NoDup_singleton.
    + eexists. split; [|split; [|split; [|split; [|split]]]].
      * rewrite filter_app, Hnone, filter_cons_True by done.
        rewrite filter_nil. reflexivity.
      * done.
      * done.
      * done.
      * done.
      * intros ex' Hex'. rewrite Hnone in Hex'. discriminate.
Qed.

(** C7. In a registry with unique endpoints, registering endpoint [E]
    for a user and then asking for that user's subscriptions gives
    exactly one subscription with endpoint [E], with the keys of the
    request; registering [E] again, with other keys and by any user,
    leaves exactly one row for [E], the same row (same id and creation
    time, same number of rows in the table), owned by the new user and
    holding the new keys. *)
Theorem subscribe_round_trip
    (db : Session) (u u' : User) (E : string)
    (keys keys' : gmap string string) (now now' : Z) :
  endpoint_unique db ->
  let db1 :=
    (Router.subscribe {| Router.req_endpoint := E; Router.req_keys := keys |}
                      u now db).1.2 in
  let db2 :=
    (Router.subscribe {| Router.req_endpoint := E; Router.req_keys := keys' |}
                      u' now' db1).1.2 in
  exists s1 s2,
    filter (fun x => endpoint x = E)
           (Worker._get_user_push_subscriptions db1 (user_id u)) = [s1]
    /\ filter (fun x => endpoint x = E) (push_subscriptions db1) = [s1]
    /\ endpoint s1 = E
    /\ p256dh_key s1 = Router.keys_get keys "p256dh"
    /\ auth_key s1 = Router.keys_get keys "auth"
    /\ filter (fun x => endpoint x = E) (push_subscriptions db2) = [s2]
    /\ sub_id s2 = sub_id s1 /\ created_at s2 = created_at s1
    /\ endpoint s2 = E
    /\ sub_user_id s2 = user_id u'
    /\ p256dh_key s2 = Router.keys_get keys' "p256dh"
    /\ auth_key s2 = Router.keys_get keys' "auth"
    /\ length (push_subscriptions db2) = length (push_subscriptions db1)
    /\ endpoint_unique db2.
Proof.
  intros Huniq db1 db2.
  destruct (subscribe_registry
              {| Router.req_endpoint := E; Router.req_keys := keys |} u now db
              Huniq)
    as (Huniq1 & s1 & Hf1 & He1 & Hu1 & Hp1 & Ha1 & _).
  fold db1 in Huniq1, Hf1. cbn [Router.req_endpoint Router.req_keys] in *.
  destruct (subscribe_registry
              {| Router.req_endpoint := E; Router.req_keys := keys' |} u' now'
              db1 Huniq1)
    as (Huniq2 & s2 & Hf2 & He2 & Hu2 & Hp2 & Ha2 & Hsame).
  fold db2 in Huniq2, Hf2, Hsame.
  cbn [Router.req_endpoint Router.req_keys] in *.
  destruct (Hsame s1 Hf1) as (Hid & Hcr & Hlen).
  exists s1, s2. repeat split; try done.
  unfold Worker._get_user_push_subscriptions.
  rewrite list_filter_filter.
  rewrite (list_filter_iff _ (fun x => sub_user_id x = user_id u /\ endpoint x = E))
    by (intros x; tauto).
  rewrite <- list_filter_filter, Hf1.
  by rewrite filter_cons_True, filter_nil.
Qed.

Lemma subscribe_round_trip_witness :
  exists s1,
    filter (fun x => endpoint x = "E")
      (Worker._get_user_push_subscriptions
         (Router.subscribe
            {| Router.req_endpoint := "E"; Router.req_keys := Sample.keys_AB |}
            Sample.alice 100 Sample.db_one_pending).1.2
         (user_id Sample.alice))
    = [s1]
    /\ p256dh_key s1 = "A" /\ auth_key s1 = "B".
Proof.
  assert (Huniq : endpoint_unique Sample.db_one_pending).
  { unfold endpoint_unique. apply (bool_decide_unpack _). vm_compute. exact I. }
  destruct (subscribe_round_trip Sample.db_one_pending Sample.alice Sample.bob
              "E" Sample.keys_AB Sample.keys_CD 100 200 Huniq)
    as (s1 & s2 & H1 & _ & _ & Hp & Ha & _).
  exists s1. split; [exact H1|]. split.
  - rewrite Hp. vm_compute. reflexivity.
  - rewrite Ha. vm_compute. reflexivity.
Defined.

End RegistryProofs.

(** * Further properties *)

(** ** Shared lemmas *)

Module ListFacts.

Lemma filter_ext_in {A} (P Q : A -> Prop)
    `{!forall x, Decision (P x), !forall x, Decision (Q x)} (l : list A) :
  (forall x, x ∈ l -> P x <-> Q x) -> filter P l = filter Q l.
Proof.
  induction l as [|x l IH]; intros Hpq; [done|].
  assert (Hx : P x <-> Q x) by apply Hpq, list_elem_of_here.
  assert (Hl : filter P l = filter Q l).
  { apply IH. intros y Hy. by apply Hpq, list_elem_of_further. }
  destruct (decide (P x)) as [HP|HP].
  - rewrite (filter_cons_True P x) by done.
    rewrite (filter_cons_True Q x) by (by apply Hx). by rewrite Hl.
  - rewrite (filter_cons_False P x) by done.
    rewrite (filter_cons_False Q x) by (by rewrite <- Hx). done.
Qed.

Lemma filter_all_in {A} (P : A -> Prop) `{!forall x, Decision (P x)}
    (l : list A) :
  (forall x, x ∈ l -> P x) -> filter P l = l.
Proof.
  induction l as [|x l IH]; intros HP; [done|].
  rewrite filter_cons_True by apply HP, list_elem_of_here.
  f_equal. apply IH. intros y Hy. by apply HP, list_elem_of_further.
Qed.

(** Under a unique key, a row is identified by its key. *)
Lemma key_same_row {A B} (f : A -> B) (l : list A) x y :
  NoDup (f <$> l) -> x ∈ l -> y ∈ l -> f x = f y -> x = y.
Proof.
  induction l as [|z l IH]; intros Hnd Hx Hy Heq.
  - by apply elem_of_nil in Hx.
  - rewrite fmap_cons in Hnd. apply NoDup_cons in Hnd as [Hz Hnd].
    apply elem_of_cons in Hx as [->|Hx];
      apply elem_of_cons in Hy as [->|Hy]; try done.
    + exfalso. apply Hz. rewrite Heq. by apply list_elem_of_fmap_2.
    + exfalso. apply Hz. rewrite <- Heq. by apply list_elem_of_fmap_2.
    + by apply IH.
Qed.

Lemma length_filter_fmap {A B} (P : B -> Prop) `{!forall y, Decision (P y)}
    (f : A -> B) (l : list A) :
  length (filter P (f <$> l)) = length (filter (fun x => P (f x)) l).
Proof.
  induction l as [|x l IH]; [done|]. rewrite fmap_cons.
  destruct (decide (P (f x))) as [HP|HP].
  - rewrite (filter_cons_True P (f x)) by done.
    rewrite (filter_cons_True (fun x => P (f x)) x) by done.
    cbn [length]. by rewrite IH.
  - rewrite (filter_cons_False P (f x)) by done.
    by rewrite (filter_cons_False (fun x => P (f x)) x) by done.
Qed.

(** Lengths and cuts, in code points. *)
Lemma len_app (a b : string) :
  PyStr.len (a +:+ b) = (PyStr.len a + PyStr.len b)%nat.
Proof.
  induction a as [|c a IH]; [done|].
  change (String c a +:+ b) with (String c (a +:+ b)).
  cbn [PyStr.len]. rewrite IH. by destruct (PyStr.is_continuation c).
Qed.

Lemma len_take (n : nat) (s : string) :
  (PyStr.len (PyStr.take n s) <= n)%nat.
Proof.
  revert n. induction s as [|c s IH]; intros n; cbn [PyStr.take PyStr.len].
  - lia.
  - destruct (PyStr.is_continuation c) eqn:Hc.
    + cbn [PyStr.len]. rewrite Hc. apply IH.
    + destruct n as [|n]; cbn [PyStr.len]; [lia|].
      rewrite Hc. specialize (IH n). lia.
Qed.

Lemma len_take_long (n : nat) (s : string) :
  (n <= PyStr.len s)%nat -> PyStr.len (PyStr.take n s) = n.
Proof.
  revert n. induction s as [|c s IH]; intros n; cbn [PyStr.take PyStr.len].
  - lia.
  - destruct (PyStr.is_continuation c) eqn:Hc; intros Hn.
    + cbn [PyStr.len]. rewrite Hc. by apply IH.
    + destruct n as [|n]; cbn [PyStr.len]; [done|].
      rewrite Hc. rewrite IH; [done|lia].
Qed.

Lemma take_short (n : nat) (s : string) :
  (PyStr.len s <= n)%nat -> PyStr.take n s = s.
Proof.
  revert n. induction s as [|c s IH]; intros n; cbn [PyStr.take PyStr.len].
  - done.
  - destruct (PyStr.is_continuation c) eqn:Hc; intros Hn.
    + by rewrite IH.
    + destruct n as [|n]; [lia|]. rewrite IH; [done|lia].
Qed.

End ListFacts.

(** ** More on the push fan-out *)

Module FanoutExtras.
Import Models Effects Exceptions StoreLemmas WorkerLemmas ListFacts Observe.

Lemma push_loop_spec env m subs :
  (Worker.push_loop env m subs).1.1
  = Z.of_nat (length (filter (push_returns env m) subs))
  /\ (Worker.push_loop env m subs).1.2
     = filter (push_raises_expired env m) subs.
Proof.
  induction subs as [|s rest [IHn IHe]]; [done|].
  cbn [Worker.push_loop].
  destruct (Worker.push_loop env m rest) as [[n expired] tr_rest];
    cbn [fst snd] in *.
  destruct (Worker.send_push_to env m s) as [[ok|e] tr] eqn:Hs; cbn [fst snd].
  - assert (Hret : push_returns env m s)
      by (unfold push_returns; rewrite Hs; by exists ok).
    assert (Hexp : ~ push_raises_expired env m s).
    { unfold push_raises_expired. rewrite Hs. by intros (e & ? & _). }
    rewrite filter_cons_True by done. rewrite filter_cons_False by done.
    split; [|done]. cbn [length]. lia.
  - assert (Hret : ~ push_returns env m s).
    { unfold push_returns. rewrite Hs. by intros [ok ?]. }
    rewrite (filter_cons_False (push_returns env m)) by done.
    split; [done|].
    destruct (Worker.looks_expired e) eqn:Hle.
    + rewrite filter_cons_True; [by rewrite IHe|].
      unfold push_raises_expired. rewrite Hs. by exists e.
    + rewrite filter_cons_False; [done|].
      unfold push_raises_expired. rewrite Hs.
      intros (e' & [= <-] & Hle'). congruence.
Qed.

(** The registry after a fan-out, row by row: a subscription is deleted
    exactly when it belongs to the user and its send raised an error that
    passes the worker's test; the count is the number of sends that
    returned. *)
Theorem fanout_deletes_exactly (env : Worker.Env) (db : Session) (u : User)
    (m : Medication) :
  subscription_pk db ->
  let out := Worker._send_push_to_user env db u m in
  let mine := Worker._get_user_push_subscriptions db (user_id u) in
  push_subscriptions out.1.2
  = filter (fun x => ~ (sub_user_id x = user_id u
                        /\ push_raises_expired env m x))
           (push_subscriptions db)
  /\ out.1.1 = Z.of_nat (length (filter (push_returns env m) mine))
  /\ 0 <= out.1.1 <= Z.of_nat (length mine)
  /\ (forall x, x ∈ push_subscriptions db -> sub_user_id x <> user_id u ->
                x ∈ push_subscriptions out.1.2)
  /\ users out.1.2 = users db /\ reminders out.1.2 = reminders db.
Proof.
  intros Hpk out mine.
  assert (Hreg :
    push_subscriptions out.1.2
    = filter (fun x => ~ (sub_user_id x = user_id u
                          /\ push_raises_expired env m x))
             (push_subscriptions db)
    /\ out.1.1 = Z.of_nat (length (filter (push_returns env m) mine))).
  { subst out mine. unfold Worker._send_push_to_user.
    destruct (push_loop_spec env m
                (Worker._get_user_push_subscriptions db (user_id u)))
      as [Hn Hex].
    remember (Worker._get_user_push_subscriptions db (user_id u)) as subs
      eqn:Hsubs.
    destruct subs as [|s0 subs0].
    - cbn [fst snd]. split; [|done]. symmetry. apply filter_all_in.
      intros x Hx [Hu _].
      assert (Hin : x ∈ Worker._get_user_push_subscriptions db (user_id u))
        by (by apply list_elem_of_filter).
      rewrite <- Hsubs in Hin. by apply elem_of_nil in Hin.
    - destruct (Worker.push_loop env m (s0 :: subs0)) as [[n expired] tr];
        cbn [fst snd] in *.
      pose proof (FanoutProofs.delete_expired_registry u expired db) as Hdel.
      destruct (Worker.delete_expired u expired db) as [db' tr_del];
        cbn [fst snd] in *.
      split; [|done]. rewrite Hdel. apply filter_ext_in. intros x Hx.
      subst expired. split.
      + intros Hnot [Hu Hexp]. apply Hnot, list_elem_of_fmap_2.
        apply list_elem_of_filter. split; [done|].
        rewrite Hsubs. by apply list_elem_of_filter.
      + intros Hnot Hid. apply Hnot.
        apply list_elem_of_fmap in Hid as (y & Hid & Hy).
        apply list_elem_of_filter in Hy as [Hexp Hy].
        rewrite Hsubs in Hy. apply list_elem_of_filter in Hy as [Hyu Hy].
        assert (x = y) as -> by (by apply (key_same_row sub_id
                                             (push_subscriptions db))).
        done. }
  destruct Hreg as [Hreg Hn].
  split; [exact Hreg|]. split; [exact Hn|]. split; [|split].
  - rewrite Hn. split; [lia|]. apply inj_le, length_filter.
  - intros x Hx Hne. rewrite Hreg. apply list_elem_of_filter.
    split; [|done]. by intros [? _].
  - destruct (send_push_to_user_frame env db u m) as (? & ? & _). done.
Qed.

Lemma fanout_deletes_exactly_witness :
  push_subscriptions
    (Worker._send_push_to_user
       (Sample.env_of Sample.smtp_up Sample.push_a_not_found)
       Sample.db_one_pending Sample.alice Sample.warfarin).1.2
  = filter (fun x =>
              ~ (sub_user_id x = user_id Sample.alice
                 /\ push_raises_expired
                      (Sample.env_of Sample.smtp_up Sample.push_a_not_found)
                      Sample.warfarin x))
           (push_subscriptions Sample.db_one_pending).
Proof.
  refine (proj1 (fanout_deletes_exactly
                   (Sample.env_of Sample.smtp_up Sample.push_a_not_found)
                   Sample.db_one_pending Sample.alice Sample.warfarin _)).
  unfold subscription_pk. apply (bool_decide_unpack _). vm_compute. exact I.
Defined.

End FanoutExtras.

(** ** More on the push sender *)

Module PushExtras.
Import Models Effects Exceptions ListFacts Observe.

Lemma error_message_shape ep d :
  let e := PushNotifications.PushNotificationError ep d in
  exc_message e = "Failed to send push to " +:+ PyStr.take 50 ep +:+ "..."
  /\ (PyStr.len (exc_message e) <= 76)%nat
  /\ ((PyStr.len ep <= 50)%nat ->
      exc_message e = "Failed to send push to " +:+ ep +:+ "...").
Proof.
  cbn [exc_message PushNotifications.PushNotificationError].
  split; [done|]. split.
  - rewrite !len_app. pose proof (len_take 50 ep).
    change (PyStr.len "Failed to send push to ") with 23%nat.
    change (PyStr.len "...") with 3%nat. lia.
  - intros Hshort. by rewrite take_short.
Qed.

(** What a call of [send_push_notification] comes to: it returns [False]
    exactly when VAPID is not configured and [True] exactly when it is and
    the service accepted the request; it makes one Web Push request when
    configured and none otherwise; an error it raises names at most the
    first 50 characters (code points) of the endpoint, the whole endpoint
    when it has no more than 50. *)
Theorem send_push_outcomes (c : PushNotifications.VAPIDConfig)
    (svc : PushNotifications.PushService)
    (ep k1 k2 title body : string) (icon url tag : option string) :
  let out :=
    PushNotifications.send_push_notification c svc ep k1 k2 title body
      icon url tag in
  (out.1 = Return false <-> PushNotifications.is_configured c = false)
  /\ (out.1 = Return true ->
      PushNotifications.is_configured c = true
      /\ exists payload,
           svc ep k1 k2 payload = PushNotifications.PushDelivered
           /\ WebPush ep k1 k2 payload (PushNotifications.private_key c)
                (PushNotifications.mailto c) ∈ out.2)
  /\ length (filter (fun e => is_web_push e = true) out.2)
     = (if PushNotifications.is_configured c then 1 else 0)%nat
  /\ (forall e, out.1 = Raise e ->
        exc_message e
        = "Failed to send push to " +:+ PyStr.take 50 ep +:+ "..."
        /\ (PyStr.len (exc_message e) <= 76)%nat
        /\ ((PyStr.len ep <= 50)%nat ->
            exc_message e = "Failed to send push to " +:+ ep +:+ "...")).
Proof.
  intros out. subst out.
  unfold PushNotifications.send_push_notification.
  destruct (PushNotifications.is_configured c) eqn:Hc; cbn [negb].
  - match goal with
    | |- context [svc ?a ?b ?c ?d] =>
        destruct (svc a b c d) as [|resp msg|msg] eqn:Hsvc
    end.
    + cbn [fst snd]. split; [split; discriminate|]. split.
      * intros _. split; [done|]. eexists. split; [exact Hsvc|].
        apply list_elem_of_here.
      * split; [done|]. discriminate.
    + destruct (PushNotifications.response_is resp 410);
        [|destruct (PushNotifications.response_is resp 404)];
        cbn [fst snd];
        (split; [split; discriminate|]); (split; [discriminate|]);
        (split; [done|]); intros e [= <-]; apply error_message_shape.
    + cbn [fst snd]. split; [split; discriminate|]. split; [discriminate|].
      split; [done|]. intros e [= <-]. apply error_message_shape.
  - cbn [fst snd]. split; [done|]. split; [discriminate|].
    split; [done|]. discriminate.
Qed.

Lemma send_push_outcomes_witness :
  length (filter (fun e => is_web_push e = true)
            (PushNotifications.send_push_notification Sample.vapid_on
               Sample.push_up "https://push.example/a" "A" "B" "title" "body"
               None None None).2)
  = 1%nat.
Proof.
  apply (proj1 (proj2 (proj2 (send_push_outcomes Sample.vapid_on
                                Sample.push_up "https://push.example/a"
                                "A" "B" "title" "body" None None None)))).
Defined.

(** When the exception has no response, or one that Python takes for
    false, the status code plays no part: the error carries the text of
    the exception, whatever the code. *)
Theorem status_code_needs_true_response (c : PushNotifications.VAPIDConfig)
    (svc : PushNotifications.PushService)
    (ep k1 k2 title body : string) (icon url tag : option string)
    (response : option PushNotifications.Response) (msg : string) :
  PushNotifications.is_configured c = true ->
  (forall payload,
     svc ep k1 k2 payload = PushNotifications.WebPushException response msg) ->
  (forall r, response = Some r -> PushNotifications.resp_bool r = false) ->
  (PushNotifications.send_push_notification c svc ep k1 k2 title body
     icon url tag).1
  = Raise (PushNotifications.PushNotificationError ep (Some msg)).
Proof.
  intros Hc Hsvc Hfalse.
  unfold PushNotifications.send_push_notification.
  rewrite Hc, Hsvc. cbn [negb].
  assert (Hno : forall code, PushNotifications.response_is response code = false).
  { intros code. unfold PushNotifications.response_is.
    destruct response as [r|]; [|done]. by rewrite (Hfalse r eq_refl). }
  by rewrite !Hno.
Qed.

Lemma status_code_needs_true_response_witness :
  (PushNotifications.send_push_notification Sample.vapid_on
     Sample.push_a_gone_falsy (endpoint Sample.sub_a) "A" "B" "title" "body"
     None None None).1
  = Raise (PushNotifications.PushNotificationError (endpoint Sample.sub_a)
             (Some "Push failed: 410 Gone")).
Proof.
  apply (status_code_needs_true_response Sample.vapid_on
           Sample.push_a_gone_falsy (endpoint Sample.sub_a) "A" "B"
           "title" "body" None None None
           (Some {| PushNotifications.resp_bool := false;
                    PushNotifications.status_code := 410 |})
           "Push failed: 410 Gone").
  - reflexivity.
  - intros payload. reflexivity.
  - intros r [= <-]. reflexivity.
Defined.

Lemma unconfigured_send env m sub :
  PushNotifications.is_configured (Worker.vapid_config env) = false ->
  exists tr,
    Worker.send_push_to env m sub = (Return false, tr)
    /\ filter (fun e => is_web_push e = true) tr = [].
Proof.
  intros Hc. unfold Worker.send_push_to,
    PushNotifications.send_push_notification.
  rewrite Hc. cbn [negb]. eexists. split; [reflexivity|]. reflexivity.
Qed.

Lemma unconfigured_loop env m subs :
  PushNotifications.is_configured (Worker.vapid_config env) = false ->
  (Worker.push_loop env m subs).1 = (Z.of_nat (length subs), [])
  /\ filter (fun e => is_web_push e = true) (Worker.push_loop env m subs).2 = [].
Proof.
  intros Hc. induction subs as [|s rest [IH1 IH2]]; [done|].
  cbn [Worker.push_loop].
  destruct (Worker.push_loop env m rest) as [[n expired] tr_rest];
    cbn [fst snd] in *.
  destruct (unconfigured_send env m s Hc) as (tr & -> & Htr).
  injection IH1 as -> ->. cbn [fst snd]. split.
  - f_equal. cbn [length]. lia.
  - unfold Trace in *. by rewrite filter_app, Htr, IH2.
Qed.

(** With VAPID not configured the fan-out sends nothing and deletes
    nothing, and yet reports every subscription of the user as sent. *)
Theorem unconfigured_fanout_counts_all (env : Worker.Env) (db : Session)
    (u : User) (m : Medication) :
  PushNotifications.is_configured (Worker.vapid_config env) = false ->
  let out := Worker._send_push_to_user env db u m in
  out.1 = (Z.of_nat
             (length (Worker._get_user_push_subscriptions db (user_id u))),
           db)
  /\ filter (fun e => is_web_push e = true) out.2 = [].
Proof.
  intros Hc out. subst out. unfold Worker._send_push_to_user.
  destruct (Worker._get_user_push_subscriptions db (user_id u))
    as [|s0 subs0]; [done|].
  destruct (unconfigured_loop env m (s0 :: subs0) Hc) as [H1 H2].
  destruct (Worker.push_loop env m (s0 :: subs0)) as [[n expired] tr];
    cbn [fst snd] in *.
  injection H1 as -> ->. cbn [Worker.delete_expired fst snd].
  split; [done|]. by rewrite app_nil_r.
Qed.

Lemma unconfigured_fanout_counts_all_witness :
  (Worker._send_push_to_user
     {| Worker.smtp_config := Sample.smtp_off;
        Worker.smtp_server := Sample.smtp_up;
        Worker.vapid_config :=
          {| PushNotifications.public_key := "pub";
             PushNotifications.private_key := EmptyString;
             PushNotifications.mailto := "mailto:admin@mediremind.app";
             PushNotifications.private_key_path := EmptyString |};
        Worker.push_service := Sample.push_up |}
     Sample.db_one_pending Sample.alice Sample.warfarin).1
  = (2, Sample.db_one_pending).
Proof.
  refine (proj1 (unconfigured_fanout_counts_all _ Sample.db_one_pending
                   Sample.alice Sample.warfarin _)).
  reflexivity.
Defined.

End PushExtras.

(** ** More on the poller tick *)

Module TickExtras.
Import Models Effects Exceptions StoreLemmas WorkerLemmas ListFacts Observe.

(** Under the primary key, marking the rows selected by a predicate is
    a row-wise update. *)
Lemma mark_by_predicate (P : Reminder -> Prop) `{!forall r, Decision (P r)}
    (st : ReminderStatus) (rs : list Reminder) :
  NoDup (rem_id <$> rs) ->
  mark st (rem_id <$> filter P rs) rs
  = (fun x => if decide (P x) then set_status st x else x) <$> rs.
Proof.
  intros Hpk. unfold mark. apply list_fmap_ext. intros i x Hi.
  apply list_elem_of_lookup_2 in Hi.
  destruct (decide (P x)) as [HP|HP].
  - rewrite decide_True; [done|]. apply list_elem_of_fmap_2.
    by apply list_elem_of_filter.
  - rewrite decide_False; [done|].
    intros (y & Hid & Hy)%list_elem_of_fmap.
    apply list_elem_of_filter in Hy as [HPy Hy].
    by rewrite (key_same_row rem_id rs x y Hpk Hi Hy Hid) in HP.
Qed.

(** What one tick does to the tables, exactly: under the primary key the
    reminders that are PENDING and due become DUE and every other row
    stays as it is, the users are untouched, the returned count is the
    number of due reminders, and that many fewer reminders are PENDING
    afterwards. *)
Theorem tick_is_rowwise (env : Worker.Env) (now : Z) (db : Session) :
  reminder_pk db ->
  let out := Worker.check_reminders env now db in
  reminders out.1.2
  = (fun x => if decide (Worker.pending_due now x)
              then set_status DUE x else x) <$> reminders db
  /\ out.1.1 = Z.of_nat (length (Worker.query_pending_due now db))
  /\ users out.1.2 = users db
  /\ Z.of_nat (length (filter (fun r => status r = PENDING)
                              (reminders out.1.2)))
     = Z.of_nat (length (filter (fun r => status r = PENDING) (reminders db)))
       - out.1.1.
Proof.
  intros Hpk out. subst out.
  destruct (check_reminders_frame env now db) as (Hu & Hr & _ & Hn).
  assert (Hrows :
    reminders (Worker.check_reminders env now db).1.2
    = (fun x => if decide (Worker.pending_due now x)
                then set_status DUE x else x) <$> reminders db).
  { rewrite Hr, mark_query_pending_due. by apply mark_by_predicate. }
  split; [exact Hrows|]. split; [exact Hn|]. split; [exact Hu|].
  rewrite Hrows, Hn, query_pending_due_length.
  rewrite length_filter_fmap.
  clear. induction (reminders db) as [|x l IH]; [done|].
  destruct (decide (Worker.pending_due now x)) as [Hd|Hd].
  - rewrite (filter_cons_True (Worker.pending_due now)) by done.
    rewrite filter_cons_False
      by (rewrite decide_True by done; simpl; discriminate).
    destruct Hd as [Hst _].
    rewrite (filter_cons_True (fun r => status r = PENDING)) by done.
    cbn [length]. lia.
  - rewrite (filter_cons_False (Worker.pending_due now)) by done.
    destruct (decide (status x = PENDING)) as [Hp|Hp].
    + rewrite filter_cons_True by (by rewrite decide_False).
      rewrite (filter_cons_True (fun r => status r = PENDING)) by done.
      cbn [length]. lia.
    + rewrite filter_cons_False by (by rewrite decide_False).
      by rewrite (filter_cons_False (fun r => status r = PENDING)) by done.
Qed.

Lemma tick_is_rowwise_witness :
  (Worker.check_reminders Sample.env_live 20 (Sample.db_two PENDING)).1.1
  = Z.of_nat (length (Worker.query_pending_due 20 (Sample.db_two PENDING))).
Proof.
  refine (proj1 (proj2 (tick_is_rowwise Sample.env_live 20
                          (Sample.db_two PENDING) _))).
  unfold reminder_pk. apply (bool_decide_unpack _). vm_compute. exact I.
Defined.

(** *** Who a tick delivers to *)

Lemma send_push_to_effects env m sub e :
  e ∈ (Worker.send_push_to env m sub).2 ->
  is_smtp_session e = false
  /\ (is_web_push e = true ->
      exists payload,
        e = WebPush (endpoint sub) (p256dh_key sub) (auth_key sub) payload
              (PushNotifications.private_key (Worker.vapid_config env))
              (PushNotifications.mailto (Worker.vapid_config env))
        /\ dict_get "tag" payload = Some (JStr (Worker.push_tag m))).
Proof.
  unfold Worker.send_push_to, PushNotifications.send_push_notification.
  destruct (negb _).
  - intros Hin. repeat (apply elem_of_cons in Hin as [->|Hin]; [by split|]).
    by apply elem_of_nil in Hin.
  - match goal with
    | |- context [Worker.push_service env ?a ?b ?c ?d] =>
        destruct (Worker.push_service env a b c d) as [|resp msg|msg]
    end;
    repeat match goal with
           | |- context [if ?b then _ else _] => destruct b
           end; cbn [snd];
    (intros Hin; apply elem_of_cons in Hin as [->|Hin];
     [ split; [done|]; intros _; eexists; split; [reflexivity|];
       cbn [PushNotifications.opt_or]; reflexivity
     | apply elem_of_cons in Hin as [->|Hin];
       [by split | by apply elem_of_nil in Hin] ]).
Qed.

Lemma push_loop_effects env m subs e :
  e ∈ (Worker.push_loop env m subs).2 ->
  is_smtp_session e = false
  /\ (is_web_push e = true ->
      exists sub payload,
        sub ∈ subs
        /\ e = WebPush (endpoint sub) (p256dh_key sub) (auth_key sub) payload
                 (PushNotifications.private_key (Worker.vapid_config env))
                 (PushNotifications.mailto (Worker.vapid_config env))
        /\ dict_get "tag" payload = Some (JStr (Worker.push_tag m))).
Proof.
  induction subs as [|s rest IH]; [by intros ?%elem_of_nil|].
  cbn [Worker.push_loop].
  destruct (Worker.push_loop env m rest) as [[n expired] tr_rest];
    cbn [snd] in IH.
  pose proof (send_push_to_effects env m s) as Hs.
  assert (Hrest : e ∈ tr_rest ->
    is_smtp_session e = false
    /\ (is_web_push e = true ->
        exists sub payload,
          sub ∈ s :: rest
          /\ e = WebPush (endpoint sub) (p256dh_key sub) (auth_key sub) payload
                   (PushNotifications.private_key (Worker.vapid_config env))
                   (PushNotifications.mailto (Worker.vapid_config env))
          /\ dict_get "tag" payload = Some (JStr (Worker.push_tag m)))).
  { intros Hin. destruct (IH Hin) as [H1 H2]. split; [done|].
    intros Hw. destruct (H2 Hw) as (sub & payload & ? & ? & ?).
    exists sub, payload. split; [by apply list_elem_of_further|done]. }
  assert (Hhead : e ∈ (Worker.send_push_to env m s).2 ->
    is_smtp_session e = false
    /\ (is_web_push e = true ->
        exists sub payload,
          sub ∈ s :: rest
          /\ e = WebPush (endpoint sub) (p256dh_key sub) (auth_key sub) payload
                   (PushNotifications.private_key (Worker.vapid_config env))
                   (PushNotifications.mailto (Worker.vapid_config env))
          /\ dict_get "tag" payload = Some (JStr (Worker.push_tag m)))).
  { intros Hin. destruct (Hs e Hin) as [H1 H2]. split; [done|].
    intros Hw. destruct (H2 Hw) as (payload & ? & ?).
    exists s, payload. split; [apply list_elem_of_here|done]. }
  destruct (Worker.send_push_to env m s) as [[ok|err] tr]; cbn [snd] in *.
  - intros [?|?]%elem_of_app; auto.
  - intros [?|Hin]%elem_of_app; [auto|].
    apply elem_of_cons in Hin as [->|?]; [by split|auto].
Qed.

Lemma delete_expired_logs u expired db e :
  e ∈ (Worker.delete_expired u expired db).2 ->
  is_smtp_session e = false /\ is_web_push e = false.
Proof.
  revert db. induction expired as [|s rest IH]; intros db;
    [by intros ?%elem_of_nil|].
  cbn [Worker.delete_expired]. specialize (IH (delete_subscription s db)).
  destruct (Worker.delete_expired u rest (delete_subscription s db))
    as [db' tr]; cbn [snd] in *.
  intros [->|?]%elem_of_cons; [by split|auto].
Qed.

Lemma push_step_effects env db u m e :
  e ∈ (Worker.push_step env db u m).2 ->
  is_smtp_session e = false
  /\ (is_web_push e = true ->
      exists sub payload,
        sub ∈ Worker._get_user_push_subscriptions db (user_id u)
        /\ e = WebPush (endpoint sub) (p256dh_key sub) (auth_key sub) payload
                 (PushNotifications.private_key (Worker.vapid_config env))
                 (PushNotifications.mailto (Worker.vapid_config env))
        /\ dict_get "tag" payload = Some (JStr (Worker.push_tag m))).
Proof.
  unfold Worker.push_step, Worker._send_push_to_user.
  destruct (Worker._get_user_push_subscriptions db (user_id u))
    as [|s0 subs0] eqn:Hsubs.
  - cbn [snd]. rewrite app_nil_r.
    intros [->|?%elem_of_nil]%elem_of_cons; [by split|done].
  - pose proof (push_loop_effects env m (s0 :: subs0) e) as Hloop.
    destruct (Worker.push_loop env m (s0 :: subs0)) as [[n expired] tr].
    pose proof (delete_expired_logs u expired db e) as Hdel.
    destruct (Worker.delete_expired u expired db) as [db' tr_del].
    cbn [fst snd] in *.
    intros [[?|?]%elem_of_app|Hin]%elem_of_app; [by apply Hloop| |].
    + destruct (Hdel ltac:(done)) as [? Hw]. split; [done|].
      intros Hw'. congruence.
    + destruct (0 <? n); [|by apply elem_of_nil in Hin].
      apply list_elem_of_singleton in Hin as ->. by split.
Qed.

Lemma email_step_effects env u m e :
  e ∈ Worker.email_step env u m ->
  is_web_push e = false
  /\ (is_smtp_session e = true ->
      Worker.email_enabled u = true
      /\ Notifications.is_configured (Worker.smtp_config env) = true
      /\ exists srv port un pw sender content_type,
           e = SmtpSession srv port un pw sender (user_email u)
                 (Worker.email_subject m) (Worker._build_email_body m)
                 content_type).
Proof.
  unfold Worker.email_step.
  destruct (Worker.email_enabled u); [|by intros ?%elem_of_nil].
  unfold Notifications.send_email.
  destruct (Notifications.is_configured (Worker.smtp_config env)) eqn:Hc;
    cbn [negb].
  - unfold Notifications._send_smtp_email.
    destruct (Worker.smtp_server env _ _ _ _); cbn [app];
      (intros Hin; apply elem_of_cons in Hin as [->|Hin];
       [ split; [done|]; intros _; split; [done|]; split; [done|];
         by eexists _, _, _, _, _, _
       | repeat (apply elem_of_cons in Hin as [->|Hin]; [by split|]);
         by apply elem_of_nil in Hin ]).
  - unfold Notifications._mock_send_email. cbn [app]. intros Hin.
    repeat (apply elem_of_cons in Hin as [->|Hin]; [by split|]).
    by apply elem_of_nil in Hin.
Qed.

Lemma process_reminder_effects env r db e :
  e ∈ (Worker._process_reminder env r db).2 ->
  (is_smtp_session e = true ->
   exists u srv port un pw sender content_type,
     med_user (medication r) = Some u
     /\ Worker.email_enabled u = true
     /\ e = SmtpSession srv port un pw sender (user_email u)
              (Worker.email_subject (medication r))
              (Worker._build_email_body (medication r)) content_type)
  /\ (is_web_push e = true ->
      exists u sub payload,
        med_user (medication r) = Some u
        /\ sub ∈ Worker._get_user_push_subscriptions db (user_id u)
        /\ e = WebPush (endpoint sub) (p256dh_key sub) (auth_key sub) payload
                 (PushNotifications.private_key (Worker.vapid_config env))
                 (PushNotifications.mailto (Worker.vapid_config env))
        /\ dict_get "tag" payload
           = Some (JStr (Worker.push_tag (medication r)))).
Proof.
  unfold Worker._process_reminder.
  destruct (med_user (medication r)) as [u|] eqn:Hu.
  - pose proof (push_step_effects env (update_status r DUE db) u
                  (medication r) e) as Hpush.
    destruct (Worker.push_step env (update_status r DUE db) u (medication r))
      as [db2 tr_push]; cbn [snd] in *.
    pose proof (email_step_effects env u (medication r) e) as Hemail.
    intros Hin. apply elem_of_cons in Hin as [->|Hin]; [by split|].
    apply elem_of_app in Hin as [Hin|Hin].
    + destruct (Hemail Hin) as [Hnw Hs]. split; [|congruence].
      intros Hsm. destruct (Hs Hsm) as (? & _ & srv & port & un & pw & sd & ct & ->).
      by exists u, srv, port, un, pw, sd, ct.
    + destruct (Hpush Hin) as [Hns Hw]. split; [congruence|].
      intros Hwp. destruct (Hw Hwp) as (sub & payload & ? & ? & ?).
      by exists u, sub, payload.
  - cbn [snd]. intros Hin.
    repeat (apply elem_of_cons in Hin as [->|Hin]; [by split|]).
    by apply elem_of_nil in Hin.
Qed.

(** Each effect of a batch belongs to the processing of one of its
    reminders, on a store whose registry is part of the registry the
    batch started with. *)
Lemma process_all_effect env due db e :
  e ∈ (Worker.process_all env due db).2 ->
  exists r db_r,
    r ∈ due
    /\ e ∈ (Worker._process_reminder env r db_r).2
    /\ push_subscriptions db_r `sublist_of` push_subscriptions db.
Proof.
  revert db. induction due as [|x rest IH]; intros db;
    [by intros ?%elem_of_nil|].
  cbn [Worker.process_all].
  pose proof (process_reminder_frame env x db) as (_ & _ & Hs1).
  destruct (Worker._process_reminder env x db) as [db1 tr1] eqn:Hp.
  specialize (IH db1).
  destruct (Worker.process_all env rest db1) as [[n db2] tr2];
    cbn [fst snd] in *.
  intros [Hin|Hin]%elem_of_app.
  - exists x, db. rewrite Hp. split; [apply list_elem_of_here|done].
  - destruct (IH Hin) as (r & db_r & Hr & He & Hsub).
    exists r, db_r. split; [by apply list_elem_of_further|].
    split; [done|]. by etrans.
Qed.

Lemma tick_effect env now db e :
  e ∈ (Worker.check_reminders env now db).2 ->
  is_smtp_session e = true \/ is_web_push e = true ->
  exists r db_r,
    r ∈ Worker.query_pending_due now db
    /\ e ∈ (Worker._process_reminder env r db_r).2
    /\ push_subscriptions db_r `sublist_of` push_subscriptions db.
Proof.
  rewrite check_reminders_unfold.
  destruct (Worker.query_pending_due now db) as [|r0 due] eqn:Hq.
  - cbn [snd]. intros ->%list_elem_of_singleton [?|?]; discriminate.
  - cbn [snd]. intros [->|Hin]%elem_of_cons Hkind.
    + destruct Hkind; discriminate.
    + by apply process_all_effect.
Qed.

(** A tick opens an SMTP session only for the user of a reminder that is
    due, and only if that user opted in to e-mail and has an address;
    the message is the one rendered for that reminder's medication. *)
Theorem tick_emails_only_opted_in (env : Worker.Env) (now : Z) (db : Session)
    srv port un pw sender to_email subject body content_type :
  SmtpSession srv port un pw sender to_email subject body content_type
  ∈ (Worker.check_reminders env now db).2 ->
  exists r u,
    r ∈ reminders db /\ status r = PENDING /\ scheduled_time r <= now
    /\ med_user (medication r) = Some u
    /\ email_notifications u = true
    /\ to_email = user_email u /\ to_email <> EmptyString
    /\ subject = Worker.email_subject (medication r)
    /\ body = Worker._build_email_body (medication r).
Proof.
  intros Hin.
  destruct (tick_effect env now db _ Hin) as (r & db_r & Hr & He & _);
    [by left|].
  apply elem_of_query_pending_due in Hr as [[Hst Ht] Hr].
  destruct (process_reminder_effects env r db_r _ He) as [Hs _].
  destruct (Hs eq_refl)
    as (u & srv' & port' & un' & pw' & sd & ct & Hu & Hen & Heq).
  injection Heq as _ _ _ _ _ -> -> -> _.
  exists r, u. unfold Worker.email_enabled in Hen.
  apply andb_true_iff in Hen as [Hen Haddr].
  repeat split; try done.
  intros Hempty. rewrite Hempty in Haddr. discriminate.
Qed.

Lemma tick_emails_only_opted_in_witness :
  exists r u,
    r ∈ reminders Sample.db_one_pending
    /\ status r = PENDING /\ scheduled_time r <= 20
    /\ med_user (medication r) = Some u
    /\ email_notifications u = true
    /\ "alice@example.com" = user_email u
    /\ "alice@example.com" <> EmptyString
    /\ Worker.email_subject Sample.warfarin = Worker.email_subject (medication r)
    /\ Worker._build_email_body Sample.warfarin
       = Worker._build_email_body (medication r).
Proof.
  apply (tick_emails_only_opted_in Sample.env_live 20 Sample.db_one_pending
           "smtp.gmail.com" 587 "reminders" "secret"
           "noreply@mediremind.app" "alice@example.com"
           (Worker.email_subject Sample.warfarin)
           (Worker._build_email_body Sample.warfarin) "html").
  vm_compute. apply list_elem_of_further, list_elem_of_further,
    list_elem_of_here.
Defined.

(** A tick sends a Web Push request only to a subscription that was in
    the registry before the tick and belongs to the user of a reminder
    that is due, with that subscription's keys and the tag of that
    reminder's medication. *)
Theorem tick_pushes_only_to_owner (env : Worker.Env) (now : Z) (db : Session)
    ep k1 k2 payload key claim :
  WebPush ep k1 k2 payload key claim ∈ (Worker.check_reminders env now db).2 ->
  exists r u sub,
    r ∈ reminders db /\ status r = PENDING /\ scheduled_time r <= now
    /\ med_user (medication r) = Some u
    /\ sub ∈ push_subscriptions db
    /\ sub_user_id sub = user_id u
    /\ ep = endpoint sub /\ k1 = p256dh_key sub /\ k2 = auth_key sub
    /\ dict_get "tag" payload = Some (JStr (Worker.push_tag (medication r))).
Proof.
  intros Hin.
  destruct (tick_effect env now db _ Hin) as (r & db_r & Hr & He & Hsub);
    [by right|].
  apply elem_of_query_pending_due in Hr as [[Hst Ht] Hr].
  destruct (process_reminder_effects env r db_r _ He) as [_ Hw].
  destruct (Hw eq_refl) as (u & sub & payload' & Hu & Hmine & Heq & Htag).
  injection Heq as -> -> -> -> _ _.
  apply list_elem_of_filter in Hmine as [Huid Hmine].
  exists r, u, sub. repeat split; try done.
  by apply (sublist_subseteq _ _ Hsub).
Qed.

Lemma tick_pushes_only_to_owner_witness :
  exists r u sub,
    r ∈ reminders Sample.db_one_pending
    /\ status r = PENDING /\ scheduled_time r <= 20
    /\ med_user (medication r) = Some u
    /\ sub ∈ push_subscriptions Sample.db_one_pending
    /\ sub_user_id sub = user_id u
    /\ "https://push.example/a" = endpoint sub
    /\ "A" = p256dh_key sub /\ "B" = auth_key sub
    /\ dict_get "tag"
         (JObj [ ("title", JStr "💊 Warfarin");
                 ("body",
                  JStr "Time to take 5mg - Take at the same time each day. Do not skip doses.");
                 ("icon", JStr "/icons/pill-icon.png");
                 ("badge", JStr "/icons/badge.png");
                 ("tag", JStr "med-7");
                 ("data", JObj [ ("url", JStr "/medications") ]) ])
       = Some (JStr (Worker.push_tag (medication r))).
Proof.
  apply (tick_pushes_only_to_owner Sample.env_live 20 Sample.db_one_pending
           "https://push.example/a" "A" "B" _ "priv"
           "mailto:admin@mediremind.app").
  vm_compute.
  do 5 apply list_elem_of_further. apply list_elem_of_here.
Defined.

End TickExtras.

(** ** From due to delivered, and the worker's run *)

Module RunExtras.
Import Models Effects Exceptions StoreLemmas WorkerLemmas ListFacts Observe.

Lemma stream_data_id r :
  dict_get "id" (Router.stream_data r) = Some (JInt (rem_id r)).
Proof. reflexivity. Qed.

Lemma tick_rows env now db :
  reminder_pk db ->
  reminders (Worker.check_reminders env now db).1.2
  = (fun x => if decide (Worker.pending_due now x)
              then set_status DUE x else x) <$> reminders db
  /\ (Worker.check_reminders env now db).1.1
     = Z.of_nat (length (filter (Worker.pending_due now) (reminders db)))
  /\ reminder_pk (Worker.check_reminders env now db).1.2.
Proof.
  intros Hpk.
  destruct (check_reminders_frame env now db) as (_ & Hr & _ & Hn).
  split; [|split].
  - rewrite Hr, mark_query_pending_due.
    by apply TickExtras.mark_by_predicate.
  - by rewrite Hn, query_pending_due_length.
  - unfold reminder_pk. by rewrite Hr, mark_ids.
Qed.

(** The life of one reminder: PENDING and due, it is DUE after a poller
    tick; the first stream pass after that yields exactly one event with
    its id and sets it to SENT; the next stream pass yields nothing and
    changes nothing. *)
Theorem due_reminder_is_streamed_once (env : Worker.Env) (now : Z)
    (db : Session) (r : Reminder) :
  reminder_pk db ->
  r ∈ reminders db -> status r = PENDING -> scheduled_time r <= now ->
  let db1 := (Worker.check_reminders env now db).1.2 in
  let first := Router.stream_pass db1 in
  let second := Router.stream_pass first.1 in
  set_status DUE r ∈ reminders db1
  /\ Yield (Router.stream_data r) ∈ first.2
  /\ length (filter (fun e => yields_id (rem_id r) e = true) first.2) = 1%nat
  /\ set_status SENT r ∈ reminders first.1
  /\ second = (first.1, []).
Proof.
  intros Hpk Hr Hst Ht db1 first second.
  destruct (tick_rows env now db Hpk) as (Hrows & _ & Hpk1). fold db1 in Hrows, Hpk1.
  assert (Hdue : set_status DUE r ∈ reminders db1).
  { rewrite Hrows. apply list_elem_of_fmap. exists r. split; [|done].
    by rewrite decide_True. }
  assert (Hq : set_status DUE r ∈ Router.query_due db1)
    by (by apply list_elem_of_filter).
  assert (Hqpk : NoDup (rem_id <$> Router.query_due db1)).
  { eapply sublist_NoDup; [exact Hpk1|]. apply fmap_sublist, sublist_filter. }
  subst first second.
  assert (Hsecond :
    Router.stream_pass (Router.stream_pass db1).1
    = ((Router.stream_pass db1).1, [])).
  { unfold Router.stream_pass at 1.
    by rewrite StreamProofs.stream_pass_drains. }
  split; [done|]. split; [|split; [|split; [|exact Hsecond]]];
    rewrite StreamProofs.stream_pass_spec; cbn [fst snd].
  - apply list_elem_of_fmap. by exists (set_status DUE r).
  - unfold Trace. rewrite length_filter_fmap.
    rewrite (filter_ext_in _ (fun x => rem_id x = rem_id (set_status DUE r))).
    + by rewrite (proj1 (filter_key_one rem_id _ _ Hqpk Hq)).
    + intros x _. unfold yields_id. rewrite stream_data_id.
      rewrite Z.eqb_eq. done.
  - change (set_status SENT r) with (set_status SENT (set_status DUE r)).
    apply elem_of_mark_hit; [done|]. by apply list_elem_of_fmap_2.
Qed.

Lemma due_reminder_is_streamed_once_witness :
  Yield (Router.stream_data (Sample.reminder 1 Sample.warfarin 10 PENDING))
  ∈ (Router.stream_pass
       (Worker.check_reminders Sample.env_live 20
          Sample.db_one_pending).1.2).2.
Proof.
  refine (proj1 (proj2 (due_reminder_is_streamed_once Sample.env_live 20
                          Sample.db_one_pending
                          (Sample.reminder 1 Sample.warfarin 10 PENDING)
                          _ _ _ _))).
  - unfold reminder_pk. apply (bool_decide_unpack _). vm_compute. exact I.
  - apply list_elem_of_here.
  - reflexivity.
  - simpl. lia.
Defined.

(** *** The run of the worker *)

Lemma worker_loop_rows env nows db :
  reminder_pk db ->
  foldr Z.add 0 (WorkerLoop.worker_loop env nows db).1.1
  = Z.of_nat (length (filter (WorkerLoop.due_in_run nows) (reminders db)))
  /\ reminders (WorkerLoop.worker_loop env nows db).1.2
     = (fun x => if decide (WorkerLoop.due_in_run nows x)
                 then set_status DUE x else x) <$> reminders db.
Proof.
  revert db. induction nows as [|now rest IH]; intros db Hpk.
  - cbn [WorkerLoop.worker_loop fst snd foldr].
    assert (Hno : forall x : Reminder, ~ WorkerLoop.due_in_run [] x).
    { intros x [_ Hex]. by apply Exists_nil in Hex. }
    split.
    + rewrite (filter_ext_in _ (fun _ => False)) by (intros x _; by split; [apply Hno|]).
      clear. by induction (reminders db).
    + rewrite <- (list_fmap_id (reminders db)) at 1.
      apply list_fmap_ext. intros _ x _. by rewrite decide_False by apply Hno.
  - cbn [WorkerLoop.worker_loop].
    destruct (tick_rows env now db Hpk) as (Hrows & Hn & Hpk1).
    destruct (Worker.check_reminders env now db) as [[n db1] tr1];
      cbn [fst snd] in *.
    destruct (IH db1 Hpk1) as [IHn IHr].
    destruct (WorkerLoop.worker_loop env rest db1) as [[ns db2] tr2];
      cbn [fst snd foldr] in *.
    rewrite IHn, IHr, Hn, Hrows. clear.
    assert (Hcase : forall x : Reminder,
      (Worker.pending_due now x
       /\ WorkerLoop.due_in_run (now :: rest) x
       /\ ~ WorkerLoop.due_in_run rest (set_status DUE x))
      \/ (~ Worker.pending_due now x
          /\ (WorkerLoop.due_in_run (now :: rest) x
              <-> WorkerLoop.due_in_run rest x))).
    { intros x. destruct (decide (Worker.pending_due now x)) as [Hd|Hd].
      - left. split; [done|]. destruct Hd as [Hst Ht]. split.
        + split; [done|]. by apply Exists_cons_hd.
        + intros [Hst' _]. simpl in Hst'. discriminate.
      - right. split; [done|]. unfold WorkerLoop.due_in_run.
        rewrite Exists_cons. unfold Worker.pending_due in Hd. tauto. }
    split.
    + rewrite length_filter_fmap.
      induction (reminders db) as [|x l IHl]; [done|].
      destruct (Hcase x) as [(Hd & Hrun & Hnot)|(Hd & Hiff)].
      * rewrite (filter_cons_True (Worker.pending_due now)) by done.
        rewrite (filter_cons_True (WorkerLoop.due_in_run (now :: rest)))
          by done.
        rewrite filter_cons_False by (by rewrite decide_True).
        cbn [length]. lia.
      * rewrite (filter_cons_False (Worker.pending_due now)) by done.
        destruct (decide (WorkerLoop.due_in_run rest x)) as [Hr|Hr].
        -- rewrite (filter_cons_True (WorkerLoop.due_in_run (now :: rest)))
             by (by apply Hiff).
           rewrite filter_cons_True by (by rewrite decide_False).
           cbn [length]. lia.
        -- rewrite (filter_cons_False (WorkerLoop.due_in_run (now :: rest)))
             by (by rewrite Hiff).
           rewrite filter_cons_False by (by rewrite decide_False).
           exact IHl.
    + rewrite <- list_fmap_compose. apply list_fmap_ext. intros _ x _.
      unfold compose.
      destruct (Hcase x) as [(Hd & Hrun & Hnot)|(Hd & Hiff)].
      * rewrite (decide_True (P := Worker.pending_due now x)) by done.
        rewrite decide_False by done. by rewrite decide_True.
      * rewrite (decide_False (P := Worker.pending_due now x)) by done.
        destruct (decide (WorkerLoop.due_in_run rest x)) as [Hr|Hr].
        -- by rewrite decide_True by (by apply Hiff).
        -- by rewrite decide_False by (by rewrite Hiff).
Qed.

(** Over a whole run of the worker each reminder is processed once:
    under the primary key, the counts that the ticks return add up to the
    number of reminders that were PENDING and due at one of the clock
    readings, exactly these end with status DUE, and every other row is
    as it was. *)
Theorem run_processes_each_due_reminder_once (env : Worker.Env)
    (poll_interval : Z) (nows : list Z) (db : Session) :
  reminder_pk db ->
  let out := WorkerLoop.run_worker env poll_interval nows db in
  foldr Z.add 0 out.1.1
  = Z.of_nat (length (filter (WorkerLoop.due_in_run nows) (reminders db)))
  /\ reminders out.1.2
     = (fun x => if decide (WorkerLoop.due_in_run nows x)
                 then set_status DUE x else x) <$> reminders db.
Proof.
  intros Hpk out. subst out. unfold WorkerLoop.run_worker.
  pose proof (worker_loop_rows env nows db Hpk) as H.
  by destruct (WorkerLoop.worker_loop env nows db) as [[ns db'] tr].
Qed.

Lemma run_processes_each_due_reminder_once_witness :
  foldr Z.add 0
    (WorkerLoop.run_worker Sample.env_live 10 [0; 7; 20; 30]
       (Sample.db_two PENDING)).1.1
  = Z.of_nat
      (length (filter (WorkerLoop.due_in_run [0; 7; 20; 30])
                      (reminders (Sample.db_two PENDING)))).
Proof.
  refine (proj1 (run_processes_each_due_reminder_once Sample.env_live 10
                   [0; 7; 20; 30] (Sample.db_two PENDING) _)).
  unfold reminder_pk. apply (bool_decide_unpack _). vm_compute. exact I.
Defined.

(** The banner that [run_worker] logs looks at the public key only,
    while the sender looks at [is_configured] and hands the push library
    the private key only.  With a public key and neither a private key
    nor a key path the worker announces ENABLED and every send is
    skipped.  With a key path and no private key every send does make a
    Web Push request, with an empty private key: the key path is not
    read; and when the public key is missing too the worker announces
    DISABLED. *)
Theorem banner_and_configuration (env : Worker.Env) (poll_interval : Z)
    (nows : list Z) (db : Session) :
  let c := Worker.vapid_config env in
  (WorkerLoop.run_worker env poll_interval nows db).2 !! 1%nat
  = Some (Log WorkerLog LvInfo (WorkerLoop.banner c))
  /\ (WorkerLoop.banner c = "Push notifications: ENABLED"
      <-> PushNotifications.public_key c <> EmptyString)
  /\ (WorkerLoop.banner c = "Push notifications: DISABLED (no VAPID keys)"
      <-> PushNotifications.public_key c = EmptyString)
  /\ (PushNotifications.private_key c = EmptyString ->
      PushNotifications.private_key_path c = EmptyString ->
      forall m sub,
        (Worker.send_push_to env m sub).1 = Return false
        /\ filter (fun e => is_web_push e = true)
                  (Worker.send_push_to env m sub).2 = [])
  /\ (PushNotifications.private_key c = EmptyString ->
      PushNotifications.private_key_path c <> EmptyString ->
      forall m sub,
        exists payload rest,
          (Worker.send_push_to env m sub).2
          = WebPush (endpoint sub) (p256dh_key sub) (auth_key sub) payload
              EmptyString (PushNotifications.mailto c)
            :: rest).
Proof.
  intros c. split.
  { unfold WorkerLoop.run_worker.
    by destruct (WorkerLoop.worker_loop env nows db) as [[ns db'] tr]. }
  split; [|split; [|split]].
  - unfold WorkerLoop.banner, PushNotifications.get_vapid_public_key.
    destruct (PushNotifications.public_key c); cbn;
      (split; intros H; first [done | discriminate H | by destruct H]).
  - unfold WorkerLoop.banner, PushNotifications.get_vapid_public_key.
    destruct (PushNotifications.public_key c); cbn;
      (split; intros H; first [done | discriminate H | by destruct H]).
  - intros Hpriv Hpath m sub.
    assert (Hc : PushNotifications.is_configured (Worker.vapid_config env)
                 = false).
    { unfold PushNotifications.is_configured. fold c.
      rewrite Hpriv, Hpath. cbn. by rewrite andb_false_r. }
    destruct (PushExtras.unconfigured_send env m sub Hc) as (tr & -> & Hno).
    done.
  - intros Hpriv Hpath m sub.
    assert (Hc : PushNotifications.is_configured (Worker.vapid_config env)
                 = true).
    { unfold PushNotifications.is_configured. fold c.
      destruct (PushNotifications.private_key_path c); [done|].
      cbn. apply orb_true_r. }
    destruct (DeliveryProofs.send_push_to_request env m sub Hc)
      as (payload & rest & Hsend).
    fold c in Hsend. rewrite Hpriv in Hsend. by exists payload, rest.
Qed.

End RunExtras.

(** ** More on e-mail delivery *)

Module EmailExtras.
Import Models Effects Exceptions ListFacts Observe.

(** What a call of [send_email] comes to: it returns only [True], and
    does so exactly when no credentials are configured or the relay took
    the message; what it raises is an [EmailDeliveryError] naming the
    recipient, and only with credentials configured; it opens one SMTP
    session when configured and none otherwise. *)
Theorem send_email_outcomes (c : Notifications.SMTPConfig)
    (smtp : Notifications.SmtpServer) (to_email subject body : string)
    (html : bool) :
  let out := Notifications.send_email c smtp to_email subject body html in
  let content_type := if html then "html" else "plain" in
  (out.1 = Return true
   <-> Notifications.is_configured c = false
       \/ smtp to_email subject body content_type = Notifications.SmtpSent)
  /\ (forall b, out.1 = Return b -> b = true)
  /\ (forall e, out.1 = Raise e ->
        Notifications.is_configured c = true
        /\ exc_message e = "Failed to deliver email to " +:+ to_email
        /\ exists d, exc_details e = Some d)
  /\ length (filter (fun e => is_smtp_session e = true) out.2)
     = (if Notifications.is_configured c then 1 else 0)%nat.
Proof.
  intros out content_type. subst out content_type.
  unfold Notifications.send_email, Notifications._send_smtp_email.
  destruct (Notifications.is_configured c) eqn:Hc; cbn [negb].
  - destruct (smtp to_email subject body (if html then "html" else "plain"))
      eqn:Hsmtp; cbn [fst snd].
    + split; [split; [by right|done]|]. split; [by intros b [= <-]|].
      split; [discriminate|done].
    + split; [split; [discriminate|intros [?|?]; discriminate]|].
      split; [discriminate|]. split; [|done].
      intros e [= <-]. repeat split. by eexists.
    + split; [split; [discriminate|intros [?|?]; discriminate]|].
      split; [discriminate|]. split; [|done].
      intros e [= <-]. repeat split. by eexists.
    + split; [split; [discriminate|intros [?|?]; discriminate]|].
      split; [discriminate|]. split; [|done].
      intros e [= <-]. repeat split. by eexists.
    + split; [split; [discriminate|intros [?|?]; discriminate]|].
      split; [discriminate|]. split; [|done].
      intros e [= <-]. repeat split. by eexists.
  - cbn [fst snd]. split; [split; [by left|done]|].
    split; [by intros b [= <-]|]. split; [discriminate|done].
Qed.

Lemma send_email_outcomes_witness :
  length (filter (fun e => is_smtp_session e = true)
            (Notifications.send_email Sample.smtp_on Sample.smtp_down
               "alice@example.com" "subject" "body" true).2)
  = 1%nat.
Proof.
  apply (proj2 (proj2 (proj2 (send_email_outcomes Sample.smtp_on
                                Sample.smtp_down "alice@example.com"
                                "subject" "body" true)))).
Defined.

(** The mock entry has five lines; its body line shows the whole body
    when that has at most 200 characters and never more than 209
    characters in all, characters being code points, as [len] and the
    slice count them. *)
Theorem mock_email_body_line_is_bounded (to_email subject body : string) :
  length (Notifications._mock_send_email to_email subject body) = 5%nat
  /\ exists line,
       Notifications._mock_send_email to_email subject body !! 3%nat
       = Some (Log NotificationLog LvInfo line)
       /\ (PyStr.len line <= 209)%nat
       /\ ((PyStr.len body <= 200)%nat -> line = "Body: " +:+ body)
       /\ ((200 < PyStr.len body)%nat ->
           line = "Body: " +:+ PyStr.take 200 body +:+ "..."
           /\ PyStr.len line = 209%nat).
Proof.
  split; [done|]. unfold Notifications._mock_send_email.
  eexists. split; [reflexivity|].
  destruct (Nat.ltb 200 (PyStr.len body)) eqn:Hlen.
  - apply Nat.ltb_lt in Hlen.
    assert (Hline : PyStr.len ("Body: " +:+ PyStr.take 200 body +:+ "...")
                    = 209%nat).
    { rewrite !len_app, len_take_long by lia.
      change (PyStr.len "Body: ") with 6%nat.
      change (PyStr.len "...") with 3%nat. lia. }
    split; [by rewrite Hline|]. split; [lia|done].
  - apply Nat.ltb_ge in Hlen. split; [|split; [done|lia]].
    rewrite len_app. change (PyStr.len "Body: ") with 6%nat. lia.
Qed.

End EmailExtras.

(** ** More on the subscription registry *)

Module RegistryExtras.
Import Models Effects Exceptions StoreLemmas ListFacts Observe.

Lemma fresh_sub_id (l : list PushSubscription) x :
  x ∈ l -> sub_id x <> Router.next_sub_id l.
Proof.
  unfold Router.next_sub_id. intros Hx.
  assert (sub_id x <= foldr Z.max 0 (sub_id <$> l)); [|lia].
  induction l as [|y l IH]; [by apply elem_of_nil in Hx|].
  rewrite fmap_cons. cbn [foldr].
  apply elem_of_cons in Hx as [->|Hx]; [lia|]. specialize (IH Hx). lia.
Qed.

(** [unsubscribe] deletes at most one row, and only a row of the caller
    with the given endpoint: every subscription of another user, and
    every subscription with another endpoint, stays; where endpoints are
    unique the caller has no subscription with that endpoint
    afterwards. *)
Theorem unsubscribe_removes_own_only (ep : string) (u : User) (db : Session) :
  subscription_pk db ->
  let db' := (Router.unsubscribe ep u db).1.2 in
  (forall x, x ∈ push_subscriptions db ->
             sub_user_id x <> user_id u \/ endpoint x <> ep ->
             x ∈ push_subscriptions db')
  /\ push_subscriptions db' `sublist_of` push_subscriptions db
  /\ (length (push_subscriptions db) <= S (length (push_subscriptions db')))%nat
  /\ (endpoint_unique db ->
      forall x, x ∈ push_subscriptions db' ->
                ~ (endpoint x = ep /\ sub_user_id x = user_id u))
  /\ users db' = users db /\ reminders db' = reminders db.
Proof.
  intros Hpk db'. subst db'. unfold Router.unsubscribe.
  destruct (head (filter (fun s => endpoint s = ep
                                   /\ sub_user_id s = user_id u)
                         (push_subscriptions db))) as [s|] eqn:Hhead.
  - assert (Hs : s ∈ filter (fun s => endpoint s = ep
                                      /\ sub_user_id s = user_id u)
                            (push_subscriptions db)).
    { destruct (filter _ _) as [|y l]; [discriminate|].
      injection Hhead as ->. apply list_elem_of_here. }
    apply list_elem_of_filter in Hs as [[Hep Hu] Hs].
    cbn [fst snd delete_subscription push_subscriptions users reminders].
    unfold delete_subscription; cbn [push_subscriptions users reminders].
    split; [|split; [|split; [|split]]]; try done.
    + intros x Hx Hdiff. apply list_elem_of_filter. split; [|done].
      intros Hid.
      assert (x = s) as -> by (by apply (key_same_row sub_id
                                           (push_subscriptions db))).
      destruct Hdiff; contradiction.
    + apply sublist_filter.
    + destruct (filter_key_one sub_id (push_subscriptions db) s Hpk Hs)
        as [_ Hlen]. by rewrite <- Hlen.
    + intros Huniq x [Hid Hx]%list_elem_of_filter [Hxe _].
      apply Hid. f_equal.
      apply (key_same_row endpoint (push_subscriptions db)); try done.
      by rewrite Hxe, Hep.
  - cbn [fst snd]. split; [done|]. split; [done|]. split; [lia|].
    split; [|done].
    intros _ x Hx Hboth.
    apply (filter_nil_not_elem_of
             (fun s => endpoint s = ep /\ sub_user_id s = user_id u)
             (push_subscriptions db) x); [|done|done].
    by destruct (filter _ _).
Qed.

Lemma unsubscribe_removes_own_only_witness :
  Sample.sub_b
  ∈ push_subscriptions
      (Router.unsubscribe "https://push.example/a" Sample.alice
         Sample.db_one_pending).1.2.
Proof.
  refine (proj1 (unsubscribe_removes_own_only "https://push.example/a"
                   Sample.alice Sample.db_one_pending _) Sample.sub_b _ _).
  - unfold subscription_pk. apply (bool_decide_unpack _). vm_compute. exact I.
  - apply list_elem_of_further, list_elem_of_here.
  - right. discriminate.
Defined.

(** [subscribe] touches one endpoint only, and takes it over: the rows
    of every other endpoint are as before, no user other than the caller
    has a subscription with the endpoint afterwards, and the ids stay
    unique. *)
Theorem subscribe_takes_over_endpoint (req : Router.SubscriptionRequest)
    (u' : User) (now : Z) (db : Session) :
  subscription_pk db -> endpoint_unique db ->
  let db' := (Router.subscribe req u' now db).1.2 in
  filter (fun x => endpoint x <> Router.req_endpoint req)
         (push_subscriptions db')
  = filter (fun x => endpoint x <> Router.req_endpoint req)
           (push_subscriptions db)
  /\ (forall u, user_id u <> user_id u' ->
        filter (fun x => endpoint x = Router.req_endpoint req)
               (Worker._get_user_push_subscriptions db' (user_id u)) = [])
  /\ subscription_pk db'
  /\ users db' = users db /\ reminders db' = reminders db.
Proof.
  intros Hpk Huniq db'.
  destruct (RegistryProofs.subscribe_registry req u' now db Huniq)
    as (_ & s & Hf & _ & Hown & _).
  fold db' in Hf.
  assert (Htake : forall u, user_id u <> user_id u' ->
    filter (fun x => endpoint x = Router.req_endpoint req)
           (Worker._get_user_push_subscriptions db' (user_id u)) = []).
  { intros u Hne. unfold Worker._get_user_push_subscriptions.
    rewrite list_filter_filter.
    rewrite (list_filter_iff _
               (fun x => sub_user_id x = user_id u
                         /\ endpoint x = Router.req_endpoint req))
      by (intros x; tauto).
    rewrite <- list_filter_filter, Hf.
    rewrite filter_cons_False; [done|]. by rewrite Hown. }
  split; [|split; [exact Htake|]].
  - subst db'. unfold Router.subscribe.
    destruct (head (filter (fun s => endpoint s = Router.req_endpoint req)
                           (push_subscriptions db))) as [ex|] eqn:Hhead;
      cbn [fst snd]; unfold with_subscriptions; cbn [push_subscriptions].
    + assert (Hex : ex ∈ filter (fun s => endpoint s = Router.req_endpoint req)
                                (push_subscriptions db))
        by (by apply head_Some_elem_of).
      apply list_elem_of_filter in Hex as [Hep Hex].
      rewrite RegistryProofs.filter_fmap_preserve
        by (intros x; by case_decide).
      rewrite <- (list_fmap_id (filter _ (push_subscriptions db))) at 2.
      apply list_fmap_ext. intros i x Hi.
      apply list_elem_of_lookup_2, list_elem_of_filter in Hi as [Hne Hx].
      rewrite decide_False; [done|]. intros Hid. apply Hne.
      by rewrite (key_same_row sub_id (push_subscriptions db) x ex Hpk Hx Hex Hid).
    + rewrite filter_app. rewrite (filter_cons_False _ _ [])
        by (intros H; by apply H).
      by rewrite filter_nil, app_nil_r.
  - split; [|by subst db'; unfold Router.subscribe; destruct (head _)].
    subst db'. unfold Router.subscribe, subscription_pk.
    destruct (head (filter (fun s => endpoint s = Router.req_endpoint req)
                           (push_subscriptions db))) as [ex|] eqn:Hhead;
      cbn [fst snd]; unfold with_subscriptions; cbn [push_subscriptions].
    + rewrite <- list_fmap_compose.
      erewrite list_fmap_ext; [exact Hpk|].
      intros _ x _. unfold compose. by case_decide.
    + rewrite fmap_app. apply NoDup_app. split; [exact Hpk|]. split.
      * intros i Hi Hi'. apply list_elem_of_singleton in Hi'.
        apply list_elem_of_fmap in Hi as (y & Hy & Hyin).
        rewrite Hy in Hi'. by apply (fresh_sub_id _ y Hyin).
      * apply NoDup_singleton.
Qed.

Lemma subscribe_takes_over_endpoint_witness :
  filter (fun x => endpoint x = "https://push.example/a")
    (Worker._get_user_push_subscriptions
       (Router.subscribe
          {| Router.req_endpoint := "https://push.example/a";
             Router.req_keys := Sample.keys_CD |}
          Sample.bob 100 Sample.db_one_pending).1.2
       (user_id Sample.alice)) = [].
Proof.
  refine (proj1 (proj2 (subscribe_takes_over_endpoint
                          {| Router.req_endpoint := "https://push.example/a";
                             Router.req_keys := Sample.keys_CD |}
                          Sample.bob 100 Sample.db_one_pending _ _))
            Sample.alice _).
  - unfold subscription_pk. apply (bool_decide_unpack _). vm_compute. exact I.
  - unfold endpoint_unique. apply (bool_decide_unpack _). vm_compute. exact I.
  - discriminate.
Defined.

(** Registering an endpoint that is not in the registry and then
    unregistering it leaves the database as it was. *)
Theorem subscribe_then_unsubscribe_restores (req : Router.SubscriptionRequest)
    (u : User) (now : Z) (db : Session) :
  filter (fun x => endpoint x = Router.req_endpoint req)
         (push_subscriptions db) = [] ->
  (Router.unsubscribe (Router.req_endpoint req) u
     (Router.subscribe req u now db).1.2).1.2 = db.
Proof.
  intros Hnone. unfold Router.subscribe. rewrite Hnone.
  cbn [head fst snd]. unfold Router.unsubscribe, with_subscriptions.
  cbn [push_subscriptions].
  assert (Hmine :
    filter (fun s => endpoint s = Router.req_endpoint req
                     /\ sub_user_id s = user_id u)
           (push_subscriptions db) = []).
  { apply elem_of_nil_inv. intros x [[Hep _] Hx]%list_elem_of_filter.
    by apply (filter_nil_not_elem_of
                (fun y => endpoint y = Router.req_endpoint req)
                (push_subscriptions db) x). }
  rewrite filter_app, Hmine.
  rewrite filter_cons_True by done. cbn [app head fst snd].
  unfold delete_subscription. cbn [push_subscriptions users reminders sub_id].
  rewrite filter_app.
  rewrite (filter_all_in _ (push_subscriptions db))
    by (intros x Hx; by apply fresh_sub_id).
  rewrite filter_cons_False by (intros H; by apply H).
  rewrite filter_nil, app_nil_r. by destruct db.
Qed.

Lemma subscribe_then_unsubscribe_restores_witness :
  (Router.unsubscribe "E" Sample.alice
     (Router.subscribe
        {| Router.req_endpoint := "E"; Router.req_keys := Sample.keys_AB |}
        Sample.alice 100 Sample.db_one_pending).1.2).1.2
  = Sample.db_one_pending.
Proof.
  apply (subscribe_then_unsubscribe_restores
           {| Router.req_endpoint := "E"; Router.req_keys := Sample.keys_AB |}
           Sample.alice 100 Sample.db_one_pending).
  reflexivity.
Defined.

End RegistryExtras.

(** ** More on the live stream and its credential check *)

Module StreamExtras.
Import Models Effects Exceptions ListFacts Observe.

(** The validation of a stream token: it succeeds exactly when the token
    decodes to a [sub] claim that is the e-mail address of a user, and
    then gives the first such user; every failure is the same 401. *)
Theorem token_validation (decode : Router.JwtDecode) (token : string)
    (db : Session) :
  let out := Router.get_current_user_from_token decode token db in
  (forall u,
     out.1 = Return u
     <-> exists email,
           decode token = Router.JwtPayload (Some email)
           /\ Router.get_user_by_email db email = Some u)
  /\ (forall u,
        out.1 = Return u ->
        u ∈ users db
        /\ decode token = Router.JwtPayload (Some (user_email u)))
  /\ (forall e,
        out.1 = Raise e ->
        Router.http_status e = 401
        /\ Router.http_detail e = "Could not validate credentials").
Proof.
  intros out. subst out.
  unfold Router.get_current_user_from_token, Router._decode_jwt_token.
  assert (Hfound : forall email u,
            Router.get_user_by_email db email = Some u ->
            u ∈ users db /\ user_email u = email).
  { intros email u Hu. unfold Router.get_user_by_email in Hu.
    apply head_Some_elem_of, list_elem_of_filter in Hu. tauto. }
  destruct (decode token) as [[email|]|msg] eqn:Hd; cbn [fst].
  - destruct (Router.get_user_by_email db email) as [user|] eqn:Hu;
      cbn [fst].
    + split; [|split; [|discriminate]].
      * intros u. split.
        -- intros [= <-]. by exists email.
        -- intros (email' & [= <-] & Hu'). congruence.
      * intros u [= <-]. destruct (Hfound _ _ Hu) as [? <-]. done.
    + split; [|split; [discriminate|by intros e [= <-]]].
      intros u. split; [discriminate|].
      intros (email' & [= <-] & Hu'). congruence.
  - split; [|split; [discriminate|by intros e [= <-]]].
    intros u. split; [discriminate|]. by intros (email' & [=] & _).
  - split; [|split; [discriminate|by intros e [= <-]]].
    intros u. split; [discriminate|]. by intros (email' & [=] & _).
Qed.

Lemma token_validation_witness :
  Sample.alice ∈ users (Sample.db_two DUE)
  /\ Sample.decode_plain "alice@example.com"
     = Router.JwtPayload (Some (user_email Sample.alice)).
Proof.
  apply (proj1 (proj2 (token_validation Sample.decode_plain
                         "alice@example.com" (Sample.db_two DUE)))
           Sample.alice).
  reflexivity.
Defined.

(** A token that fails the validation closes the feed at once: whatever
    the number of passes the client waits for, the generator yields the
    one Unauthorized frame and leaves the database as it is. *)
Theorem rejected_token_closes_feed (decode : Router.JwtDecode)
    (token : string) (n : nat) (db : Session) (e : Router.HTTPException) :
  (Router.get_current_user_from_token decode token db).1 = Raise e ->
  let out := Router.notification_generator decode token n db in
  out.1 = db
  /\ filter (fun x => is_yield x = true) out.2
     = [Yield (JObj [ ("error", JStr "Unauthorized") ])].
Proof.
  intros Hfail out. subst out. unfold Router.notification_generator.
  revert Hfail.
  unfold Router.get_current_user_from_token, Router._decode_jwt_token.
  destruct (decode token) as [[email|]|msg]; cbn [fst].
  - destruct (Router.get_user_by_email db email); [discriminate|].
    intros _. done.
  - intros _. done.
  - intros _. done.
Qed.

Lemma rejected_token_closes_feed_witness :
  (Router.notification_generator Sample.decode_plain "mallory@example.com" 3
     (Sample.db_two DUE)).1
  = Sample.db_two DUE.
Proof.
  refine (proj1 (rejected_token_closes_feed Sample.decode_plain
                   "mallory@example.com" 3 (Sample.db_two DUE)
                   Router.credentials_exception _)).
  reflexivity.
Defined.

(** In every stream payload the high-risk flag and the disclaimer agree,
    the id is the reminder's, and the instructions entry is never
    empty. *)
Theorem stream_payload_is_consistent (r : Reminder) :
  dict_get "isHighRisk" (Router.stream_data r)
  = Some (JBool (carries_disclaimer (Router.stream_data r)))
  /\ (carries_disclaimer (Router.stream_data r) = true
      <-> priority (medication r) = "HIGH")
  /\ dict_get "id" (Router.stream_data r) = Some (JInt (rem_id r))
  /\ exists text,
       dict_get "instructions" (Router.stream_data r) = Some (JStr text)
       /\ text <> EmptyString
       /\ (instructions (medication r) <> EmptyString ->
           text = instructions (medication r)).
Proof.
  unfold Router.stream_data.
  destruct (String.eqb (priority (medication r)) "HIGH") eqn:Hp.
  - apply String.eqb_eq in Hp.
    split; [reflexivity|]. split; [by split|]. split; [reflexivity|].
    exists (PyStr.or_else (instructions (medication r)) "Take as directed").
    split; [reflexivity|]. unfold PyStr.or_else.
    destruct (instructions (medication r)); by split.
  - apply String.eqb_neq in Hp.
    split; [reflexivity|]. split; [split; [discriminate|done]|].
    split; [reflexivity|].
    exists (PyStr.or_else (instructions (medication r)) "Take as directed").
    split; [reflexivity|]. unfold PyStr.or_else.
    destruct (instructions (medication r)); by split.
Qed.

End StreamExtras.

(** ** The history endpoints *)

Module HistoryExtras.
Import Models Effects Exceptions ListFacts Core History.

#[local] Instance later_first_total : Total History.later_first.
Proof. intros x y. unfold History.later_first. lia. Qed.

#[local] Instance later_first_trans : Transitive History.later_first.
Proof. intros x y z. unfold History.later_first. lia. Qed.

(** A page of at most [n] rows of the sorted selection. *)
Lemma page_spec (P : Reminder -> Prop) `{!forall r, Decision (P r)}
    (n : nat) (rs : list Reminder) :
  let page := take n (merge_sort History.later_first (filter P rs)) in
  (length page <= n)%nat
  /\ StronglySorted History.later_first page
  /\ (forall r, r ∈ page -> r ∈ rs /\ P r)
  /\ (forall x y, x ∈ rs -> P x -> x ∉ page -> y ∈ page ->
                  scheduled_time x <= scheduled_time y)
  /\ ((length (filter P rs) <= n)%nat -> page ≡ₚ filter P rs).
Proof.
  intros page. subst page.
  set (sorted := merge_sort History.later_first (filter P rs)).
  assert (Hperm : sorted ≡ₚ filter P rs) by apply merge_sort_Permutation.
  assert (Hsorted : StronglySorted History.later_first sorted)
    by apply (StronglySorted_merge_sort _).
  split; [rewrite length_take; lia|]. split; [|split; [|split]].
  - rewrite <- (take_drop n sorted) in Hsorted.
    by apply StronglySorted_app_1_l in Hsorted.
  - intros r Hr. apply subseteq_take in Hr. rewrite Hperm in Hr.
    apply list_elem_of_filter in Hr. tauto.
  - intros x y Hx HPx Hnot Hy.
    assert (Hxs : x ∈ sorted)
      by (rewrite Hperm; by apply list_elem_of_filter).
    rewrite <- (take_drop n sorted) in Hxs, Hsorted.
    apply elem_of_app in Hxs as [?|Hxd]; [done|].
    apply (StronglySorted_app_1_elem_of _ _ _ y x Hsorted Hy Hxd).
  - intros Hlen. rewrite take_ge; [done|]. by rewrite Hperm.
Qed.

(** The history of a user: at most 50 reminders, the latest first, all
    of them acknowledged reminders of medications of that user; a
    reminder left out is scheduled no later than any that is shown. *)
Theorem history_is_latest_own_page (u : User) (db : Session) :
  let page := History.get_medication_history u db in
  (length page <= 50)%nat
  /\ StronglySorted History.later_first page
  /\ (forall r, r ∈ page ->
        r ∈ reminders db /\ History.owned_by u r
        /\ (status r = TAKEN \/ status r = SKIPPED))
  /\ (forall x y,
        x ∈ reminders db -> History.owned_by u x -> History.acknowledged x ->
        x ∉ page -> y ∈ page -> scheduled_time x <= scheduled_time y).
Proof.
  intros page. subst page. unfold History.get_medication_history.
  destruct (page_spec (fun r => History.owned_by u r /\ History.acknowledged r)
              50 (reminders db)) as (H1 & H2 & H3 & H4 & _).
  split; [done|]. split; [done|]. split.
  - intros r Hr. destruct (H3 r Hr) as (? & ? & ?). done.
  - intros x y Hx Hown Hack. by apply H4.
Qed.

(** The legacy history endpoint does not look at the caller: with at
    most 50 acknowledged reminders in the database it returns all of
    them, whoever owns the medication. *)
Theorem legacy_history_shows_every_user (caller : User) (db : Session)
    (r : Reminder) :
  (length (filter History.acknowledged (reminders db)) <= 50)%nat ->
  r ∈ reminders db ->
  status r = TAKEN \/ status r = SKIPPED ->
  r ∈ History.get_medication_history_legacy caller db.
Proof.
  intros Hlen Hr Hack. unfold History.get_medication_history_legacy.
  destruct (page_spec History.acknowledged 50 (reminders db))
    as (_ & _ & _ & _ & Hall).
  rewrite (Hall Hlen). by apply list_elem_of_filter.
Qed.

Lemma legacy_history_shows_every_user_witness :
  Sample.reminder 2 Sample.vitamin_d 5 TAKEN
  ∈ History.get_medication_history_legacy Sample.alice (Sample.db_two TAKEN).
Proof.
  apply (legacy_history_shows_every_user Sample.alice (Sample.db_two TAKEN)).
  - vm_compute. lia.
  - apply list_elem_of_further, list_elem_of_here.
  - by left.
Defined.

(** No operation of the core acknowledges a reminder: from a database
    without TAKEN or SKIPPED reminders, both history endpoints stay empty
    over any sequence of poller ticks and stream passes. *)
Theorem history_stays_empty_under_core (ops : list CoreOp) (u : User)
    (db : Session) :
  reminder_pk db ->
  (forall r, r ∈ reminders db -> ~ History.acknowledged r) ->
  History.get_medication_history u (run_ops ops db) = []
  /\ History.get_medication_history_legacy u (run_ops ops db) = [].
Proof.
  intros Hpk Hnone.
  pose proof (LifecycleProofs.status_monotone_over_runs ops db Hpk) as Hmono.
  assert (Hnone' : forall y, y ∈ reminders (run_ops ops db) ->
                             ~ History.acknowledged y).
  { intros y Hy Hack.
    apply list_elem_of_lookup_1 in Hy as [i Hi].
    destruct (Forall2_lookup_r _ _ _ _ _ Hmono Hi) as (x & Hx & _ & Hfw).
    apply (Hnone x); [by eapply list_elem_of_lookup_2|].
    unfold History.acknowledged in *. unfold forward in Hfw.
    destruct Hack as [Hy|Hy]; rewrite Hy in Hfw;
      destruct Hfw as [->|[[_ [?|?]]|[_ ?]]]; try discriminate; tauto. }
  unfold History.get_medication_history,
    History.get_medication_history_legacy.
  rewrite (filter_ext_in _ (fun _ => False) (reminders (run_ops ops db)))
    by (intros y Hy; split; [intros [_ ?]; by apply (Hnone' y)|done]).
  rewrite (filter_ext_in History.acknowledged (fun _ => False)
             (reminders (run_ops ops db)))
    by (intros y Hy; split; [by apply Hnone'|done]).
  assert (Hempty : filter (fun _ : Reminder => False)
                          (reminders (run_ops ops db)) = []).
  { generalize (reminders (run_ops ops db)). clear. intros l.
    by induction l. }
  rewrite Hempty. done.
Qed.

Lemma history_stays_empty_under_core_witness :
  History.get_medication_history Sample.alice
    (run_ops [PollerTick Sample.env_live 20; StreamPass]
       (Sample.db_two PENDING)) = [].
Proof.
  refine (proj1 (history_stays_empty_under_core
                   [PollerTick Sample.env_live 20; StreamPass]
                   Sample.alice (Sample.db_two PENDING) _ _)).
  - unfold reminder_pk. apply (bool_decide_unpack _). vm_compute. exact I.
  - intros r Hr [Hack|Hack];
      repeat (apply elem_of_cons in Hr as [->|Hr]; [discriminate|]);
      by apply elem_of_nil in Hr.
Defined.

End HistoryExtras.

(** ** Registration, login and the token *)

Module AuthExtras.
Import Models Effects Exceptions ListFacts.

Lemma user_by_email_found db email u :
  Router.get_user_by_email db email = Some u ->
  u ∈ users db /\ user_email u = email.
Proof.
  unfold Router.get_user_by_email. intros Hu.
  apply head_Some_elem_of, list_elem_of_filter in Hu. tauto.
Qed.

Lemma user_by_email_none db email :
  Router.get_user_by_email db email = None
  <-> forall u, u ∈ users db -> user_email u <> email.
Proof.
  unfold Router.get_user_by_email. split.
  - intros Hnone u Hu Heq.
    apply (filter_nil_not_elem_of (fun x => user_email x = email)
             (users db) u); [|done|done].
    by destruct (filter _ _).
  - intros Hall.
    assert (filter (fun x => user_email x = email) (users db) = []) as ->;
      [|done].
    apply elem_of_nil_inv. intros x [Heq Hx]%list_elem_of_filter.
    by apply (Hall x).
Qed.

Lemma login_token_claims (email : string) :
  delete "exp" ({[ "sub" := email ]} : gmap string string)
  = {[ "sub" := email ]}.
Proof. by apply delete_singleton_ne. Qed.

(** What [login] comes to.  A failure is the same 401 whether the
    e-mail is unknown or the password is wrong; a success is the bearer
    token that encodes the submitted e-mail as [sub] and expires 30
    minutes after the call, and it is given only for the first user with
    that e-mail and a password that verifies against the stored hash. *)
Theorem login_outcomes (verify : Auth.PasswordVerify) (encode : Auth.JwtEncode)
    (username password : string) (utcnow : Z) (db : Session) :
  let out := Auth.login verify encode username password utcnow db in
  (forall e, out.1 = Raise e ->
     e = {| Router.http_status := 401;
            Router.http_detail := "Incorrect email or password" |}
     /\ (Router.get_user_by_email db username = None
         \/ exists u, Router.get_user_by_email db username = Some u
                      /\ verify password (hashed_password u) = false))
  /\ (forall token token_type, out.1 = Return (token, token_type) ->
        token_type = "bearer"
        /\ token = encode {[ "sub" := username ]} (utcnow + 1800)
        /\ exists u, Router.get_user_by_email db username = Some u
                     /\ verify password (hashed_password u) = true).
Proof.
  intros out. subst out. unfold Auth.login, Auth.authenticate_user.
  destruct (Router.get_user_by_email db username) as [user|] eqn:Hu.
  - destruct (verify password (hashed_password user)) eqn:Hv; cbn [negb].
    + unfold Auth.create_access_token. cbn [fst snd]. split; [discriminate|].
      intros token ty [= <- <-]. split; [done|]. split; [|by exists user].
      destruct (user_by_email_found _ _ _ Hu) as [_ ->].
      by rewrite login_token_claims.
    + cbn [fst]. split; [|discriminate].
      intros e [= <-]. split; [done|]. right. by exists user.
  - cbn [fst]. split; [|discriminate].
    intros e [= <-]. split; [done|]. by left.
Qed.

Lemma login_outcomes_witness :
  exists u,
    Router.get_user_by_email (Sample.db_two DUE) "alice@example.com" = Some u
    /\ String.eqb "x" (hashed_password u) = true.
Proof.
  apply (proj2 (login_outcomes String.eqb (fun claims exp => "token")
                  "alice@example.com" "x" 0 (Sample.db_two DUE))
           "token" "bearer").
  reflexivity.
Defined.

(** [signup] keeps e-mail addresses unique and never touches an existing
    account: an address that is already registered is refused with a
    400 and the database is left as it is; otherwise one user is appended,
    active, with e-mail notifications off. *)
Theorem signup_keeps_emails_unique (hash : Auth.PasswordHash)
    (email password : string) (db : Session) :
  NoDup (user_email <$> users db) ->
  let out := Auth.signup hash email password db in
  NoDup (user_email <$> users out.1.2)
  /\ (forall u, u ∈ users db -> u ∈ users out.1.2)
  /\ ((exists u, u ∈ users db /\ user_email u = email) ->
      out.1.1 = Raise {| Router.http_status := 400;
                         Router.http_detail := "Email already registered" |}
      /\ out.1.2 = db)
  /\ ((forall u, u ∈ users db -> user_email u <> email) ->
      exists new,
        out.1.1 = Return new
        /\ users out.1.2 = users db ++ [new]
        /\ user_email new = email /\ hashed_password new = hash password
        /\ is_active new = true /\ email_notifications new = false)
  /\ reminders out.1.2 = reminders db
  /\ push_subscriptions out.1.2 = push_subscriptions db.
Proof.
  intros Huniq out. subst out. unfold Auth.signup.
  destruct (Router.get_user_by_email db email) as [old|] eqn:Hu;
    cbn [fst snd users reminders push_subscriptions].
  - split; [done|]. split; [done|]. split; [done|]. split; [|done].
    intros Hnone. destruct (user_by_email_found _ _ _ Hu) as [Hin Heq].
    by destruct (Hnone old Hin).
  - pose proof (proj1 (user_by_email_none db email) Hu) as Hnone.
    split; [|split; [|split; [|split; [|done]]]].
    + rewrite fmap_app. apply NoDup_app. split; [done|]. split.
      * intros a Ha Ha'. apply list_elem_of_singleton in Ha'.
        apply list_elem_of_fmap in Ha as (y & Hy & Hyin).
        apply (Hnone y Hyin). by rewrite <- Hy, Ha'.
      * apply NoDup_singleton.
    + intros u Hu'. apply elem_of_app. by left.
    + intros (u & Hin & Heq). by destruct (Hnone u Hin).
    + intros _. eexists. repeat split.
Qed.

Lemma signup_keeps_emails_unique_witness :
  NoDup (user_email
           <$> users (Auth.signup (fun p => p) "carol@example.com" "pw"
                        (Sample.db_two DUE)).1.2).
Proof.
  refine (proj1 (signup_keeps_emails_unique (fun p => p) "carol@example.com"
                   "pw" (Sample.db_two DUE) _)).
  apply (bool_decide_unpack _). vm_compute. exact I.
Defined.

(** Registration, login and an authenticated request fit together: for
    an address that is not yet registered, a password hash that verifies
    and a token library that gives back the [sub] it encoded, [signup]
    creates the user, [login] with the same password returns a bearer
    token, and validating that token returns the user just created. *)
Theorem signup_login_validate (hash : Auth.PasswordHash)
    (verify : Auth.PasswordVerify) (encode : Auth.JwtEncode)
    (decode : Router.JwtDecode) (email password : string) (utcnow : Z)
    (db : Session) :
  Router.get_user_by_email db email = None ->
  verify password (hash password) = true ->
  decode (encode {[ "sub" := email ]} (utcnow + 1800))
  = Router.JwtPayload (Some email) ->
  let registered := Auth.signup hash email password db in
  exists new token,
    registered.1.1 = Return new
    /\ new ∈ users registered.1.2
    /\ (Auth.login verify encode email password utcnow registered.1.2).1
       = Return (token, "bearer")
    /\ (Router.get_current_user_from_token decode token registered.1.2).1
       = Return new.
Proof.
  intros Hnew Hverify Hjwt registered. subst registered.
  unfold Auth.signup. rewrite Hnew. cbn [fst snd].
  set (new := {| user_id := Auth.next_user_id (users db);
                 user_email := email;
                 hashed_password := hash password;
                 is_active := true; full_name := None;
                 phone_number := None; email_notifications := false |}).
  set (db1 := {| users := users db ++ [new]; reminders := reminders db;
                 push_subscriptions := push_subscriptions db |}).
  assert (Hfound : Router.get_user_by_email db1 email = Some new).
  { unfold Router.get_user_by_email, db1. cbn [users].
    rewrite filter_app.
    assert (filter (fun u => user_email u = email) (users db) = []) as ->.
    { apply elem_of_nil_inv. intros x [Heq Hx]%list_elem_of_filter.
      by apply (proj1 (user_by_email_none db email) Hnew x). }
    by rewrite filter_cons_True. }
  exists new, (encode {[ "sub" := email ]} (utcnow + 1800)).
  split; [done|]. split; [|split].
  - apply elem_of_app. right. apply list_elem_of_here.
  - unfold Auth.login, Auth.authenticate_user. rewrite Hfound.
    cbn [hashed_password new]. unfold new at 1. cbn [hashed_password].
    rewrite Hverify. cbn [negb]. unfold Auth.create_access_token.
    cbn [fst snd]. by rewrite login_token_claims.
  - unfold Router.get_current_user_from_token, Router._decode_jwt_token.
    by rewrite Hjwt, Hfound.
Qed.

Lemma signup_login_validate_witness :
  exists new token,
    (Auth.signup (fun p => p) "carol@example.com" "pw"
       (Sample.db_two DUE)).1.1 = Return new
    /\ new ∈ users (Auth.signup (fun p => p) "carol@example.com" "pw"
                      (Sample.db_two DUE)).1.2
    /\ (Auth.login String.eqb (fun claims exp => default "?" (claims !! "sub"))
          "carol@example.com" "pw" 0
          (Auth.signup (fun p => p) "carol@example.com" "pw"
             (Sample.db_two DUE)).1.2).1
       = Return (token, "bearer")
    /\ (Router.get_current_user_from_token Sample.decode_plain token
          (Auth.signup (fun p => p) "carol@example.com" "pw"
             (Sample.db_two DUE)).1.2).1
       = Return new.
Proof.
  apply (signup_login_validate (fun p => p) String.eqb
           (fun claims exp => default "?" (claims !! "sub"))
           Sample.decode_plain "carol@example.com" "pw" 0 (Sample.db_two DUE)).
  - reflexivity.
  - reflexivity.
  - unfold Sample.decode_plain. by rewrite lookup_singleton_eq.
Defined.

End AuthExtras.

(** ** Creating medications and test reminders *)

Module MedicationExtras.
Import Models Effects ListFacts.

Lemma fresh_rem_id (l : list Reminder) x :
  x ∈ l -> rem_id x <> Medications.next_rem_id l.
Proof.
  unfold Medications.next_rem_id. intros Hx.
  assert (rem_id x <= foldr Z.max 0 (rem_id <$> l)); [|lia].
  induction l as [|y l IH]; [by apply elem_of_nil in Hx|].
  rewrite fmap_cons. cbn [foldr].
  apply elem_of_cons in Hx as [->|Hx]; [lia|]. specialize (IH Hx). lia.
Qed.

Lemma parse_time_ok py_int s h m :
  Medications.parse_time py_int s = Medications.TimeOk h m ->
  0 <= h < 24 /\ 0 <= m < 60.
Proof.
  unfold Medications.parse_time.
  destruct (Medications.split_on ":" s) as [|a [|b [|? ?]]]; try discriminate.
  destruct (py_int a) as [hour|]; [|discriminate].
  destruct (py_int b) as [minute|]; [|discriminate].
  destruct (negb _); [discriminate|].
  destruct ((0 <=? hour) && (hour <? 24) && (0 <=? minute) && (minute <? 60))%bool
    eqn:Hrange; [|discriminate].
  intros [= <- <-].
  repeat (apply andb_true_iff in Hrange as [Hrange ?]). lia.
Qed.

Lemma today_spec utcnow :
  Medications.today utcnow <= utcnow < Medications.today utcnow + 86400
  /\ Medications.today utcnow mod 86400 = 0.
Proof.
  unfold Medications.today.
  pose proof (Z.mod_pos_bound utcnow 86400 ltac:(lia)) as Hb.
  split; [lia|].
  rewrite (Z.div_mod utcnow 86400) at 1 by lia.
  replace (86400 * (utcnow / 86400) + utcnow mod 86400 - utcnow mod 86400)
    with (utcnow / 86400 * 86400) by lia.
  apply Z.mod_mul. lia.
Qed.

Lemma combine_spec utcnow h m :
  0 <= h < 24 -> 0 <= m < 60 ->
  let t := Medications.combine (Medications.today utcnow) h m in
  Medications.today utcnow <= t < Medications.today utcnow + 86400
  /\ t mod 60 = 0.
Proof.
  intros Hh Hm t. subst t. unfold Medications.combine.
  destruct (today_spec utcnow) as [_ Hday].
  split; [lia|].
  apply Z.mod_divide in Hday as [q Hq]; [|lia]. rewrite Hq.
  replace (q * 86400 + h * 3600 + m * 60) with ((q * 1440 + h * 60 + m) * 60)
    by lia.
  apply Z.mod_mul. lia.
Qed.

Lemma add_reminders_ok py_int db_med day times : forall rs,
  Forall (fun s => Medications.parse_time py_int s
                   <> Medications.TimeOverflowError) times ->
  exists new,
    Medications.add_reminders py_int db_med day times rs = Some (rs ++ new)
    /\ scheduled_time <$> new
       = omap (fun s => match Medications.parse_time py_int s with
                        | Medications.TimeOk h m =>
                            Some (Medications.combine day h m)
                        | _ => None
                        end) times
    /\ Forall (fun r => status r = PENDING /\ medication r = db_med
                        /\ exists h m, 0 <= h < 24 /\ 0 <= m < 60
                             /\ scheduled_time r = Medications.combine day h m)
         new
    /\ (NoDup (rem_id <$> rs) -> NoDup (rem_id <$> (rs ++ new))).
Proof.
  induction times as [|s times IH]; intros rs Hall.
  - exists []. rewrite app_nil_r. by repeat split.
  - apply Forall_cons in Hall as [Hs Hall]. cbn [Medications.add_reminders omap list_omap].
    destruct (Medications.parse_time py_int s) as [h m| |] eqn:Hparse;
      [| |done].
    + set (r0 := {| rem_id := Medications.next_rem_id rs;
                    medication := db_med;
                    scheduled_time := Medications.combine day h m;
                    status := PENDING |}).
      destruct (IH (rs ++ [r0]) Hall) as (new & Hadd & Htimes & Hnew & Hpk).
      exists (r0 :: new). rewrite Hadd, <- app_assoc. cbn [app].
      split; [done|]. split; [by rewrite fmap_cons, Htimes|]. split.
      * apply Forall_cons. split; [|done].
        split; [done|]. split; [done|].
        destruct (parse_time_ok _ _ _ _ Hparse). by exists h, m.
      * intros Hrs. rewrite (cons_middle r0 rs new), app_assoc.
        apply Hpk. rewrite fmap_app. apply NoDup_app. split; [done|]. split.
        -- intros i Hi Hi'. apply list_elem_of_singleton in Hi'.
           apply list_elem_of_fmap in Hi as (y & Hy & Hyin).
           apply (fresh_rem_id rs y Hyin). by rewrite <- Hy, Hi'.
        -- apply NoDup_singleton.
    + destruct (IH rs Hall) as (new & Hadd & Htimes & Hnew & Hpk).
      by exists new.
Qed.

Lemma add_reminders_overflow py_int db_med day times : forall rs,
  Exists (fun s => Medications.parse_time py_int s
                   = Medications.TimeOverflowError) times ->
  Medications.add_reminders py_int db_med day times rs = None.
Proof.
  induction times as [|s times IH]; intros rs Hex.
  - by apply Exists_nil in Hex.
  - cbn [Medications.add_reminders].
    apply Exists_cons in Hex as [Hs|Hex]; [by rewrite Hs|].
    destruct (Medications.parse_time py_int s); auto.
Qed.

(** What [create_medication] stores.  One reminder per time string that
    parses, in the order of the request and with repeats kept; strings
    that do not parse are skipped silently.  Every new reminder is
    PENDING, belongs to the new medication of the caller, and is set on
    the current UTC day at a whole minute.  A number too large for the
    time constructor ends the request: no reminder is stored, not even
    for the strings before it.  Primary keys stay distinct. *)
Theorem create_medication_reminders (py_int : Medications.PyInt)
    (med : Medications.MedicationCreate) (current_user : User)
    (utcnow new_med_id : Z) (db : Session) :
  let out :=
    Medications.create_medication py_int med current_user utcnow new_med_id db in
  let day := Medications.today utcnow in
  (day <= utcnow < day + 86400)
  /\ (Exists (fun s => Medications.parse_time py_int s
                       = Medications.TimeOverflowError)
        (Medications.mc_reminders med) ->
      out = (None, db, []))
  /\ (Forall (fun s => Medications.parse_time py_int s
                       <> Medications.TimeOverflowError)
        (Medications.mc_reminders med) ->
      exists new,
        out.1.1 = Some ("Medication created successfully", new_med_id)
        /\ out.1.2 = with_reminders (reminders db ++ new) db
        /\ scheduled_time <$> new
           = omap (fun s => match Medications.parse_time py_int s with
                            | Medications.TimeOk h m =>
                                Some (Medications.combine day h m)
                            | _ => None
                            end) (Medications.mc_reminders med)
        /\ Forall (fun r => status r = PENDING
                            /\ med_id (medication r) = new_med_id
                            /\ med_user (medication r) = Some current_user
                            /\ med_name (medication r) = Medications.mc_name med
                            /\ day <= scheduled_time r < day + 86400
                            /\ scheduled_time r mod 60 = 0) new
        /\ (reminder_pk db -> reminder_pk out.1.2)).
Proof.
  intros out day. subst out day. unfold Medications.create_medication.
  split; [apply today_spec|]. split.
  - intros Hex. by rewrite add_reminders_overflow.
  - intros Hall.
    edestruct add_reminders_ok as (new & Hadd & Htimes & Hnew & Hpk);
      [exact Hall|].
    rewrite Hadd. cbn [fst snd]. exists new.
    split; [done|]. split; [done|]. split; [exact Htimes|]. split.
    + eapply Forall_impl; [exact Hnew|]. cbn beta.
      intros r (Hst & Hmed & h & m & Hh & Hm & Htime).
      rewrite Hmed, Htime. cbn [med_id med_user med_name].
      split; [done|]. split; [done|]. split; [done|]. split; [done|].
      by apply combine_spec.
    + exact Hpk.
Qed.

Lemma create_medication_reminders_witness :
  exists new,
    (Medications.create_medication
       (fun s => if String.eqb s "08" then Some 8
                 else if String.eqb s "30" then Some 30 else None)
       {| Medications.mc_name := "Aspirin"; Medications.mc_dosage := "75mg";
          Medications.mc_frequency := "Once daily";
          Medications.mc_instructions := "With water";
          Medications.mc_start_date := "2024-01-01";
          Medications.mc_end_date := None;
          Medications.mc_reminders := ["08:30"; "soon"; "08:30"] |}
       Sample.alice 100000 7 (Sample.db_two DUE)).1.2
    = with_reminders (reminders (Sample.db_two DUE) ++ new) (Sample.db_two DUE)
    /\ scheduled_time <$> new = [86400 + 8 * 3600 + 30 * 60;
                                 86400 + 8 * 3600 + 30 * 60].
Proof.
  destruct (proj2 (proj2 (create_medication_reminders
              (fun s => if String.eqb s "08" then Some 8
                        else if String.eqb s "30" then Some 30 else None)
              {| Medications.mc_name := "Aspirin"; Medications.mc_dosage := "75mg";
                 Medications.mc_frequency := "Once daily";
                 Medications.mc_instructions := "With water";
                 Medications.mc_start_date := "2024-01-01";
                 Medications.mc_end_date := None;
                 Medications.mc_reminders := ["08:30"; "soon"; "08:30"] |}
              Sample.alice 100000 7 (Sample.db_two DUE))))
    as (new & _ & Hdb & Htimes & _).
  - repeat constructor; vm_compute; discriminate.
  - exists new. split; [exact Hdb|]. exact Htimes.
Defined.

(** A reminder time that has already passed on the current UTC day is
    not moved to the next day: the reminder is created in the past, and
    the next worker tick finds it due. *)
Theorem past_time_is_due_at_once (env : Worker.Env)
    (py_int : Medications.PyInt) (med : Medications.MedicationCreate)
    (current_user : User) (utcnow new_med_id now : Z) (db : Session)
    (s : string) (h m : Z) :
  Forall (fun s => Medications.parse_time py_int s
                   <> Medications.TimeOverflowError)
    (Medications.mc_reminders med) ->
  s ∈ Medications.mc_reminders med ->
  Medications.parse_time py_int s = Medications.TimeOk h m ->
  h * 3600 + m * 60 <= utcnow mod 86400 ->
  utcnow <= now ->
  let created :=
    Medications.create_medication py_int med current_user utcnow new_med_id db in
  let ticked := Worker.check_reminders env now created.1.2 in
  exists r,
    r ∈ reminders ticked.1.2
    /\ status r = DUE
    /\ med_id (medication r) = new_med_id
    /\ scheduled_time r = utcnow - utcnow mod 86400 + h * 3600 + m * 60
    /\ scheduled_time r <= utcnow.
Proof.
  intros Hall Hs Hparse Hpast Hnow created ticked. subst created ticked.
  unfold Medications.create_medication.
  edestruct add_reminders_ok as (new & Hadd & Htimes & Hnew & _);
    [exact Hall|].
  rewrite Hadd. cbn [fst snd].
  assert (Hslot : Medications.combine (Medications.today utcnow) h m
                  ∈ scheduled_time <$> new).
  { rewrite Htimes. apply list_elem_of_omap. exists s.
    split; [done|]. by rewrite Hparse. }
  apply list_elem_of_fmap in Hslot as (r0 & Htime & Hr0).
  pose proof (proj1 (Forall_forall _ _) Hnew r0 Hr0) as (Hst & Hmed & _).
  match goal with
  | |- context [Worker.check_reminders env now ?d] =>
      destruct (WorkerLemmas.check_reminders_frame env now d) as (_ & Hr & _ & _);
      rewrite Hr
  end.
  assert (Hin : r0 ∈ reminders db ++ new) by (apply elem_of_app; by right).
  unfold Medications.combine, Medications.today in Htime.
  exists (set_status DUE r0). split; [|split; [done|split; [|split]]].
  - apply StoreLemmas.elem_of_mark_hit; [exact Hin|].
    apply list_elem_of_fmap. exists r0. split; [done|].
    apply WorkerLemmas.elem_of_query_pending_due. split; [|exact Hin].
    split; [done|]. lia.
  - cbn [set_status medication]. by rewrite Hmed.
  - cbn [set_status scheduled_time]. lia.
  - cbn [set_status scheduled_time]. lia.
Qed.

Lemma past_time_is_due_at_once_witness :
  exists r,
    r ∈ reminders
          (Worker.check_reminders Sample.env_live
             130000
             (Medications.create_medication
                (fun s => if String.eqb s "08" then Some 8
                          else if String.eqb s "30" then Some 30 else None)
                {| Medications.mc_name := "Aspirin";
                   Medications.mc_dosage := "75mg";
                   Medications.mc_frequency := "Once daily";
                   Medications.mc_instructions := "With water";
                   Medications.mc_start_date := "2024-01-01";
                   Medications.mc_end_date := None;
                   Medications.mc_reminders := ["08:30"] |}
                Sample.alice 130000 7 (Sample.db_two DUE)).1.2).1.2
    /\ status r = DUE
    /\ med_id (medication r) = 7
    /\ scheduled_time r = 130000 - 130000 mod 86400 + 8 * 3600 + 30 * 60
    /\ scheduled_time r <= 130000.
Proof.
  apply (past_time_is_due_at_once
           Sample.env_live
           (fun s => if String.eqb s "08" then Some 8
                     else if String.eqb s "30" then Some 30 else None)
           {| Medications.mc_name := "Aspirin"; Medications.mc_dosage := "75mg";
              Medications.mc_frequency := "Once daily";
              Medications.mc_instructions := "With water";
              Medications.mc_start_date := "2024-01-01";
              Medications.mc_end_date := None;
              Medications.mc_reminders := ["08:30"] |}
           Sample.alice 130000 7 130000 (Sample.db_two DUE) "08:30" 8 30).
  - repeat constructor; vm_compute; discriminate.
  - apply list_elem_of_here.
  - reflexivity.
  - vm_compute. discriminate.
  - lia.
Defined.

Lemma add_minutes_in_range utcnow minutes :
  Medications.timedelta_min <= minutes * 60 <= Medications.timedelta_max ->
  Medications.datetime_min <= utcnow + minutes * 60
  <= Medications.datetime_max ->
  Medications.add_minutes utcnow minutes = Some (utcnow + minutes * 60).
Proof.
  intros [Hd1 Hd2] [Ht1 Ht2]. unfold Medications.add_minutes.
  apply Z.leb_le in Hd1, Hd2, Ht1, Ht2. cbv zeta.
  by rewrite Hd1, Hd2, Ht1, Ht2.
Qed.

(** A test reminder goes all the way through.  When the requested offset
    and the due time it gives are within the range of Python's
    [timedelta] and [datetime], the request stores the reminder; once
    its due time has come, a worker tick and then a pass of the
    notification stream deliver one event for it that names the test
    medication, is flagged high-risk and carries the disclaimer exactly
    when [high_risk] was requested, and the reminder ends SENT. *)
Theorem test_trigger_reaches_stream (env : Worker.Env) (minutes : Z)
    (high_risk : bool) (current_user : User) (utcnow new_med_id now : Z)
    (db : Session) :
  Medications.timedelta_min <= minutes * 60 <= Medications.timedelta_max ->
  Medications.datetime_min <= utcnow + minutes * 60
  <= Medications.datetime_max ->
  utcnow + minutes * 60 <= now ->
  exists med db1 tr1,
    Medications.test_trigger minutes high_risk current_user utcnow
      new_med_id db = Some (med, db1, tr1)
    /\ let ticked := Worker.check_reminders env now db1 in
       let streamed := Router.stream_pass ticked.1.2 in
       1 <= ticked.1.1
       /\ exists r,
            rem_id r = Medications.next_rem_id (reminders db)
            /\ medication r = med
            /\ scheduled_time r = utcnow + minutes * 60
            /\ med_user (medication r) = Some current_user
            /\ Yield (Router.stream_data r) ∈ streamed.2
            /\ dict_get "medicationName" (Router.stream_data r)
               = Some (JStr (if high_risk then "Warfarin" else "Vitamin D"))
            /\ dict_get "isHighRisk" (Router.stream_data r)
               = Some (JBool high_risk)
            /\ carries_disclaimer (Router.stream_data r) = high_risk
            /\ set_status SENT r ∈ reminders streamed.1.
Proof.
  intros Hdelta Hrange Hdue. unfold Medications.test_trigger.
  rewrite (add_minutes_in_range utcnow minutes Hdelta Hrange).
  eexists _, _, _. split; [reflexivity|].
  match goal with
  | |- context [Worker.check_reminders env now ?d] => set (db1 := d)
  end.
  match goal with
  | |- context [medication _ = ?m] => set (med := m)
  end.
  set (ticked := Worker.check_reminders env now db1).
  set (streamed := Router.stream_pass ticked.1.2).
  set (r0 := {| rem_id := Medications.next_rem_id (reminders db);
                medication := med;
                scheduled_time := utcnow + minutes * 60;
                status := PENDING |}).
  assert (Hin0 : r0 ∈ reminders db1).
  { unfold db1. cbn [with_reminders reminders].
    apply elem_of_app. right. apply list_elem_of_here. }
  assert (Hq0 : r0 ∈ Worker.query_pending_due now db1).
  { apply WorkerLemmas.elem_of_query_pending_due. split; [|exact Hin0].
    split; [done|]. exact Hdue. }
  destruct (WorkerLemmas.check_reminders_frame env now db1)
    as (_ & Hr & _ & Hn).
  fold ticked in Hr, Hn.
  assert (Hin1 : set_status DUE r0 ∈ reminders ticked.1.2).
  { rewrite Hr. apply StoreLemmas.elem_of_mark_hit; [exact Hin0|].
    apply list_elem_of_fmap. by exists r0. }
  assert (Hq1 : set_status DUE r0 ∈ Router.query_due ticked.1.2).
  { apply list_elem_of_filter. by split. }
  split.
  { rewrite Hn. destruct (Worker.query_pending_due now db1);
      [by apply elem_of_nil in Hq0|]. cbn [length]. lia. }
  exists (set_status DUE r0).
  unfold streamed. rewrite StreamProofs.stream_pass_spec. cbn [fst snd].
  split; [done|]. split; [done|]. split; [done|]. split.
  { unfold med. by destruct high_risk. }
  split.
  { apply list_elem_of_fmap. by exists (set_status DUE r0). }
  split; [|split; [|split]].
  - unfold med. by destruct high_risk.
  - unfold med. by destruct high_risk.
  - unfold med. by destruct high_risk.
  - cbn [with_reminders reminders].
    apply StoreLemmas.elem_of_mark_hit; [exact Hin1|].
    apply list_elem_of_fmap. by exists (set_status DUE r0).
Qed.

Lemma test_trigger_reaches_stream_witness :
  exists med db1 tr1,
    Medications.test_trigger 0 true Sample.alice 1000 7 (Sample.db_two DUE)
    = Some (med, db1, tr1)
    /\ 1 <= (Worker.check_reminders Sample.env_live 1000 db1).1.1.
Proof.
  destruct (test_trigger_reaches_stream Sample.env_live 0 true Sample.alice
              1000 7 1000 (Sample.db_two DUE))
    as (med & db1 & tr1 & Hcreated & Hticked & _).
  - vm_compute. split; discriminate.
  - vm_compute. split; discriminate.
  - lia.
  - exists med, db1, tr1. split; [exact Hcreated|exact Hticked].
Defined.

End MedicationExtras.

(** ** The text of an exception *)

Module ExceptionExtras.
Import Exceptions ExceptionClasses ListFacts.

(** However long the response of the AI service is, the text of an
    [AIResponseParseError] stays short: a response of up to 200
    characters is quoted as it is, a longer one is cut to its first 200
    characters between [Raw: ] and [...], and the whole text never
    exceeds 247 characters.  Characters are code points, as [len] and the
    slice count them. *)
Theorem parse_error_text_is_bounded (raw_response : option string) :
  let e := AIResponseParseError raw_response in
  (PyStr.len (exc_str e) <= 247)%nat
  /\ (forall raw, raw_response = Some raw ->
        (PyStr.len raw <= 200)%nat -> exc_details e = Some raw)
  /\ (forall raw, raw_response = Some raw ->
        (200 < PyStr.len raw)%nat ->
        exc_details e = Some ("Raw: " +:+ PyStr.take 200 raw +:+ "...")
        /\ exc_str e
           = "Failed to parse AI response | Details: Raw: "
             +:+ PyStr.take 200 raw +:+ "..."
        /\ PyStr.len (exc_str e) = 247%nat).
Proof.
  intros e. subst e. unfold AIResponseParseError, exc_str.
  cbn [exc_details exc_message].
  destruct raw_response as [raw|].
  2:{ split; [vm_compute; lia|]. split; intros raw Hraw; discriminate Hraw. }
  destruct (Nat.ltb_spec 200 (PyStr.len raw)) as [Hlong|Hshort].
  - assert (Htruthy : PyStr.truthy raw = true).
    { destruct raw; [cbn [PyStr.len] in Hlong; lia|done]. }
    rewrite Htruthy. cbn [andb PyStr.truthy append].
    assert (Hlen : PyStr.len
                     ("Failed to parse AI response | Details: Raw: "
                      +:+ PyStr.take 200 raw +:+ "...") = 247%nat).
    { rewrite !len_app, len_take_long by lia.
      change (PyStr.len "Failed to parse AI response | Details: Raw: ")
        with 44%nat.
      change (PyStr.len "...") with 3%nat. lia. }
    split; [|split].
    + change (PyStr.len
                ("Failed to parse AI response | Details: Raw: "
                 +:+ PyStr.take 200 raw +:+ "...") <= 247)%nat.
      by rewrite Hlen.
    + intros r [= <-] Hr. lia.
    + intros r [= <-] _. split; [done|]. split; [done|]. exact Hlen.
  - rewrite andb_false_r. split; [|split].
    + destruct (PyStr.truthy raw); [|vm_compute; lia].
      rewrite !len_app.
      change (PyStr.len "Failed to parse AI response") with 27%nat.
      change (PyStr.len " | Details: ") with 12%nat. lia.
    + by intros r [= <-] _.
    + intros r [= <-] Hr. lia.
Qed.

End ExceptionExtras.
